(** * Enhanced entertainment discovery: the multi-agent recommendation pipeline

    A shallow embedding of [agents/enhanced_entertainment_discovery.py].

    Conventions of the embedding.
    - Python floats are read as exact rationals ([Q]); [round(x, n)] is
      rounding to [n] decimals, ties to even.
    - A Python dict used as a record becomes a [Record]; a key read with
      [d.get(k, default)] becomes an [option] field read with [default].
    - A dict used as a map ([genre_weights], the mood table, the genre
      distribution) is a [gmap].
    - The show dicts are shared, mutable objects: every stage works on the
      same objects.  They live in a [Store] and lists hold references.
    - [random] and the clock are an explicit oracle ([Random]).
    - [Agent.log] and [Agent.remember] only write to the console and to a
      journal nobody reads back, so they are left out. *)

From Stdlib Require Import QArith Qround Qminmax Permutation Sorted Lqa.
From stdpp Require Import gmap strings list fin_maps.

(** ** Python numbers *)

Module Py.

(** [round(x)] to an integer, ties to even. *)
Definition round_half_even (x : Q) : Z :=
  let f := Qfloor x in
  match Qcompare (x - inject_Z f) (1 # 2) with
  | Lt => f
  | Gt => (f + 1)%Z
  | Eq => if Z.even f then f else (f + 1)%Z
  end.

Definition pow10 (n : nat) : Q := inject_Z (10 ^ Z.of_nat n).

(** [round(x, ndigits)]. *)
Definition round (x : Q) (ndigits : nat) : Q :=
  inject_Z (round_half_even (x * pow10 ndigits)) / pow10 ndigits.

(** [sum(xs)] for numbers, starting from [0]. *)
Definition sum (xs : list Q) : Q := foldl Qplus 0%Q xs.

(** [len(xs)] as a number. *)
Definition len {A} (xs : list A) : Q := inject_Z (Z.of_nat (length xs)).

(** [l.index(x)]: position of the first occurrence, [None] for the
    [ValueError]. *)
Fixpoint index (x : string) (l : list string) : option nat :=
  match l with
  | [] => None
  | y :: l' => if String.eqb y x then Some 0 else S <$> index x l'
  end.

(** [x in l] for a list of strings. *)
Definition contains (x : string) (l : list string) : bool :=
  bool_decide (x ∈ l).

(** [l[-n:]]. *)
Definition last_n {A} (n : nat) (l : list A) : list A :=
  drop (length l - n) l.

(** [s.lower()] on ASCII text. *)
Definition lower_ascii (c : Ascii.ascii) : Ascii.ascii :=
  if (Ascii.leb (Ascii.ascii_of_nat 65) c
      && Ascii.leb c (Ascii.ascii_of_nat 90))%bool
  then Ascii.ascii_of_nat (Ascii.nat_of_ascii c + 32)
  else c.

Fixpoint lower (s : string) : string :=
  match s with
  | EmptyString => EmptyString
  | String c s' => String (lower_ascii c) (lower s')
  end.

(** [kw in s] for strings: [kw] occurs as a substring of [s]. *)
Fixpoint substring_of (kw s : string) : bool :=
  if String.prefix kw s then true
  else match s with
       | EmptyString => false
       | String _ s' => substring_of kw s'
       end.

(** [sorted(l, key=key, reverse=True)].  Python's sort is stable, also
    with [reverse=True]; for a total preorder on the keys the stable
    sort of a list is unique, and it is the one straight insertion
    computes. *)
Section Sorted.
Context {A : Type} (key : A → Q).

Fixpoint insert_desc (x : A) (l : list A) : list A :=
  match l with
  | [] => [x]
  | y :: l' =>
      if Qle_bool (key y) (key x) then x :: y :: l'
      else y :: insert_desc x l'
  end.

Definition sorted_rev (l : list A) : list A := foldr insert_desc [] l.
End Sorted.

(** The exceptions the pipeline can meet. *)
Inductive Exception := ZeroDivisionError.

Definition str (e : Exception) : string :=
  match e with ZeroDivisionError => "division by zero" end.

(** [a / b] for numbers. *)
Definition truediv (a b : Q) : Exception + Q :=
  if Qeq_bool b 0 then inl ZeroDivisionError else inr (a / b)%Q.

End Py.

(** ** Data model *)

(** What an agent's [execute] returns:
    [{"status": ..., "data": ..., "agent": ...}]. *)
Record AgentResult (A : Type) := mkAgentResult {
  status : string;
  data : A;
  agent : string
}.
Arguments mkAgentResult {A}.
Arguments status {A}.
Arguments data {A}.
Arguments agent {A}.

Definition success {A} (name : string) (d : A) : AgentResult A :=
  mkAgentResult "success" d name.

Record HistoryEntry := mkHistoryEntry {
  h_title : string;
  h_genre : string
}.

(** [user_profile]; every key is optional, read with [.get]. *)
Record UserProfile := mkUserProfile {
  viewing_history : option (list HistoryEntry);
  favorite_genres : option (list string);
  disliked_genres : option (list string);
  preferred_length : option string;
  favorite_actors : option (list string);
  min_rating : option Q;
  freshness : option string
}.

Record Preferences := mkPreferences {
  genre_weights : gmap string Q;
  p_preferred_length : string;
  p_favorite_actors : list string;
  watched_recently : list string;
  preferred_rating_threshold : Q;
  content_freshness : string
}.

(** [context]. *)
Record Context := mkContext {
  time_of_day : option string;
  day_of_week : option string;
  query : option string;
  weather : option string
}.

Record MoodProfile := mkMoodProfile {
  detected_mood : string;
  m_time_of_day : string;
  m_day_of_week : string;
  suggested_tones : list string;
  suggested_length : string;
  energy_level : string
}.

(** [filters]. *)
Record Filters := mkFilters {
  max_content_rating : option string;
  exclude_genres : option (list string);
  min_quality_score : option Q;
  content_warnings_ok : option bool
}.

(** The fixed rating hierarchy; a show's content rating is always one of
    its six labels. *)
Inductive ContentRating := G | PG | PG13 | TV14 | R | TVMA.

Definition label (c : ContentRating) : string :=
  match c with
  | G => "G" | PG => "PG" | PG13 => "PG-13"
  | TV14 => "TV-14" | R => "R" | TVMA => "TV-MA"
  end.

Definition rating_hierarchy : list string :=
  ["G"; "PG"; "PG-13"; "TV-14"; "R"; "TV-MA"].

(** A title as the content provider lists it. *)
Record Seed := mkSeed {
  s_title : string;
  s_genre : string;
  s_rating : Q
}.

Record ReviewData := mkReviewData {
  imdb : Q;
  rotten_tomatoes : Q;
  metacritic : Q;
  audience_score : Q
}.

(** The four keys [ReviewAggregationAgent] writes together. *)
Record ReviewFields := mkReviewFields {
  review_data : ReviewData;
  trust_score : Q;
  review_consensus : string;
  total_reviews : Z
}.

Record TrendData := mkTrendData {
  trending_score : Q;
  social_mentions : Z;
  search_volume : Z;
  watch_velocity : string;
  viral_moments : Z;
  is_trending : bool;
  trending_rank : option Z
}.

Record SocialProof := mkSocialProof {
  friends_watching : Z;
  recommended_by_influencers : Z;
  award_nominations : Z
}.

(** The two keys [TrendAnalysisAgent] writes together. *)
Record TrendFields := mkTrendFields {
  trend_data : TrendData;
  social_proof : SocialProof
}.

Record FilterStatus := mkFilterStatus {
  passes_rating : bool;
  passes_genre : bool;
  passes_quality : bool;
  passes_warnings : bool;
  approved : bool
}.

(** The three keys [ContentFilterAgent] writes together. *)
Record FilterFields := mkFilterFields {
  content_rating : ContentRating;
  content_warnings : list string;
  filter_status : FilterStatus
}.

(** A show dict.  [title], [genre], [rating] come from the provider and
    [platform] is set when the coordinator collects the shows; the other
    keys are absent until a stage adds them. *)
Record Show := mkShow {
  title : string;
  genre : string;
  rating : Q;
  platform : string;
  review : option ReviewFields;
  trend : option TrendFields;
  filtering : option FilterFields;
  personalized_score : option Q;
  final_score : option Q
}.

Definition set_platform (p : string) (s : Show) : Show :=
  mkShow (title s) (genre s) (rating s) p (review s) (trend s)
         (filtering s) (personalized_score s) (final_score s).

Definition set_review (r : ReviewFields) (s : Show) : Show :=
  mkShow (title s) (genre s) (rating s) (platform s) (Some r) (trend s)
         (filtering s) (personalized_score s) (final_score s).

Definition set_trend (t : TrendFields) (s : Show) : Show :=
  mkShow (title s) (genre s) (rating s) (platform s) (review s) (Some t)
         (filtering s) (personalized_score s) (final_score s).

Definition set_filtering (f : FilterFields) (s : Show) : Show :=
  mkShow (title s) (genre s) (rating s) (platform s) (review s) (trend s)
         (Some f) (personalized_score s) (final_score s).

Definition set_personalized_score (x : Q) (s : Show) : Show :=
  mkShow (title s) (genre s) (rating s) (platform s) (review s) (trend s)
         (filtering s) (Some x) (final_score s).

Definition set_final_score (x : Q) (s : Show) : Show :=
  mkShow (title s) (genre s) (rating s) (platform s) (review s) (trend s)
         (filtering s) (personalized_score s) (Some x).

(** [item.update(other)]: every key of [other] overwrites the key of
    [item]; keys [other] lacks are kept. *)
Definition update (other item : Show) : Show :=
  mkShow (title other) (genre other) (rating other) (platform other)
         (from_option Some (review item) (review other))
         (from_option Some (trend item) (trend other))
         (from_option Some (filtering item) (filtering other))
         (from_option Some (personalized_score item) (personalized_score other))
         (from_option Some (final_score item) (final_score other)).

(** *** The store of show objects *)

(** A reference to a show dict: its position in the store. *)
Abbreviation Ref := nat (only parsing).
Abbreviation Store := (list Show) (only parsing).

(** [for item in refs: item[...] = ...]: the loop body [f] gets the
    position [k] of the item in the list (it selects the random draws of
    that iteration) and the item's current state. *)
Fixpoint mutate_each (f : nat → Show → Show) (k : nat) (refs : list Ref)
    (σ : Store) : Store :=
  match refs with
  | [] => σ
  | r :: rest => mutate_each f (S k) rest (alter (f k) r σ)
  end.

(** The shows a list of references points to. *)
Definition deref (σ : Store) (refs : list Ref) : list Show :=
  omap (λ r, σ !! r) refs.

(** ** The random source and the clock *)

Record ReviewDraw := mkReviewDraw {
  rt_jitter : Q;          (* random.uniform(-5, 5) *)
  mc_jitter : Q;          (* random.uniform(-8, 8) *)
  audience_jitter : Q;    (* random.uniform(-0.5, 0.5) *)
  reviews_count : Z       (* random.randint(1000, 50000) *)
}.

Record TrendDraw := mkTrendDraw {
  days_since_release : Z; (* now - 1 January of random.randint(2020, 2024) *)
  d_social_mentions : Z;
  d_search_volume : Z;
  d_watch_velocity : string;
  d_viral_moments : Z;
  d_trending_rank : Z;
  d_friends_watching : Z;
  d_influencers : Z;
  d_award_nominations : Z
}.

Record FilterDraw := mkFilterDraw {
  d_content_rating : ContentRating;   (* random.choice(rating_hierarchy) *)
  d_content_warnings : list string    (* random.sample([...], k) *)
}.

Record Random := mkRandom {
  review_draw : nat → ReviewDraw;
  trend_draw : nat → TrendDraw;
  filter_draw : nat → FilterDraw;
  (* the order in which a [set] built from these strings is iterated *)
  set_order : list string → list string
}.

(** Iterating a set visits every element once. *)
Definition set_order_ok (rnd : Random) : Prop :=
  ∀ l, NoDup (set_order rnd l) ∧ ∀ x, x ∈ set_order rnd l ↔ x ∈ l.

(** ** The agents *)

Module PersonalizationAgent.

Definition name : string := "PersonalizeBot".

(** The two loops that fill [genre_weights]. *)
Definition boost_favorites (favorites : list string) (w : gmap string Q)
  : gmap string Q :=
  foldl (λ w' g, <[g := 1.5%Q]> w') w favorites.

Definition reduce_disliked (disliked : list string) (w : gmap string Q)
  : gmap string Q :=
  foldl (λ w' g, <[g := 0.3%Q]> w') w disliked.

Definition execute (user_profile : UserProfile) : AgentResult Preferences :=
  let history := default [] (viewing_history user_profile) in
  let favorites := default ["sci-fi"; "drama"] (favorite_genres user_profile) in
  let disliked := default ["horror"] (disliked_genres user_profile) in
  let length_pref := default "any" (preferred_length user_profile) in
  let weights := reduce_disliked disliked (boost_favorites favorites ∅) in
  success name
    {| genre_weights := weights;
       p_preferred_length := length_pref;
       p_favorite_actors := default [] (favorite_actors user_profile);
       watched_recently := h_title <$> Py.last_n 5 history;
       preferred_rating_threshold := default 7.0%Q (min_rating user_profile);
       content_freshness := default "balanced" (freshness user_profile) |}.

End PersonalizationAgent.

Module MoodDetectionAgent.

Definition name : string := "MoodBot".

(** In the order the dict literal lists them. *)
Definition mood_indicators : list (string * list string) :=
  [ ("relaxed", ["chill"; "relax"; "unwind"; "cozy"]);
    ("energetic", ["exciting"; "action"; "intense"; "thrilling"]);
    ("thoughtful", ["deep"; "meaningful"; "drama"; "complex"]);
    ("fun", ["fun"; "comedy"; "light"; "entertaining"]) ].

Fixpoint detect (indicators : list (string * list string)) (text : string)
  : string :=
  match indicators with
  | [] => "neutral"
  | (mood, keywords) :: rest =>
      if existsb (λ kw, Py.substring_of kw (Py.lower text)) keywords
      then mood
      else detect rest text
  end.

Definition time_suggestions : list (string * list string) :=
  [ ("morning", ["light"; "uplifting"; "short"]);
    ("afternoon", ["engaging"; "moderate-length"]);
    ("evening", ["immersive"; "long-form"]);
    ("night", ["relaxing"; "comfort-watch"]) ].

Fixpoint assoc_get {A} (k : string) (l : list (string * A)) : option A :=
  match l with
  | [] => None
  | (k', v) :: rest => if String.eqb k' k then Some v else assoc_get k rest
  end.

Definition execute (context : Context) : AgentResult MoodProfile :=
  let time := default "evening" (time_of_day context) in
  let day := default "friday" (day_of_week context) in
  let query_text := default "" (query context) in
  let mood := detect mood_indicators query_text in
  success name
    {| detected_mood := mood;
       m_time_of_day := time;
       m_day_of_week := day;
       suggested_tones := default ["any"] (assoc_get time time_suggestions);
       suggested_length :=
         if Py.contains day ["friday"; "saturday"] then "long" else "medium";
       energy_level :=
         if String.eqb mood "energetic" then "high" else "moderate" |}.

End MoodDetectionAgent.

Module ReviewAggregationAgent.

Definition name : string := "ReviewBot".

(** [sum((s - sum(scores)/len(scores))**2 for s in scores) / len(scores)];
    [scores] is a list display of three numbers, so no division by zero. *)
Definition variance (scores : list Q) : Q :=
  let mean := (Py.sum scores / Py.len scores)%Q in
  (Py.sum ((λ s, (s - mean) ^ 2)%Q <$> scores) / Py.len scores)%Q.

(** The three primary scores of an item. *)
Definition scores (d : ReviewDraw) (item : Show) : list Q :=
  let imdb_score := rating item in
  let rt_score := (imdb_score * 10 + rt_jitter d)%Q in
  let metacritic := (imdb_score * 10 + mc_jitter d)%Q in
  [(imdb_score * 10)%Q; rt_score; metacritic].

(** The local variable [trust_score]. *)
Definition trust (scores : list Q) : Q :=
  Qmax 0 (Qmin 10 (10 - variance scores / 20)).

Definition aggregate (d : ReviewDraw) (item : Show) : Show :=
  let imdb_score := rating item in
  let rt_score := (imdb_score * 10 + rt_jitter d)%Q in
  let metacritic := (imdb_score * 10 + mc_jitter d)%Q in
  let audience := (imdb_score + audience_jitter d)%Q in
  let reviews :=
    {| imdb := Py.round imdb_score 1;
       rotten_tomatoes := Qmax 0 (Qmin 100 (Py.round rt_score 1));
       metacritic := Qmax 0 (Qmin 100 (Py.round metacritic 1));
       audience_score := Py.round audience 1 |} in
  let v := variance (scores d item) in
  let trust_score := trust (scores d item) in
  set_review
    {| review_data := reviews;
       trust_score := Py.round trust_score 1;
       review_consensus := if Qlt_le_dec v 50 then "strong" else "mixed";
       total_reviews := reviews_count d |}
    item.

(** Returns the new store and [enriched_content]. *)
Definition execute (rnd : Random) (content_list : list Ref) (σ : Store)
  : Store * AgentResult (list Ref) :=
  (mutate_each (λ k, aggregate (review_draw rnd k)) 0 content_list σ,
   success name content_list).

End ReviewAggregationAgent.

Module TrendAnalysisAgent.

Definition name : string := "TrendBot".

Definition analyze (d : TrendDraw) (item : Show) : Show :=
  let base_popularity := (rating item * 10)%Q in
  let recency_boost :=
    Qmax 0 (30 - inject_Z (days_since_release d) / 10) in
  let trend_score := (base_popularity + recency_boost)%Q in
  let trending := if Qlt_le_dec 85 trend_score then true else false in
  set_trend
    {| trend_data :=
         {| trending_score := Py.round trend_score 1;
            social_mentions := d_social_mentions d;
            search_volume := d_search_volume d;
            watch_velocity := d_watch_velocity d;
            viral_moments := d_viral_moments d;
            is_trending := trending;
            trending_rank :=
              if trending then Some (d_trending_rank d) else None |};
       social_proof :=
         {| friends_watching := d_friends_watching d;
            recommended_by_influencers := d_influencers d;
            award_nominations := d_award_nominations d |} |}
    item.

Definition execute (rnd : Random) (content_list : list Ref) (σ : Store)
  : Store * AgentResult (list Ref) :=
  (mutate_each (λ k, analyze (trend_draw rnd k)) 0 content_list σ,
   success name content_list).

End TrendAnalysisAgent.

Module ContentFilterAgent.

Definition name : string := "FilterBot".

(** [rating_hierarchy.index(item["content_rating"])]. *)
Definition rating_level (c : ContentRating) : nat :=
  match c with
  | G => 0 | PG => 1 | PG13 => 2 | TV14 => 3 | R => 4 | TVMA => 5
  end.

(** [rating_hierarchy.index(max_rating) if max_rating in rating_hierarchy
    else len(rating_hierarchy)]. *)
Definition max_rating_level (max_rating : string) : nat :=
  if Py.contains max_rating rating_hierarchy
  then default 0 (Py.index max_rating rating_hierarchy)
  else length rating_hierarchy.

(** The body of the loop: the simulated rating and warnings, the four
    checks and the verdict. *)
Definition check (filters : Filters) (d : FilterDraw) (item : Show)
  : FilterFields :=
  let max_rating := default "TV-MA" (max_content_rating filters) in
  let excluded := default [] (exclude_genres filters) in
  let min_quality := default 7.0%Q (min_quality_score filters) in
  let warnings_ok := default true (content_warnings_ok filters) in
  let item_rating := d_content_rating d in
  let item_warnings := d_content_warnings d in
  let p_rating := rating_level item_rating <=? max_rating_level max_rating in
  let p_genre := negb (Py.contains (genre item) excluded) in
  let p_quality := Qle_bool min_quality (rating item) in
  let p_warnings := warnings_ok || Py.contains "none" item_warnings in
  {| content_rating := item_rating;
     content_warnings := item_warnings;
     filter_status :=
       {| passes_rating := p_rating;
          passes_genre := p_genre;
          passes_quality := p_quality;
          passes_warnings := p_warnings;
          approved := forallb id [p_rating; p_genre; p_quality; p_warnings] |}
  |}.

(** The loop over [content_list]: the store, [filtered_content] and
    [filtered_out]. *)
Fixpoint partition_loop (filters : Filters) (rnd : Random) (k : nat)
    (content_list : list Ref) (σ : Store)
  : Store * list Ref * list Ref :=
  match content_list with
  | [] => (σ, [], [])
  | r :: rest =>
      match σ !! r with
      | None => partition_loop filters rnd (S k) rest σ
      | Some item =>
          let verdict := check filters (filter_draw rnd k) item in
          let '(σ', filtered_content, filtered_out) :=
            partition_loop filters rnd (S k) rest
                           (alter (set_filtering verdict) r σ) in
          if approved (filter_status verdict)
          then (σ', r :: filtered_content, filtered_out)
          else (σ', filtered_content, r :: filtered_out)
      end
  end.

Record FilterStats := mkFilterStats {
  total_checked : nat;
  fs_approved : nat;
  fs_filtered : nat
}.

Record FilterData := mkFilterData {
  fd_approved : list Ref;
  fd_filtered_out : list Ref;
  filter_stats : FilterStats
}.

Definition execute (rnd : Random) (content_list : list Ref)
    (filters : Filters) (σ : Store) : Store * AgentResult FilterData :=
  let '(σ', filtered_content, filtered_out) :=
    partition_loop filters rnd 0 content_list σ in
  (σ',
   success name
     {| fd_approved := filtered_content;
        fd_filtered_out := filtered_out;
        filter_stats :=
          {| total_checked := length content_list;
             fs_approved := length filtered_content;
             fs_filtered := length filtered_out |} |}).

End ContentFilterAgent.

Module ResearchAgent.

Definition name : string := "ResearchBot".

Definition results : list (string * list Seed) :=
  [ ("netflix",
     [ mkSeed "Stranger Things" "sci-fi" 8.7;
       mkSeed "The Crown" "drama" 8.6;
       mkSeed "Arcane" "animation" 9.0;
       mkSeed "Wednesday" "comedy" 8.1 ]);
    ("disney_plus",
     [ mkSeed "The Mandalorian" "sci-fi" 8.7;
       mkSeed "Loki" "sci-fi" 8.2;
       mkSeed "Andor" "sci-fi" 8.6 ]);
    ("hbo_max",
     [ mkSeed "House of the Dragon" "fantasy" 8.5;
       mkSeed "The Last of Us" "drama" 8.8;
       mkSeed "Succession" "drama" 8.9 ]);
    ("prime_video",
     [ mkSeed "The Boys" "action" 8.7;
       mkSeed "The Marvelous Mrs. Maisel" "comedy" 8.7 ]);
    ("apple_tv",
     [ mkSeed "Ted Lasso" "comedy" 8.8;
       mkSeed "Severance" "sci-fi" 8.7 ]) ].

Definition execute (task : string) : AgentResult (list (string * list Seed)) :=
  success name results.

End ResearchAgent.

Module AnalysisAgent.

Definition name : string := "AnalyzerBot".

(** [for platform, shows in data.items(): for show in shows:
    show["platform"] = platform; all_shows.append(show)]. *)
Fixpoint collect (data : list (string * list Ref)) (σ : Store)
  : Store * list Ref :=
  match data with
  | [] => (σ, [])
  | (platform, shows) :: rest =>
      let σ1 := mutate_each (λ _, set_platform platform) 0 shows σ in
      let '(σ2, others) := collect rest σ1 in
      (σ2, shows ++ others)
  end.

Definition personalize (preferences : Preferences) (show : Show) : Show :=
  let base_score := rating show in
  let genre_boost := default 1.0%Q (genre_weights preferences !! genre show) in
  set_personalized_score (base_score * genre_boost) show.

Definition mood_boosts : gmap string (gmap string Q) :=
  list_to_map
    [ ("energetic", list_to_map [("action", 1.2%Q); ("sci-fi", 1.1%Q)]);
      ("relaxed", list_to_map [("comedy", 1.2%Q); ("animation", 1.1%Q)]);
      ("thoughtful", list_to_map [("drama", 1.2%Q); ("documentary", 1.1%Q)]) ].

(** [mood_boosts.get(detected_mood, {}).get(show["genre"], 1.0)]. *)
Definition mood_genre_boost (mood genre : string) : Q :=
  default 1.0%Q (default ∅ (mood_boosts !! mood) !! genre).

Definition adjust (mood : MoodProfile) (show : Show) : Show :=
  let boost := mood_genre_boost (detected_mood mood) (genre show) in
  let current_score := default (rating show) (personalized_score show) in
  set_final_score (current_score * boost) show.

Inductive ScoreKey := FinalScore | PersonalizedScore | Rating.

(** ["final_score" if mood else "personalized_score" if preferences else
    "rating"]. *)
Definition score_key (preferences : option Preferences)
    (mood : option MoodProfile) : ScoreKey :=
  match mood, preferences with
  | Some _, _ => FinalScore
  | None, Some _ => PersonalizedScore
  | None, None => Rating
  end.

(** [x.get(score_key, x["rating"])]. *)
Definition ranking_key (k : ScoreKey) (x : Show) : Q :=
  match k with
  | FinalScore => default (rating x) (final_score x)
  | PersonalizedScore => default (rating x) (personalized_score x)
  | Rating => rating x
  end.

(** The ranking key of the show behind a reference. *)
Definition key_of (k : ScoreKey) (σ : Store) (r : Ref) : Q :=
  from_option (ranking_key k) 0%Q (σ !! r).

(** [d[k] = d.get(k, 0) + 1] for every show. *)
Definition count_by (f : Show → string) (shows : list Show)
  : gmap string nat :=
  foldl (λ d s, <[f s := default 0 (d !! f s) + 1]> d) ∅ shows.

Record Analysis := mkAnalysis {
  ranked_content : list Ref;
  total_analyzed : nat;
  genre_distribution : gmap string nat;
  platform_distribution : gmap string nat;
  average_rating : Q;
  personalization_applied : bool;
  mood_adjusted : bool
}.

Definition execute (research_data : option (list (string * list Ref)))
    (preferences : option Preferences) (mood : option MoodProfile)
    (σ : Store) : Store * (Py.Exception + AgentResult Analysis) :=
  let data := default [] research_data in
  let '(σ1, all_shows) := collect data σ in
  let σ2 :=
    match preferences with
    | Some prefs => mutate_each (λ _, personalize prefs) 0 all_shows σ1
    | None => σ1
    end in
  let σ3 :=
    match mood with
    | Some m => mutate_each (λ _, adjust m) 0 all_shows σ2
    | None => σ2
    end in
  let ranked :=
    Py.sorted_rev (key_of (score_key preferences mood) σ3) all_shows in
  let genres := count_by genre (deref σ3 all_shows) in
  let platforms := count_by platform (deref σ3 all_shows) in
  match Py.truediv (Py.sum (rating <$> deref σ3 all_shows))
                   (Py.len all_shows) with
  | inl e => (σ3, inl e)
  | inr mean =>
      (σ3,
       inr (success name
              {| ranked_content := ranked;
                 total_analyzed := length all_shows;
                 genre_distribution := genres;
                 platform_distribution := platforms;
                 average_rating := Py.round mean 2;
                 personalization_applied := bool_decide (is_Some preferences);
                 mood_adjusted := bool_decide (is_Some mood) |}))
  end.

End AnalysisAgent.

Module RecommendationAgent.

Definition name : string := "RecommendBot".

(** [next((r for r in refs if r["title"] == t), None)]. *)
Fixpoint first_titled (σ : Store) (t : string) (refs : list Ref)
  : option Ref :=
  match refs with
  | [] => None
  | r :: rest =>
      match σ !! r with
      | Some s => if String.eqb (title s) t then Some r
                  else first_titled σ t rest
      | None => first_titled σ t rest
      end
  end.

(** [for item in ranked: matching = next(...); if matching:
    item.update(matching)].  A show dict is never empty, so [if matching]
    only tests for [None]. *)
Fixpoint merge (others : list Ref) (ranked : list Ref) (σ : Store) : Store :=
  match ranked with
  | [] => σ
  | item :: rest =>
      let σ' :=
        match σ !! item with
        | None => σ
        | Some s =>
            match first_titled σ (title s) others with
            | None => σ
            | Some m => from_option (λ o, alter (update o) item σ) σ (σ !! m)
            end
        end in
      merge others rest σ'
  end.

(** [if review_data:] is false for [None] and for the empty list. *)
Definition merge_if (others : option (list Ref)) (ranked : list Ref)
    (σ : Store) : Store :=
  match others with
  | Some (r :: l) => merge (r :: l) ranked σ
  | _ => σ
  end.

Inductive Confidence := VeryHigh | High | Medium | Low.

Definition gtb (a b : Q) : bool := negb (Qle_bool a b).

(** [_calculate_confidence]. *)
Definition calculate_confidence (show : Show) : Confidence :=
  let score := default (rating show) (final_score show) in
  let trust := default 7.0%Q (trust_score <$> review show) in
  if gtb score 9.0 && gtb trust 8.0 then VeryHigh
  else if gtb score 8.5 && gtb trust 7.0 then High
  else if gtb score 8.0 then Medium
  else Low.

(** The reasons and tags are kept as data; the formatted texts built
    from them belong to the presentation. *)
Inductive Reason :=
| HighlyRatedAt (rating : Q)
| CriticalConsensus (consensus : string)
| CurrentlyTrending
| FriendsWatching (n : Z)
| AvailableOn (platform : string).

Definition trending (show : Show) : bool :=
  from_option (λ t, is_trending (trend_data t)) false (trend show).

(** [_generate_reasons]. *)
Definition generate_reasons (show : Show) : list Reason :=
  [HighlyRatedAt (rating show)]
  ++ from_option (λ r, [CriticalConsensus (review_consensus r)]) []
                 (review show)
  ++ (if trending show then [CurrentlyTrending] else [])
  ++ from_option
       (λ t, let n := friends_watching (social_proof t) in
             if (5 <? n)%Z then [FriendsWatching n] else [])
       [] (trend show)
  ++ [AvailableOn (platform show)].

Inductive Tag :=
| GenreTag (genre : string)
| TrendingTag
| CriticsChoice
| HighlyRated.

(** [_generate_tags]. *)
Definition generate_tags (show : Show) : list Tag :=
  [GenreTag (genre show)]
  ++ (if trending show then [TrendingTag] else [])
  ++ (if gtb (default 0%Q (trust_score <$> review show)) 8.5
      then [CriticsChoice] else [])
  ++ (if gtb (rating show) 8.8 then [HighlyRated] else []).

Record Recommendation := mkRecommendation {
  rank : nat;
  r_title : string;
  r_platform : string;
  r_genre : string;
  r_rating : Q;
  r_final_score : Q;
  reasons : list Reason;
  confidence : Confidence;
  review_summary : option ReviewData;
  social_summary : option SocialProof;
  tags : list Tag
}.

Definition recommend (i : nat) (show : Show) : Recommendation :=
  {| rank := i;
     r_title := title show;
     r_platform := platform show;
     r_genre := genre show;
     r_rating := rating show;
     r_final_score :=
       default (default (rating show) (personalized_score show))
               (final_score show);
     reasons := generate_reasons show;
     confidence := calculate_confidence show;
     review_summary := review_data <$> review show;
     social_summary := social_proof <$> trend show;
     tags := generate_tags show |}.

Record Insights := mkInsights {
  total_options : nat;
  avg_quality : Q;
  popular_genres : gmap string nat;
  i_personalized : bool;
  i_mood_aware : bool
}.

Record RecommendationData := mkRecommendationData {
  recommendations : list Recommendation;
  insights : Insights
}.

(** [analysis_data] always comes from [AnalysisAgent], so the defaults of
    the [.get] calls on it are never used. *)
Definition execute (analysis_data : AgentResult AnalysisAgent.Analysis)
    (review_data trend_data : option (list Ref)) (σ : Store)
  : Store * AgentResult RecommendationData :=
  let d := data analysis_data in
  let ranked := AnalysisAgent.ranked_content d in
  let σ1 := merge_if review_data ranked σ in
  let σ2 := merge_if trend_data ranked σ1 in
  let recs :=
    imap (λ i show, recommend (S i) show) (deref σ2 (take 5 ranked)) in
  (σ2,
   success name
     {| recommendations := recs;
        insights :=
          {| total_options := AnalysisAgent.total_analyzed d;
             avg_quality := AnalysisAgent.average_rating d;
             popular_genres := AnalysisAgent.genre_distribution d;
             i_personalized := AnalysisAgent.personalization_applied d;
             i_mood_aware := AnalysisAgent.mood_adjusted d |} |}).

End RecommendationAgent.

Module CoordinatorAgent.

Definition name : string := "Coordinator".

(** [len(self.agents)]. *)
Definition agents : list string :=
  ["personalization"; "mood"; "research"; "review"; "trend"; "filter";
   "analysis"; "recommendation"].

Record WorkflowStats := mkWorkflowStats {
  agents_involved : nat;
  total_processed : nat;
  ws_approved : nat;
  ws_filtered : nat;
  ws_personalized : bool;
  ws_mood_aware : bool;
  safety_checked : bool
}.

(** The dict the workflow returns: [status] is ["success"] or
    ["error"]. *)
Inductive Outcome :=
| Success (query : string)
          (results : RecommendationAgent.RecommendationData)
          (workflow_stats : WorkflowStats)
| Error (error : string).

(** Phase 3, start: [show["platform"] = platform; all_shows.append(show)]
    creates the store. *)
Definition gather (research_data : list (string * list Seed)) : Store :=
  '(platform, shows) ← research_data;
  (λ s, mkShow (s_title s) (s_genre s) (s_rating s) platform
               None None None None None) <$> shows.

(** Phase 5, the argument of the analysis: the approved shows grouped by
    platform, the platforms in the order the set yields them. *)
Definition by_platform (rnd : Random) (σ : Store) (approved : list Ref)
  : list (string * list Ref) :=
  (λ p, (p, filter (λ r, platform <$> σ !! r = Some p) approved))
    <$> set_order rnd (platform <$> deref σ approved).

(** The workflow, for a given content provider. *)
Definition run (research : string → AgentResult (list (string * list Seed)))
    (rnd : Random) (user_query : string) (user_profile : UserProfile)
    (context : Context) (filters : Filters) : Outcome :=
  (* Phase 1 *)
  let personalization_result := PersonalizationAgent.execute user_profile in
  let mood_result := MoodDetectionAgent.execute context in
  (* Phase 2 *)
  let research_result := research user_query in
  (* Phase 3 *)
  let σ0 := gather (data research_result) in
  let all_shows := seq 0 (length σ0) in
  let '(σ1, review_result) :=
    ReviewAggregationAgent.execute rnd all_shows σ0 in
  let '(σ2, trend_result) :=
    TrendAnalysisAgent.execute rnd all_shows σ1 in
  (* Phase 4 *)
  let '(σ3, filter_result) :=
    ContentFilterAgent.execute rnd (data trend_result) filters σ2 in
  let approved := ContentFilterAgent.fd_approved (data filter_result) in
  (* Phase 5 *)
  let '(σ4, analysis) :=
    AnalysisAgent.execute (Some (by_platform rnd σ3 approved))
                          (Some (data personalization_result))
                          (Some (data mood_result)) σ3 in
  match analysis with
  | inl e => Error (Py.str e)
  | inr analysis_result =>
      (* Phase 6 *)
      let '(_, recommendation_result) :=
        RecommendationAgent.execute analysis_result
          (Some (data review_result)) (Some (data trend_result)) σ4 in
      let stats := ContentFilterAgent.filter_stats (data filter_result) in
      Success user_query (data recommendation_result)
        {| agents_involved := length agents;
           total_processed := ContentFilterAgent.total_checked stats;
           ws_approved := ContentFilterAgent.fs_approved stats;
           ws_filtered := ContentFilterAgent.fs_filtered stats;
           ws_personalized := true;
           ws_mood_aware := true;
           safety_checked := true |}
  end.

(** [CoordinatorAgent.execute]: the workflow with its own
    [ResearchAgent]. *)
Definition execute : Random → string → UserProfile → Context → Filters
                     → Outcome :=
  run ResearchAgent.execute.

End CoordinatorAgent.

(** ** The journal of an agent *)

Module Agent.

(** An entry of [self.memory]; the timestamp is the clock's reading. *)
Record Entry (V : Type) := mkEntry {
  e_key : string;
  e_value : V;
  e_timestamp : Z;
  e_agent : string
}.
Arguments mkEntry {V}.
Arguments e_key {V}.
Arguments e_value {V}.
Arguments e_timestamp {V}.
Arguments e_agent {V}.

(** [remember]: [self.memory.append({...})]. *)
Definition remember {V} (name : string) (now : Z) (key : string) (value : V)
    (memory : list (Entry V)) : list (Entry V) :=
  memory ++ [mkEntry key value now name].

(** [for item in items: if item["key"] == key: return item["value"]], then
    [return None]. *)
Fixpoint first_value {V} (key : string) (items : list (Entry V)) : option V :=
  match items with
  | [] => None
  | item :: rest =>
      if String.eqb (e_key item) key then Some (e_value item)
      else first_value key rest
  end.

(** [get_memory]: the loop runs over [reversed(self.memory)]. *)
Definition get_memory {V} (key : string) (memory : list (Entry V)) : option V :=
  first_value key (reverse memory).

End Agent.

(** ** The demonstration run *)

Module Main.

Definition user_profile : UserProfile :=
  {| viewing_history :=
       Some [ mkHistoryEntry "Breaking Bad" "drama";
              mkHistoryEntry "The Expanse" "sci-fi" ];
     favorite_genres := Some ["sci-fi"; "drama"];
     disliked_genres := Some ["horror"];
     preferred_length := Some "any";
     favorite_actors := Some ["Bryan Cranston"];
     min_rating := Some 8.0%Q;
     freshness := Some "balanced" |}.

Definition context : Context :=
  {| time_of_day := Some "evening";
     day_of_week := Some "friday";
     query :=
       Some "I want something exciting and highly rated to watch tonight";
     weather := Some "rainy" |}.

Definition filters : Filters :=
  {| max_content_rating := Some "TV-MA";
     exclude_genres := Some ["horror"];
     min_quality_score := Some 8.0%Q;
     content_warnings_ok := Some true |}.

(** One outcome of the random source, every draw inside its range; the
    platform set is iterated in order of first insertion. *)
Definition sample_random : Random :=
  {| review_draw := λ k,
       {| rt_jitter := if Nat.even k then 0%Q else 1.5%Q;
          mc_jitter := if Nat.even k then 0%Q else (-3)%Q;
          audience_jitter := 0.1%Q;
          reviews_count := 2000 |};
     trend_draw := λ k,
       {| days_since_release := 700;
          d_social_mentions := 5000;
          d_search_volume := 20000;
          d_watch_velocity := "rising";
          d_viral_moments := 1;
          d_trending_rank := 3;
          d_friends_watching := 7;
          d_influencers := 2;
          d_award_nominations := 1 |};
     filter_draw := λ k,
       {| d_content_rating := if Nat.even k then PG13 else TVMA;
          d_content_warnings := if Nat.even k then ["none"] else ["language"]
       |};
     set_order := remove_dups |}.

Definition execute (rnd : Random) : CoordinatorAgent.Outcome :=
  CoordinatorAgent.execute rnd (default "" (query context)) user_profile
                           context filters.

End Main.

(** Variations of the demonstration run. *)
Module Scenario.

(** No title reaches the quality bar. *)
Definition strict_filters : Filters :=
  {| max_content_rating := None;
     exclude_genres := None;
     min_quality_score := Some 9.5%Q;
     content_warnings_ok := None |}.

(** Two titles fall below the quality bar. *)
Definition selective_filters : Filters :=
  {| max_content_rating := Some "TV-MA";
     exclude_genres := Some ["horror"];
     min_quality_score := Some 8.5%Q;
     content_warnings_ok := Some true |}.

(** A provider that also lists a highly rated horror title. *)
Definition horror_provider (task : string)
  : AgentResult (list (string * list Seed)) :=
  success "StubProvider"
    [ ("netflix",
       [ mkSeed "The Haunting" "horror" 9.5;
         mkSeed "The Crown" "drama" 8.6 ]);
      ("hbo_max", [ mkSeed "Succession" "drama" 8.9 ]) ].

(** A provider that lists two shows under one title. *)
Definition twin_provider (task : string)
  : AgentResult (list (string * list Seed)) :=
  success "StubProvider"
    [ ("netflix", [ mkSeed "Twin" "horror" 9.5 ]);
      ("hbo_max", [ mkSeed "Twin" "drama" 8.6 ]) ].

(** A mood outside the boost table. *)
Definition fun_context : Context :=
  {| time_of_day := None;
     day_of_week := None;
     query := Some "Something FUN for the weekend";
     weather := None |}.

(** "horror" is both a favourite and disliked. *)
Definition conflicted_profile : UserProfile :=
  {| viewing_history := None;
     favorite_genres := Some ["sci-fi"; "horror"];
     disliked_genres := Some ["horror"; "reality"];
     preferred_length := None;
     favorite_actors := None;
     min_rating := None;
     freshness := None |}.

(** A ceiling that is not a label of the hierarchy. *)
Definition unknown_ceiling_filters : Filters :=
  {| max_content_rating := Some "NC-17";
     exclude_genres := None;
     min_quality_score := None;
     content_warnings_ok := None |}.

(** A store of three shows, two of them with the same rating. *)
Definition small_store : Store :=
  [ mkShow "A" "drama" 8.0 "netflix" None None None None None;
    mkShow "B" "comedy" 9.0 "netflix" None None None None None;
    mkShow "C" "fantasy" 8.0 "hbo_max" None None None None None ].

Definition small_data : list (string * list Ref) :=
  [("netflix", [0; 1]); ("hbo_max", [2])].

End Scenario.

(** ** Vocabulary of the statements *)

#[global] Instance Qeq_decision (x y : Q) : Decision (x == y)%Q := Qeq_dec x y.

(** [a] comes before [b] in [l]. *)
Definition before {A} (a b : A) (l : list A) : Prop :=
  ∃ l1 l2 l3, l = l1 ++ a :: l2 ++ b :: l3.


(** The provider's fields and the platform of a show. *)
Definition same_base (s s' : Show) : Prop :=
  title s' = title s ∧ genre s' = genre s ∧ rating s' = rating s
  ∧ platform s' = platform s.

(** The verdict recorded on the show behind a reference. *)
Definition verdict_of (σ : Store) (r : Ref) : option bool :=
  s ← σ !! r; f ← filtering s; Some (approved (filter_status f)).

(** The provider's fields of a show. *)
Definition same_seed (s s' : Show) : Prop :=
  title s' = title s ∧ genre s' = genre s ∧ rating s' = rating s.

(** The shows the analysis works on, and the store it leaves. *)
Definition analysis_shows (research_data : option (list (string * list Ref)))
  : list Ref :=
  concat (snd <$> default [] research_data).

Definition analysis_store (research_data : option (list (string * list Ref)))
    (preferences : option Preferences) (mood : option MoodProfile)
    (σ : Store) : Store :=
  (AnalysisAgent.execute research_data preferences mood σ).1.

(** The stages of a run, named: the candidates collected in Phase 3, the
    store after the enrichment, the outcome of the filter (Phase 4) and of
    the analysis (Phase 5). *)
Definition candidates
    (research : string → AgentResult (list (string * list Seed)))
    (user_query : string) : Store :=
  CoordinatorAgent.gather (data (research user_query)).

Definition enriched (rnd : Random) (σ0 : Store) : Store :=
  let all_shows := seq 0 (length σ0) in
  (TrendAnalysisAgent.execute rnd all_shows
     (ReviewAggregationAgent.execute rnd all_shows σ0).1).1.

Definition filtered (rnd : Random) (filters : Filters) (σ0 : Store)
  : Store * AgentResult ContentFilterAgent.FilterData :=
  ContentFilterAgent.execute rnd (seq 0 (length σ0)) filters (enriched rnd σ0).

Definition analysed (rnd : Random) (user_profile : UserProfile)
    (context : Context) (filters : Filters) (σ0 : Store)
  : Store * (Py.Exception + AgentResult AnalysisAgent.Analysis) :=
  let σ3 := (filtered rnd filters σ0).1 in
  let approved :=
    ContentFilterAgent.fd_approved (data (filtered rnd filters σ0).2) in
  AnalysisAgent.execute
    (Some (CoordinatorAgent.by_platform rnd σ3 approved))
    (Some (data (PersonalizationAgent.execute user_profile)))
    (Some (data (MoodDetectionAgent.execute context))) σ3.

(** [kw] occurs in [s]: [s] is some text, [kw], some text. *)
Definition occurs (kw s : string) : Prop :=
  ∃ pre post, s = (pre +:+ kw +:+ post)%string.

(** Some keyword of the list occurs in the lower-cased text. *)
Definition mentions (keywords : list string) (text : string) : Prop :=
  ∃ kw, kw ∈ keywords ∧ occurs kw (Py.lower text).


(** * Properties *)

(** ** Numbers *)

Section Numbers.
Local Open Scope Q_scope.

Lemma round_half_even_proper (x y : Q) :
  x == y → Py.round_half_even x = Py.round_half_even y.
Proof.
  intros E. unfold Py.round_half_even.
  rewrite (Qfloor_comp _ _ E).
  assert (C : (x - inject_Z (Qfloor y) ?= 1 # 2)
              = (y - inject_Z (Qfloor y) ?= 1 # 2)) by (now rewrite E).
  now rewrite C.
Qed.

Lemma round_proper (x y : Q) (n : nat) : x == y → Py.round x n = Py.round y n.
Proof.
  intros E. unfold Py.round.
  rewrite (round_half_even_proper (x * Py.pow10 n) (y * Py.pow10 n)); [done|].
  now rewrite E.
Qed.

Lemma round_half_even_lower (a : Z) (x : Q) :
  inject_Z a <= x → (a <= Py.round_half_even x)%Z.
Proof.
  intros H. assert (F : (a <= Qfloor x)%Z).
  { rewrite <- (Qfloor_Z a). now apply Qfloor_resp_le. }
  unfold Py.round_half_even.
  destruct (Qcompare _ _); [destruct (Z.even _)|..]; lia.
Qed.

Lemma round_half_even_upper (b : Z) (x : Q) :
  x <= inject_Z b → (Py.round_half_even x <= b)%Z.
Proof.
  intros H. assert (F : (Qfloor x <= b)%Z).
  { rewrite <- (Qfloor_Z b). now apply Qfloor_resp_le. }
  destruct (Z.eq_dec (Qfloor x) b) as [E|NE].
  - assert (L : x - inject_Z (Qfloor x) <= 0).
    { rewrite E. lra. }
    unfold Py.round_half_even.
    destruct (Qcompare _ _) eqn:C; [| lia |].
    + apply Qeq_alt in C. lra.
    + apply Qgt_alt in C. lra.
  - unfold Py.round_half_even.
    destruct (Qcompare _ _); [destruct (Z.even _)|..]; lia.
Qed.

(** Rounding to one decimal keeps a number in [0, 10] there. *)
Lemma round1_bounds (x : Q) : 0 <= x <= 10 → 0 <= Py.round x 1 <= 10.
Proof.
  intros [L U]. unfold Py.round.
  change (Py.pow10 1) with (inject_Z 10).
  pose proof (round_half_even_lower 0 (x * inject_Z 10)) as A.
  pose proof (round_half_even_upper 100 (x * inject_Z 10)) as B.
  assert (A' : (0 <= Py.round_half_even (x * inject_Z 10))%Z).
  { apply A. change (inject_Z 0) with 0. change (inject_Z 10) with 10. lra. }
  assert (B' : (Py.round_half_even (x * inject_Z 10) <= 100)%Z).
  { apply B. change (inject_Z 100) with 100. change (inject_Z 10) with 10. lra. }
  rewrite (Zle_Qle 0) in A'. rewrite (Zle_Qle _ 100) in B'.
  change (inject_Z 0) with 0 in A'. change (inject_Z 100) with 100 in B'.
  set (r := inject_Z (Py.round_half_even (x * inject_Z 10))) in *.
  change (inject_Z 10) with 10.
  split.
  - apply Qle_shift_div_l; lra.
  - apply Qle_shift_div_r; lra.
Qed.

Lemma variance_three (a b c : Q) :
  let m := (a + b + c) / 3 in
  ReviewAggregationAgent.variance [a; b; c]
  == ((a - m) ^ 2 + (b - m) ^ 2 + (c - m) ^ 2) / 3.
Proof.
  unfold ReviewAggregationAgent.variance, Py.sum, Py.len. simpl.
  change (inject_Z 3) with 3. field.
Qed.

Lemma variance_jitter (a j1 j2 : Q) :
  ReviewAggregationAgent.variance [a; a + j1; a + j2]
  == (2 # 9) * (j1 ^ 2 - j1 * j2 + j2 ^ 2).
Proof. rewrite variance_three. simpl. field. Qed.

Lemma trust_bounds (scores : list Q) :
  0 <= ReviewAggregationAgent.trust scores <= 10.
Proof.
  unfold ReviewAggregationAgent.trust. split.
  - apply Q.le_max_l.
  - apply Q.max_lub; [lra | apply Q.le_min_l].
Qed.

End Numbers.

(** ** Preference weights *)

Lemma foldl_insert_lookup (v : Q) (l : list string) (w : gmap string Q)
    (g : string) :
  foldl (λ w' g', <[g' := v]> w') w l !! g
  = if decide (g ∈ l) then Some v else w !! g.
Proof.
  revert w. induction l as [|x l IH]; intros w; cbn [foldl].
  - case_decide as H; [inversion H | done].
  - rewrite IH. repeat case_decide; try done.
    + exfalso. set_solver.
    + destruct (decide (x = g)) as [->|NE].
      * by rewrite lookup_insert_eq.
      * exfalso. set_solver.
    + rewrite lookup_insert_ne; [done | set_solver].
Qed.

(** The weight of every genre after both loops: the dislike loop runs
    second and overwrites. *)
Lemma genre_weights_lookup (profile : UserProfile) (g : string) :
  let favorites := default ["sci-fi"; "drama"] (favorite_genres profile) in
  let disliked := default ["horror"] (disliked_genres profile) in
  genre_weights (data (PersonalizationAgent.execute profile)) !! g
  = if decide (g ∈ disliked) then Some 0.3%Q
    else if decide (g ∈ favorites) then Some 1.5%Q
    else None.
Proof.
  simpl. unfold PersonalizationAgent.reduce_disliked,
    PersonalizationAgent.boost_favorites.
  rewrite !foldl_insert_lookup. by rewrite lookup_empty.
Qed.

(** C7: favourites get 1.5 and disliked genres get 0.3; a genre listed in
    both ends at 0.3, because the dislike loop runs after the favourite
    loop; a genre in neither list has no entry. *)
Theorem C7_dislike_applied_after_favorite (profile : UserProfile) (g : string) :
  let favorites := default ["sci-fi"; "drama"] (favorite_genres profile) in
  let disliked := default ["horror"] (disliked_genres profile) in
  let weights := genre_weights (data (PersonalizationAgent.execute profile)) in
  (g ∈ disliked → weights !! g = Some 0.3%Q)
  ∧ (g ∈ favorites → g ∉ disliked → weights !! g = Some 1.5%Q)
  ∧ (g ∈ favorites → g ∈ disliked → weights !! g = Some 0.3%Q)
  ∧ (g ∉ favorites → g ∉ disliked → weights !! g = None)
  ∧ PersonalizationAgent.reduce_disliked disliked
      (PersonalizationAgent.boost_favorites favorites ∅) = weights.
Proof.
  intros favorites disliked weights.
  pose proof (genre_weights_lookup profile g) as L. cbv zeta in L.
  fold favorites disliked weights in L.
  repeat split; try done; intros; rewrite L; repeat case_decide; done.
Qed.

(** ** Mood boosts *)

Lemma mood_boosts_other (mood : string) :
  mood ≠ "energetic" → mood ≠ "relaxed" → mood ≠ "thoughtful" →
  AnalysisAgent.mood_boosts !! mood = None.
Proof.
  intros. unfold AnalysisAgent.mood_boosts. simpl.
  by rewrite !lookup_insert_ne, lookup_empty.
Qed.

Lemma mood_genre_boost_other (mood genre : string) :
  mood ≠ "energetic" → mood ≠ "relaxed" → mood ≠ "thoughtful" →
  AnalysisAgent.mood_genre_boost mood genre = 1.0%Q.
Proof.
  intros. unfold AnalysisAgent.mood_genre_boost.
  rewrite mood_boosts_other by done. simpl. by rewrite lookup_empty.
Qed.

Lemma mood_genre_boost_energetic (genre : string) :
  AnalysisAgent.mood_genre_boost "energetic" genre
  = if decide (genre = "action") then 1.2%Q
    else if decide (genre = "sci-fi") then 1.1%Q else 1.0%Q.
Proof.
  unfold AnalysisAgent.mood_genre_boost, AnalysisAgent.mood_boosts. simpl.
  rewrite lookup_insert_eq. simpl.
  repeat case_decide; subst.
  - by rewrite lookup_insert_eq.
  - rewrite lookup_insert_ne by done. by rewrite lookup_insert_eq.
  - by rewrite !lookup_insert_ne, lookup_empty.
Qed.

(** ** The verdict of the safety filter *)

Lemma rating_level_index (c : ContentRating) :
  Py.index (label c) rating_hierarchy = Some (ContentFilterAgent.rating_level c).
Proof. by destruct c. Qed.

Lemma rating_level_lt (c : ContentRating) :
  ContentFilterAgent.rating_level c < length rating_hierarchy.
Proof. destruct c; simpl; lia. Qed.

Lemma forallb_id_four (a b c d : bool) :
  forallb id [a; b; c; d] = a && b && c && d.
Proof. by destruct a, b, c, d. Qed.

Lemma check_approved (filters : Filters) (d : FilterDraw) (item : Show) :
  let st := filter_status (ContentFilterAgent.check filters d item) in
  approved st
  = passes_rating st && passes_genre st && passes_quality st
    && passes_warnings st.
Proof. simpl. apply forallb_id_four. Qed.

(** ** Trust score *)

(** C4: the trust score [ReviewAggregationAgent] computes for an item is
    [max(0, min(10, 10 - v/20))], [v] the population variance of the three
    scores (scaled rating, and the two percentages before clamping and
    rounding); it lies in [0, 10], and so does the value stored on the
    item, which is the trust score rounded to one decimal; when the three
    scores are equal, [v] is 0 and both are 10. *)
Theorem C4_trust_score_formula_and_range (d : ReviewDraw) (item : Show) :
  let a := (rating item * 10)%Q in
  let b := (rating item * 10 + rt_jitter d)%Q in
  let c := (rating item * 10 + mc_jitter d)%Q in
  let m := ((a + b + c) / 3)%Q in
  let scores := ReviewAggregationAgent.scores d item in
  let v := ReviewAggregationAgent.variance scores in
  let t := ReviewAggregationAgent.trust scores in
  let stored :=
    trust_score <$> review (ReviewAggregationAgent.aggregate d item) in
  scores = [a; b; c]
  ∧ (v == ((a - m) ^ 2 + (b - m) ^ 2 + (c - m) ^ 2) / 3)%Q
  ∧ t = Qmax 0 (Qmin 10 (10 - v / 20))
  ∧ (0 <= t <= 10)%Q
  ∧ stored = Some (Py.round t 1)
  ∧ (0 <= Py.round t 1 <= 10)%Q
  ∧ ((b == a)%Q → (c == a)%Q →
     (v == 0)%Q ∧ (t == 10)%Q ∧ (Py.round t 1 == 10)%Q).
Proof.
  intros a b c m scores v t stored.
  assert (Ht : (0 <= t <= 10)%Q) by apply trust_bounds.
  split; [done|]. split; [apply variance_three|]. split; [done|].
  split; [exact Ht|]. split; [done|]. split; [by apply round1_bounds|].
  intros Hb Hc.
  {
    assert (J1 : (rt_jitter d == 0)%Q) by (subst a b; lra).
    assert (J2 : (mc_jitter d == 0)%Q) by (subst a c; lra).
    assert (V : (v == 0)%Q).
    { subst v scores. unfold ReviewAggregationAgent.scores.
      rewrite variance_jitter, J1, J2. reflexivity. }
    assert (T : (t == 10)%Q).
    { subst t. unfold ReviewAggregationAgent.trust. fold scores. fold v.
      rewrite V. reflexivity. }
    split; [exact V|]. split; [exact T|].
    rewrite (round_proper t 10 1 T). reflexivity. }
Qed.

(** ** Scores of one show *)

Lemma personalize_score (prefs : Preferences) (show : Show) :
  personalized_score (AnalysisAgent.personalize prefs show)
  = Some (rating show * default 1.0 (genre_weights prefs !! genre show))%Q.
Proof. done. Qed.

Lemma adjust_score (mood : MoodProfile) (show : Show) :
  final_score (AnalysisAgent.adjust mood show)
  = Some (default (rating show) (personalized_score show)
          * AnalysisAgent.mood_genre_boost (detected_mood mood) (genre show))%Q.
Proof. done. Qed.

(** ** Unknown ceiling *)

Lemma max_rating_level_unknown (max_rating : string) :
  max_rating ∉ rating_hierarchy →
  ContentFilterAgent.max_rating_level max_rating = 6.
Proof.
  intros H. unfold ContentFilterAgent.max_rating_level, Py.contains.
  by rewrite bool_decide_eq_false_2.
Qed.

(** C8: when [max_content_rating] is none of the six labels the ceiling
    is [len(rating_hierarchy)], above every level: [passes_rating] holds
    for every item whatever its content rating, nothing is raised and the
    stage reports success. *)
Theorem C8_unknown_ceiling_accepts_all (filters : Filters) (max_rating : string)
    (rnd : Random) (content_list : list Ref) (σ : Store)
    (d : FilterDraw) (item : Show) :
  max_content_rating filters = Some max_rating →
  max_rating ∉ ["G"; "PG"; "PG-13"; "TV-14"; "R"; "TV-MA"] →
  ContentFilterAgent.max_rating_level max_rating = length rating_hierarchy
  ∧ passes_rating (filter_status (ContentFilterAgent.check filters d item))
    = true
  ∧ status (ContentFilterAgent.execute rnd content_list filters σ).2
    = "success".
Proof.
  intros Hm Hu. split_and!.
  - by apply max_rating_level_unknown.
  - simpl. rewrite Hm. simpl. rewrite max_rating_level_unknown by done.
    apply Nat.leb_le. pose proof (rating_level_lt (d_content_rating d)).
    simpl in *. lia.
  - unfold ContentFilterAgent.execute.
    by destruct (ContentFilterAgent.partition_loop _ _ _ _ _) as [[??]?].
Qed.

(** ** The store: what the stages leave alone *)

Section Store.
Context (R : Show → Show → Prop).

Lemma mutate_each_related (f : nat → Show → Show) (k : nat)
    (refs : list Ref) (σ0 σ : Store) :
  (∀ k s0 s, R s0 s → R s0 (f k s)) →
  Forall2 R σ0 σ → Forall2 R σ0 (mutate_each f k refs σ).
Proof.
  intros Hf. revert k σ. induction refs as [|r refs IH]; intros k σ Hσ.
  - done.
  - simpl. apply IH. apply Forall2_alter_r; [done|]. intros; by apply Hf.
Qed.

Lemma partition_loop_related (filters : Filters) (rnd : Random) (k : nat)
    (content_list : list Ref) (σ0 σ : Store) :
  (∀ v s0 s, R s0 s → R s0 (set_filtering v s)) →
  Forall2 R σ0 σ →
  Forall2 R σ0 (ContentFilterAgent.partition_loop filters rnd k
                  content_list σ).1.1.
Proof.
  intros Hf. revert k σ.
  induction content_list as [|r rest IH]; intros k σ Hσ; simpl.
  - done.
  - destruct (σ !! r) as [item|] eqn:E; [|by apply IH].
    match goal with
    | |- context [ContentFilterAgent.partition_loop ?a ?b ?c ?d ?e] =>
        specialize (IH c e);
        destruct (ContentFilterAgent.partition_loop a b c d e)
          as [[σ' app] out]
    end.
    simpl in IH.
    assert (Forall2 R σ0 σ').
    { apply IH. apply Forall2_alter_r; [done|]. intros; by apply Hf. }
    by case_match.
Qed.

Lemma collect_related (data : list (string * list Ref)) (σ0 σ : Store) :
  (∀ p s0 s, R s0 s → R s0 (set_platform p s)) →
  Forall2 R σ0 σ → Forall2 R σ0 (AnalysisAgent.collect data σ).1.
Proof.
  intros Hf. revert σ. induction data as [|[p shows] rest IH]; intros σ Hσ.
  - done.
  - simpl.
    match goal with
    | |- context [AnalysisAgent.collect ?a ?b] =>
        specialize (IH b); destruct (AnalysisAgent.collect a b) as [σ2 others]
    end.
    simpl in *. apply IH. apply mutate_each_related; [|done].
    intros; by apply Hf.
Qed.

End Store.

Lemma Forall2_refl_on {A} (R : A → A → Prop) (l : list A) :
  (∀ x, R x x) → Forall2 R l l.
Proof. intros H. induction l; constructor; auto. Qed.

Lemma same_seed_fmap (σ σ' : Store) :
  Forall2 same_seed σ σ' →
  title <$> σ' = title <$> σ ∧ genre <$> σ' = genre <$> σ
  ∧ rating <$> σ' = rating <$> σ.
Proof.
  induction 1 as [|s s' σ σ' (Ht & Hg & Hr) _ (IHt & IHg & IHr)]; [done|].
  rewrite !fmap_cons. repeat split; by f_equal.
Qed.

Lemma same_seed_refl (s : Show) : same_seed s s.
Proof. done. Qed.

Lemma collect_refs (data : list (string * list Ref)) (σ : Store) :
  (AnalysisAgent.collect data σ).2 = concat (snd <$> data).
Proof.
  revert σ. induction data as [|[p shows] rest IH]; intros σ; [done|].
  simpl. specialize (IH (mutate_each (λ _, set_platform p) 0 shows σ)).
  destruct (AnalysisAgent.collect rest _) as [σ2 others].
  simpl in *. by rewrite IH.
Qed.

(** ** Loops over distinct references *)

Lemma mutate_each_frame (f : nat → Show → Show) (k : nat) (refs : list Ref)
    (σ : Store) (r : Ref) :
  r ∉ refs → mutate_each f k refs σ !! r = σ !! r.
Proof.
  revert k σ. induction refs as [|r0 refs IH]; intros k σ Hr; [done|].
  apply not_elem_of_cons in Hr as [Hne Hr]. cbn [mutate_each].
  rewrite IH by done. by rewrite list_lookup_alter_ne.
Qed.

Lemma mutate_each_lookup (f : nat → Show → Show) (k : nat) (refs : list Ref)
    (σ : Store) (i : nat) (r : Ref) :
  NoDup refs → refs !! i = Some r →
  mutate_each f k refs σ !! r = f (k + i) <$> σ !! r.
Proof.
  revert k σ i. induction refs as [|r0 refs IH]; intros k σ i Hnd Hi; [done|].
  apply NoDup_cons in Hnd as [Hr0 Hnd].
  destruct i as [|i]; simpl in Hi; cbn [mutate_each].
  - injection Hi as ->. rewrite mutate_each_frame by done.
    rewrite list_lookup_alter_eq. by rewrite Nat.add_0_r.
  - rewrite (IH _ _ i) by done.
    assert (r0 ≠ r) by (intros ->; apply Hr0; by eapply list_elem_of_lookup_2).
    rewrite list_lookup_alter_ne by done.
    by replace (S k + i) with (k + S i) by lia.
Qed.

(** Over all the objects of the store, in order, the loop is a map. *)
Lemma mutate_each_seq (f : nat → Show → Show) (σ : Store) :
  mutate_each f 0 (seq 0 (length σ)) σ = imap f σ.
Proof.
  apply list_eq. intros i. rewrite list_lookup_imap.
  destruct (decide (i < length σ)) as [Hlt|Hge].
  - rewrite (mutate_each_lookup f 0 _ σ i i); [done | apply NoDup_seq |].
    by rewrite lookup_seq_lt.
  - rewrite mutate_each_frame by (rewrite elem_of_seq; lia).
    rewrite (lookup_ge_None_2 σ i) by lia. done.
Qed.

(** A loop whose body ignores the position and is idempotent. *)
Lemma mutate_each_const_lookup (f : Show → Show) (k : nat) (refs : list Ref)
    (σ : Store) (r : Ref) :
  (∀ s, f (f s) = f s) →
  mutate_each (λ _, f) k refs σ !! r
  = if decide (r ∈ refs) then f <$> σ !! r else σ !! r.
Proof.
  intros Hf. revert k σ. induction refs as [|r0 refs IH]; intros k σ.
  - cbn [mutate_each]. case_decide as H; [inversion H | done].
  - cbn [mutate_each]. rewrite IH, list_lookup_alter.
    destruct (decide (r0 = r)) as [->|Hne].
    + destruct (decide (r ∈ r :: refs)) as [_|N]; [|exfalso; apply N; left].
      destruct (σ !! r) as [s|]; destruct (decide (r ∈ refs)); simpl;
        by rewrite ?Hf.
    + destruct (decide (r ∈ refs)) as [Hin|Hnin];
        destruct (decide (r ∈ r0 :: refs)) as [Hin'|Hnin']; try done.
      * exfalso; apply Hnin'; by right.
      * apply elem_of_cons in Hin' as [->|]; done.
Qed.

(** A loop whose body changes nothing. *)
Lemma mutate_each_id (f : nat → Show → Show) (k : nat) (refs : list Ref)
    (σ : Store) :
  (∀ k r s, r ∈ refs → σ !! r = Some s → f k s = s) →
  mutate_each f k refs σ = σ.
Proof.
  revert k. induction refs as [|r0 refs IH]; intros k Hf; [done|].
  cbn [mutate_each]. assert (E : alter (f k) r0 σ = σ).
  { apply list_eq. intros j. rewrite list_lookup_alter. case_decide; [|done].
    subst. destruct (σ !! j) as [s|] eqn:E; [|done]. simpl.
    by rewrite (Hf k j s) by (done || left). }
  rewrite E. apply IH. intros k' r s Hr. apply Hf. by right.
Qed.

Section PartitionLoop.
Context (filters : Filters) (rnd : Random).

Lemma partition_loop_cons (k : nat) (r : Ref) (rest : list Ref) (σ : Store)
    (item : Show) :
  σ !! r = Some item →
  ContentFilterAgent.partition_loop filters rnd k (r :: rest) σ
  = let verdict :=
      ContentFilterAgent.check filters (filter_draw rnd k) item in
    let '(σ', a, o) :=
      ContentFilterAgent.partition_loop filters rnd (S k) rest
        (alter (set_filtering verdict) r σ) in
    if approved (filter_status verdict)
    then (σ', r :: a, o) else (σ', a, r :: o).
Proof. intros E. cbn [ContentFilterAgent.partition_loop]. by rewrite E. Qed.

Lemma partition_loop_frame (k : nat) (content_list : list Ref) (σ : Store)
    (r : Ref) :
  r ∉ content_list →
  (ContentFilterAgent.partition_loop filters rnd k content_list σ).1.1 !! r
  = σ !! r.
Proof.
  revert k σ. induction content_list as [|r0 rest IH]; intros k σ Hr; [done|].
  apply not_elem_of_cons in Hr as [Hne Hr].
  destruct (σ !! r0) as [item|] eqn:E.
  - rewrite (partition_loop_cons _ _ _ _ item E). cbv zeta.
    specialize (IH (S k)
      (alter (set_filtering
                (ContentFilterAgent.check filters (filter_draw rnd k) item))
             r0 σ) Hr).
    destruct (ContentFilterAgent.partition_loop _ _ _ _ _) as [[σ' a] o].
    simpl in IH. rewrite list_lookup_alter_ne in IH by done.
    by case_match.
  - cbn [ContentFilterAgent.partition_loop]. rewrite E. by apply IH.
Qed.

(** Every object is checked once, against the draw of its position. *)
Lemma partition_loop_lookup (k : nat) (content_list : list Ref) (σ : Store)
    (i : nat) (r : Ref) :
  NoDup content_list → content_list !! i = Some r →
  (ContentFilterAgent.partition_loop filters rnd k content_list σ).1.1 !! r
  = (λ s, set_filtering
            (ContentFilterAgent.check filters (filter_draw rnd (k + i)) s) s)
      <$> σ !! r.
Proof.
  revert k σ i.
  induction content_list as [|r0 rest IH]; intros k σ i Hnd Hi; [done|].
  apply NoDup_cons in Hnd as [Hr0 Hnd]. destruct i as [|i]; simpl in Hi.
  - injection Hi as ->.
    pose proof (partition_loop_frame (S k) rest) as F.
    destruct (σ !! r) as [item|] eqn:E.
    + rewrite (partition_loop_cons _ _ _ _ item E). cbv zeta.
      specialize (F (alter (set_filtering
        (ContentFilterAgent.check filters (filter_draw rnd k) item)) r σ)
        r Hr0).
      destruct (ContentFilterAgent.partition_loop _ _ _ _ _) as [[σ' a] o].
      simpl in F. rewrite list_lookup_alter_eq, E in F.
      rewrite Nat.add_0_r. simpl. by case_match.
    + cbn [ContentFilterAgent.partition_loop]. rewrite E.
      rewrite (F σ r Hr0). by rewrite E.
  - assert (r0 ≠ r) by (intros ->; apply Hr0; by eapply list_elem_of_lookup_2).
    replace (k + S i) with (S k + i) by lia.
    destruct (σ !! r0) as [item|] eqn:E.
    + rewrite (partition_loop_cons _ _ _ _ item E). cbv zeta.
      specialize (IH (S k) (alter (set_filtering
        (ContentFilterAgent.check filters (filter_draw rnd k) item)) r0 σ)
        i Hnd Hi).
      destruct (ContentFilterAgent.partition_loop _ _ _ _ _) as [[σ' a] o].
      simpl in IH. rewrite list_lookup_alter_ne in IH by done.
      by case_match.
    + cbn [ContentFilterAgent.partition_loop]. rewrite E. by apply IH.
Qed.

End PartitionLoop.

Section PartitionLists.
Context (filters : Filters) (rnd : Random).

Lemma partition_loop_lists (k : nat) (content_list : list Ref) (σ : Store) :
  NoDup content_list →
  (∀ r, r ∈ content_list → is_Some (σ !! r)) →
  let out := ContentFilterAgent.partition_loop filters rnd k content_list σ in
  out.1.2 = filter (λ r, verdict_of out.1.1 r = Some true) content_list
  ∧ out.2 = filter (λ r, verdict_of out.1.1 r = Some false) content_list
  ∧ out.1.2 ++ out.2 ≡ₚ content_list.
Proof.
  revert k σ.
  induction content_list as [|r0 rest IH]; intros k σ Hnd Hval; [done|].
  apply NoDup_cons in Hnd as [Hr0 Hnd].
  destruct (Hval r0) as [item E]; [left|].
  cbv zeta. rewrite (partition_loop_cons _ _ _ _ _ _ item E). cbv zeta.
  set (verdict := ContentFilterAgent.check filters (filter_draw rnd k) item).
  set (σ1 := alter (set_filtering verdict) r0 σ).
  pose proof (partition_loop_frame filters rnd (S k) rest σ1 r0 Hr0) as F.
  specialize (IH (S k) σ1 Hnd).
  destruct IH as (IHa & IHo & IHp).
  { intros r Hr. unfold σ1. rewrite list_lookup_alter.
    case_decide; subst; [rewrite E; by eexists | apply Hval; by right]. }
  destruct (ContentFilterAgent.partition_loop filters rnd (S k) rest σ1)
    as [[σ' a] o].
  cbn [fst snd] in *.
  assert (V : verdict_of σ' r0 = Some (approved (filter_status verdict))).
  { unfold verdict_of. rewrite F. unfold σ1.
    rewrite list_lookup_alter_eq, E. done. }
  destruct (approved (filter_status verdict)) eqn:Ea; cbn [fst snd].
  - rewrite filter_cons_True by done.
    rewrite filter_cons_False by (rewrite V; done).
    split_and!; [by f_equal | done | by constructor].
  - rewrite filter_cons_False by (rewrite V; done).
    rewrite filter_cons_True by done.
    split_and!; [done | by f_equal |].
    rewrite <- Permutation_middle. by constructor.
Qed.

End PartitionLists.


(** ** Sorting *)

Section Sorting.
Context {A : Type} (key : A → Q).

(** Descending by key. *)
Let desc (a b : A) : Prop := (key b <= key a)%Q.

Lemma insert_desc_perm (x : A) (l : list A) :
  Py.insert_desc key x l ≡ₚ x :: l.
Proof.
  induction l as [|y l IH]; simpl; [done|].
  destruct (Qle_bool (key y) (key x)); [done|].
  rewrite IH. apply Permutation_swap.
Qed.

Lemma sorted_rev_perm (l : list A) : Py.sorted_rev key l ≡ₚ l.
Proof.
  induction l as [|x l IH]; [done|].
  unfold Py.sorted_rev in *. simpl. rewrite insert_desc_perm. by constructor.
Qed.

Lemma insert_desc_sorted (x : A) (l : list A) :
  StronglySorted desc l → StronglySorted desc (Py.insert_desc key x l).
Proof.
  induction 1 as [|y l Hs IH Hy]; simpl.
  - repeat constructor.
  - destruct (Qle_bool (key y) (key x)) eqn:E.
    + apply Qle_bool_iff in E. constructor; [by constructor|].
      constructor; [done|].
      eapply Forall_impl; [exact Hy|]. intros z Hz. unfold desc in *.
      by apply (Qle_trans _ (key y)).
    + assert (L : (key x <= key y)%Q).
      { apply Qlt_le_weak, Qnot_le_lt. intros N.
        apply Qle_bool_iff in N. congruence. }
      constructor; [done|].
      rewrite insert_desc_perm. by constructor.
Qed.

Lemma sorted_rev_sorted (l : list A) :
  StronglySorted desc (Py.sorted_rev key l).
Proof.
  induction l as [|x l IH]; [constructor|].
  unfold Py.sorted_rev in *. simpl. by apply insert_desc_sorted.
Qed.

Lemma insert_desc_filter (q : Q) (x : A) (l : list A) :
  filter (λ a, key a == q)%Q (Py.insert_desc key x l)
  = filter (λ a, key a == q)%Q (x :: l).
Proof.
  induction l as [|y l IH]; simpl; [done|].
  destruct (Qle_bool (key y) (key x)) eqn:E; [done|].
  assert (L : ¬ (key y <= key x)%Q).
  { intros N. apply Qle_bool_iff in N. congruence. }
  rewrite (filter_cons _ y), IH, !(filter_cons _ x), (filter_cons _ y).
  destruct (decide (key x == q)%Q) as [Hx|Hx]; [|done].
  destruct (decide (key y == q)%Q) as [Hy|Hy]; [|done].
  exfalso. apply L. rewrite Hx, Hy. apply Qle_refl.
Qed.

(** Stability: among the items of any one key the sort keeps the input
    order. *)
Lemma sorted_rev_stable (q : Q) (l : list A) :
  filter (λ a, key a == q)%Q (Py.sorted_rev key l)
  = filter (λ a, key a == q)%Q l.
Proof.
  induction l as [|x l IH]; [done|].
  unfold Py.sorted_rev in *. simpl. rewrite insert_desc_filter.
  rewrite !(filter_cons _ x), IH. done.
Qed.

Lemma filter_split (P : A → Prop) `{!∀ a, Decision (P a)} (s u t : list A)
    (a : A) :
  filter P s = u ++ a :: t →
  ∃ s1 s2, s = s1 ++ a :: s2 ∧ filter P s1 = u ∧ filter P s2 = t.
Proof.
  revert u. induction s as [|y s IH]; intros u E.
  - by destruct u.
  - rewrite filter_cons in E. destruct (decide (P y)) as [Hy|Hy].
    + destruct u as [|y' u]; simpl in E.
      * injection E as -> E. exists [], s. by rewrite filter_nil.
      * injection E as -> E. destruct (IH u E) as (s1 & s2 & -> & E1 & E2).
        exists (y' :: s1), s2. by rewrite filter_cons_True, E1.
    + destruct (IH u E) as (s1 & s2 & -> & E1 & E2).
      exists (y :: s1), s2. by rewrite filter_cons_False.
Qed.

(** The same, for pairs: two items of equal keys keep their order. *)
Lemma sorted_rev_stable_pair (a b : A) (l : list A) :
  (key a == key b)%Q → before a b l → before a b (Py.sorted_rev key l).
Proof.
  intros Hab (l1 & l2 & l3 & ->).
  pose proof (sorted_rev_stable (key b) (l1 ++ a :: l2 ++ b :: l3)) as S.
  rewrite filter_app, filter_cons_True, filter_app, filter_cons_True in S
    by done.
  apply (filter_split _) in S as (s1 & s2 & E & _ & S).
  apply (filter_split _) in S as (s2' & s3 & -> & _ & _).
  by exists s1, s2', s3.
Qed.

(** The sort only looks at the keys of the items it is given. *)
Lemma insert_desc_ext (key' : A → Q) (x : A) (l : list A) :
  (key x == key' x)%Q → (∀ y, y ∈ l → (key y == key' y)%Q) →
  Py.insert_desc key x l = Py.insert_desc key' x l.
Proof.
  intros Hx. induction l as [|y l IH]; intros Hl; simpl; [done|].
  rewrite <- (Qleb_comp _ _ (Hl y ltac:(left)) _ _ Hx).
  rewrite IH; [done|]. intros z Hz. apply Hl. by right.
Qed.

End Sorting.

Lemma sorted_rev_ext {A} (key key' : A → Q) (l : list A) :
  (∀ y, y ∈ l → (key y == key' y)%Q) →
  Py.sorted_rev key l = Py.sorted_rev key' l.
Proof.
  induction l as [|x l IH]; intros Hl; [done|].
  unfold Py.sorted_rev in *. simpl.
  rewrite <- IH by (intros; apply Hl; by right).
  apply insert_desc_ext; [apply Hl; left|].
  intros y Hy. apply Hl. right.
  by rewrite <- (sorted_rev_perm key l).
Qed.

(** ** The analysis stage *)

Lemma truediv_len {A} (x : Q) (l : list A) :
  Py.truediv x (Py.len l)
  = match l with
    | [] => inl Py.ZeroDivisionError
    | _ => inr (x / Py.len l)%Q
    end.
Proof. by destruct l. Qed.

Lemma personalize_idem (p : Preferences) (s : Show) :
  AnalysisAgent.personalize p (AnalysisAgent.personalize p s)
  = AnalysisAgent.personalize p s.
Proof. done. Qed.

Lemma adjust_idem (m : MoodProfile) (s : Show) :
  AnalysisAgent.adjust m (AnalysisAgent.adjust m s) = AnalysisAgent.adjust m s.
Proof. done. Qed.

(** The stores of the analysis, step by step. *)
Lemma analysis_store_unfold (research_data : option (list (string * list Ref)))
    (preferences : option Preferences) (mood : option MoodProfile) (σ : Store) :
  let all_shows := analysis_shows research_data in
  let σ1 := (AnalysisAgent.collect (default [] research_data) σ).1 in
  let σ2 := match preferences with
            | Some p => mutate_each (λ _, AnalysisAgent.personalize p) 0
                                    all_shows σ1
            | None => σ1
            end in
  analysis_store research_data preferences mood σ
  = match mood with
    | Some m => mutate_each (λ _, AnalysisAgent.adjust m) 0 all_shows σ2
    | None => σ2
    end.
Proof.
  intros all_shows σ1 σ2. unfold analysis_store, AnalysisAgent.execute.
  pose proof (collect_refs (default [] research_data) σ) as C.
  subst σ2 σ1 all_shows. unfold analysis_shows.
  destruct (AnalysisAgent.collect (default [] research_data) σ) as [σ1 all].
  simpl in C. subst all. cbn [fst]. by destruct (Py.truediv _ _).
Qed.

Lemma analysis_execute_unfold (research_data : option (list (string * list Ref)))
    (preferences : option Preferences) (mood : option MoodProfile) (σ : Store) :
  let all_shows := analysis_shows research_data in
  let σ3 := analysis_store research_data preferences mood σ in
  AnalysisAgent.execute research_data preferences mood σ
  = (σ3,
     match all_shows with
     | [] => inl Py.ZeroDivisionError
     | _ =>
         inr (success AnalysisAgent.name
                {| AnalysisAgent.ranked_content :=
                     Py.sorted_rev
                       (AnalysisAgent.key_of
                          (AnalysisAgent.score_key preferences mood) σ3)
                       all_shows;
                   AnalysisAgent.total_analyzed := length all_shows;
                   AnalysisAgent.genre_distribution :=
                     AnalysisAgent.count_by genre (deref σ3 all_shows);
                   AnalysisAgent.platform_distribution :=
                     AnalysisAgent.count_by platform (deref σ3 all_shows);
                   AnalysisAgent.average_rating :=
                     Py.round (Py.sum (rating <$> deref σ3 all_shows)
                               / Py.len all_shows) 2;
                   AnalysisAgent.personalization_applied :=
                     bool_decide (is_Some preferences);
                   AnalysisAgent.mood_adjusted := bool_decide (is_Some mood)
                |})
     end).
Proof.
  intros all_shows σ3. subst σ3 all_shows.
  unfold analysis_store, analysis_shows, AnalysisAgent.execute.
  pose proof (collect_refs (default [] research_data) σ) as C.
  destruct (AnalysisAgent.collect (default [] research_data) σ) as [σ1 all].
  simpl in C. subst all. rewrite truediv_len.
  by destruct (concat _).
Qed.

Lemma collect_lookup (data : list (string * list Ref)) (σ : Store)
    (r : Ref) (s : Show) :
  σ !! r = Some s →
  ∃ s1, (AnalysisAgent.collect data σ).1 !! r = Some s1
        ∧ same_seed s s1
        ∧ review s1 = review s ∧ trend s1 = trend s
        ∧ filtering s1 = filtering s.
Proof.
  intros E.
  assert (F : Forall2
    (λ s s', same_seed s s' ∧ review s' = review s ∧ trend s' = trend s
             ∧ filtering s' = filtering s) σ (AnalysisAgent.collect data σ).1).
  { apply collect_related; [by intros p s0 s1 | by apply Forall2_refl_on]. }
  destruct (Forall2_lookup_l _ _ _ r s F E) as (s1 & E1 & H1).
  eauto.
Qed.

(** The scores the analysis leaves on a show it was given. *)
Lemma analysis_scores (data : list (string * list Ref)) (p : Preferences)
    (m : MoodProfile) (σ : Store) (r : Ref) (s : Show) :
  r ∈ concat (snd <$> data) → σ !! r = Some s →
  ∃ s', analysis_store (Some data) (Some p) (Some m) σ !! r = Some s'
    ∧ same_seed s s'
    ∧ filtering s' = filtering s ∧ review s' = review s ∧ trend s' = trend s
    ∧ personalized_score s'
      = Some (rating s * default 1.0 (genre_weights p !! genre s))%Q
    ∧ final_score s'
      = Some (rating s * default 1.0 (genre_weights p !! genre s)
              * AnalysisAgent.mood_genre_boost (detected_mood m) (genre s))%Q.
Proof.
  intros Hr E. rewrite analysis_store_unfold. unfold analysis_shows.
  cbn [from_option]. unfold id.
  destruct (collect_lookup data σ r s E) as (s1 & E1 & (Ht & Hg & Hrt) & ? & ? & ?).
  rewrite !mutate_each_const_lookup
    by (apply adjust_idem || apply personalize_idem).
  rewrite !decide_True by done. rewrite E1. eexists. split; [done|].
  unfold AnalysisAgent.adjust, AnalysisAgent.personalize. cbn.
  rewrite Hg, Hrt. by split_and!.
Qed.

(** C5: with genre weights, [personalized_score] is the base rating times
    the weight of the show's genre, 1.0 for a genre without a weight; with
    a mood profile as well, [final_score] is that times the boost of the
    mood for the genre, which for "energetic" is 1.2 for action, 1.1 for
    sci-fi and 1.0 otherwise. *)
Theorem C5_personalized_and_final_score
    (research_data : list (string * list Ref)) (prefs : Preferences)
    (mood : MoodProfile) (σ : Store) (r : Ref) (s : Show) :
  r ∈ concat (snd <$> research_data) → σ !! r = Some s →
  let weight := default 1.0%Q (genre_weights prefs !! genre s) in
  let boost :=
    AnalysisAgent.mood_genre_boost (detected_mood mood) (genre s) in
  (∃ s', (AnalysisAgent.execute (Some research_data) (Some prefs) (Some mood)
            σ).1 !! r = Some s'
     ∧ rating s' = rating s ∧ genre s' = genre s
     ∧ personalized_score s' = Some (rating s * weight)%Q
     ∧ final_score s' = Some (rating s * weight * boost)%Q)
  ∧ (genre_weights prefs !! genre s = None → weight = 1.0%Q)
  ∧ (detected_mood mood = "energetic" →
     boost = if decide (genre s = "action") then 1.2%Q
             else if decide (genre s = "sci-fi") then 1.1%Q else 1.0%Q)
  ∧ boost
    = default 1.0%Q
        (default ∅ (AnalysisAgent.mood_boosts !! detected_mood mood)
         !! genre s).
Proof.
  intros Hr E weight boost. split_and!.
  - destruct (analysis_scores research_data prefs mood σ r s Hr E)
      as (s' & E' & (_ & Hg & Hrt) & _ & _ & _ & Hp & Hf).
    exists s'. by split_and!.
  - intros W. unfold weight. by rewrite W.
  - intros M. unfold boost. rewrite M. apply mood_genre_boost_energetic.
  - done.
Qed.

(** C6: the ranking is the list of shows sorted in descending order of
    the key, the key being [final_score] when a mood profile was given,
    else [personalized_score] when preferences were given, else the base
    rating; the sort is stable: shows of equal keys keep their input
    order. *)
Theorem C6_ranking_sorted_and_stable
    (research_data : option (list (string * list Ref)))
    (prefs : option Preferences) (mood : option MoodProfile)
    (σ σ' : Store) (a : AgentResult AnalysisAgent.Analysis) :
  AnalysisAgent.execute research_data prefs mood σ = (σ', inr a) →
  let all_shows := concat (snd <$> default [] research_data) in
  let key := AnalysisAgent.key_of (AnalysisAgent.score_key prefs mood) σ' in
  let ranked := AnalysisAgent.ranked_content (data a) in
  (∀ r s, r ∈ all_shows → σ' !! r = Some s →
     match mood, prefs with
     | Some _, _ => final_score s = Some (key r)
     | None, Some _ => personalized_score s = Some (key r)
     | None, None => rating s = key r
     end)
  ∧ ranked ≡ₚ all_shows
  ∧ StronglySorted (λ x y, (key y <= key x)%Q) ranked
  ∧ (∀ q, filter (λ r, key r == q)%Q ranked
          = filter (λ r, key r == q)%Q all_shows)
  ∧ (∀ x y, (key x == key y)%Q → before x y all_shows → before x y ranked).
Proof.
  intros H all_shows key ranked.
  rewrite analysis_execute_unfold in H. cbv zeta in H.
  change (analysis_shows research_data) with all_shows in H.
  assert (Hσ : σ' = analysis_store research_data prefs mood σ)
    by (by injection H).
  assert (Hranked : ranked = Py.sorted_rev key all_shows).
  { subst ranked key. destruct all_shows; [done|].
    injection H as <- <-. done. }
  clear H.
  split; [|split; [|split; [|split]]].
  - intros r s Hr Es. unfold key, AnalysisAgent.key_of. rewrite Es.
    cbn [from_option].
    rewrite Hσ, analysis_store_unfold in Es. cbv zeta in Es.
    change (analysis_shows research_data) with all_shows in Es.
    destruct mood as [m|], prefs as [p|];
      cbn [AnalysisAgent.score_key AnalysisAgent.ranking_key];
      rewrite ?mutate_each_const_lookup in Es
        by (apply adjust_idem || apply personalize_idem);
      rewrite ?decide_True in Es by done;
      repeat (apply fmap_Some in Es as (? & Es & ->)); done.
  - rewrite Hranked. apply sorted_rev_perm.
  - rewrite Hranked. apply sorted_rev_sorted.
  - intros q. rewrite Hranked. apply sorted_rev_stable.
  - intros x y Hxy Hb. rewrite Hranked. by apply sorted_rev_stable_pair.
Qed.

(** The moods the detection can return. *)
Lemma detect_range (text : string) :
  MoodDetectionAgent.detect MoodDetectionAgent.mood_indicators text
  ∈ ["relaxed"; "energetic"; "thoughtful"; "fun"; "neutral"].
Proof.
  unfold MoodDetectionAgent.mood_indicators. cbn [MoodDetectionAgent.detect].
  repeat case_match; set_solver.
Qed.

(** C10: a mood other than "energetic", "relaxed" and "thoughtful" (so
    "fun" and "neutral") has no boost table: the boost is 1.0 for every
    genre, every show's [final_score] equals its [personalized_score], and
    the ranking is the one obtained without the mood profile. *)
Theorem C10_unlisted_mood_changes_nothing
    (research_data : option (list (string * list Ref)))
    (prefs : Preferences) (mood : MoodProfile) (σ : Store) :
  detected_mood mood ≠ "energetic" →
  detected_mood mood ≠ "relaxed" →
  detected_mood mood ≠ "thoughtful" →
  let with_mood :=
    AnalysisAgent.execute research_data (Some prefs) (Some mood) σ in
  let without := AnalysisAgent.execute research_data (Some prefs) None σ in
  (∀ context,
     detected_mood (data (MoodDetectionAgent.execute context))
     ∈ ["relaxed"; "energetic"; "thoughtful"; "fun"; "neutral"])
  ∧ (∀ genre, AnalysisAgent.mood_genre_boost (detected_mood mood) genre = 1.0%Q)
  ∧ (∀ r s, r ∈ concat (snd <$> default [] research_data) →
       with_mood.1 !! r = Some s →
       ∃ p f, personalized_score s = Some p ∧ final_score s = Some f
              ∧ (f == p)%Q)
  ∧ match with_mood.2, without.2 with
    | inr a, inr b =>
        AnalysisAgent.ranked_content (data a)
        = AnalysisAgent.ranked_content (data b)
    | inl e, inl e' => e = e'
    | _, _ => False
    end.
Proof.
  intros M1 M2 M3 with_mood without.
  assert (B : ∀ genre,
    AnalysisAgent.mood_genre_boost (detected_mood mood) genre = 1.0%Q)
    by (intros; by apply mood_genre_boost_other).
  assert (S3 : with_mood.1
    = mutate_each (λ _, AnalysisAgent.adjust mood) 0
        (analysis_shows research_data) without.1).
  { change (with_mood.1)
      with (analysis_store research_data (Some prefs) (Some mood) σ).
    change (without.1) with (analysis_store research_data (Some prefs) None σ).
    by rewrite !analysis_store_unfold. }
  split; [intros; apply detect_range|]. split; [exact B|]. split.
  - intros r s Hr Es. rewrite S3 in Es.
    rewrite mutate_each_const_lookup in Es by apply adjust_idem.
    rewrite decide_True in Es by done.
    apply fmap_Some in Es as (s2 & Es & ->).
    change (without.1) with (analysis_store research_data (Some prefs) None σ)
      in Es.
    rewrite analysis_store_unfold in Es. cbv zeta in Es.
    rewrite mutate_each_const_lookup in Es by apply personalize_idem.
    rewrite decide_True in Es by done.
    apply fmap_Some in Es as (s1 & Es & ->).
    eexists _, _. split; [done|]. split; [done|].
    cbn. rewrite B. ring.
  - subst with_mood without. rewrite !analysis_execute_unfold. cbv zeta.
    cbn [snd]. destruct (analysis_shows research_data) as [|r0 l] eqn:El;
      [done|]. cbn [AnalysisAgent.ranked_content data success].
    apply sorted_rev_ext. intros r Hr. unfold AnalysisAgent.key_of.
    change (analysis_store research_data (Some prefs) (Some mood) σ)
      with ((AnalysisAgent.execute research_data (Some prefs) (Some mood)
               σ).1).
    rewrite S3.
    rewrite mutate_each_const_lookup by apply adjust_idem.
    rewrite decide_True by done.
    change ((AnalysisAgent.execute research_data (Some prefs) None σ).1)
      with (analysis_store research_data (Some prefs) None σ).
    destruct (analysis_store research_data (Some prefs) None σ !! r)
      as [s2|]; [|done].
    cbn. rewrite B. ring.
Qed.

(** ** The filter stage *)

Lemma filter_execute_unfold (rnd : Random) (content_list : list Ref)
    (filters : Filters) (σ : Store) :
  let loop := ContentFilterAgent.partition_loop filters rnd 0 content_list σ in
  ContentFilterAgent.execute rnd content_list filters σ
  = (loop.1.1,
     success ContentFilterAgent.name
       {| ContentFilterAgent.fd_approved := loop.1.2;
          ContentFilterAgent.fd_filtered_out := loop.2;
          ContentFilterAgent.filter_stats :=
            {| ContentFilterAgent.total_checked := length content_list;
               ContentFilterAgent.fs_approved := length loop.1.2;
               ContentFilterAgent.fs_filtered := length loop.2 |} |}).
Proof.
  unfold ContentFilterAgent.execute.
  by destruct (ContentFilterAgent.partition_loop _ _ _ _ _) as [[??]?].
Qed.





(** ** The workflow *)

Lemma run_unfold (research : string → AgentResult (list (string * list Seed)))
    (rnd : Random) (user_query : string) (user_profile : UserProfile)
    (context : Context) (filters : Filters) :
  let σ0 := candidates research user_query in
  let stats :=
    ContentFilterAgent.filter_stats (data (filtered rnd filters σ0).2) in
  CoordinatorAgent.run research rnd user_query user_profile context filters
  = match (analysed rnd user_profile context filters σ0).2 with
    | inl e => CoordinatorAgent.Error (Py.str e)
    | inr a =>
        CoordinatorAgent.Success user_query
          (data (RecommendationAgent.execute a
                   (Some (seq 0 (length σ0))) (Some (seq 0 (length σ0)))
                   (analysed rnd user_profile context filters σ0).1).2)
          {| CoordinatorAgent.agents_involved := 8;
             CoordinatorAgent.total_processed :=
               ContentFilterAgent.total_checked stats;
             CoordinatorAgent.ws_approved :=
               ContentFilterAgent.fs_approved stats;
             CoordinatorAgent.ws_filtered :=
               ContentFilterAgent.fs_filtered stats;
             CoordinatorAgent.ws_personalized := true;
             CoordinatorAgent.ws_mood_aware := true;
             CoordinatorAgent.safety_checked := true |}
    end.
Proof.
  intros σ0 stats. subst stats.
  unfold CoordinatorAgent.run, analysed, filtered, enriched.
  fold (candidates research user_query). fold σ0.
  cbn [ReviewAggregationAgent.execute TrendAnalysisAgent.execute fst snd
       data success].
  destruct (ContentFilterAgent.execute rnd (seq 0 (length σ0)) filters _)
    as [σ3 fr].
  cbn [fst snd].
  destruct (AnalysisAgent.execute _ _ _ σ3) as [σ4 [e|a]]; [done|].
  cbn [fst snd].
  by destruct (RecommendationAgent.execute a _ _ σ4) as [σ5 rr].
Qed.

Lemma check_base (filters : Filters) (d : FilterDraw) (s s' : Show) :
  same_base s s' →
  ContentFilterAgent.check filters d s' = ContentFilterAgent.check filters d s.
Proof.
  intros (_ & Hg & Hr & _). unfold ContentFilterAgent.check. by rewrite Hg, Hr.
Qed.

Lemma same_base_refl (σ : Store) : Forall2 same_base σ σ.
Proof. by apply Forall2_refl_on. Qed.

Lemma enriched_base (rnd : Random) (σ0 : Store) :
  Forall2 same_base σ0 (enriched rnd σ0).
Proof.
  unfold enriched. cbn [ReviewAggregationAgent.execute
    TrendAnalysisAgent.execute fst].
  apply mutate_each_related; [by intros k s0 s|].
  apply mutate_each_related; [by intros k s0 s|].
  apply same_base_refl.
Qed.

Lemma filtered_base (rnd : Random) (filters : Filters) (σ0 : Store) :
  Forall2 same_base σ0 (filtered rnd filters σ0).1.
Proof.
  unfold filtered. rewrite filter_execute_unfold. cbn [fst].
  apply partition_loop_related; [by intros v s0 s|]. apply enriched_base.
Qed.

Lemma analysis_store_base (research_data : option (list (string * list Ref)))
    (prefs : option Preferences) (mood : option MoodProfile) (σ0 σ : Store) :
  Forall2 same_seed σ0 σ →
  Forall2 same_seed σ0 (analysis_store research_data prefs mood σ).
Proof.
  intros H. rewrite analysis_store_unfold. cbv zeta.
  assert (H1 : Forall2 same_seed σ0
    (AnalysisAgent.collect (default [] research_data) σ).1)
    by (apply collect_related; [by intros p s0 s | done]).
  destruct mood, prefs; repeat (apply mutate_each_related; [by intros k s0 s|]);
    done.
Qed.

Lemma same_base_seed (σ σ' : Store) :
  Forall2 same_base σ σ' → Forall2 same_seed σ σ'.
Proof.
  intros H. eapply Forall2_impl; [exact H|].
  intros s s' (?&?&?&?). by repeat split.
Qed.

(** The lists the filter returns in a run. *)
Lemma filtered_lists (rnd : Random) (filters : Filters) (σ0 : Store) :
  let out := filtered rnd filters σ0 in
  let d := data out.2 in
  ContentFilterAgent.fd_approved d
  = filter (λ r, verdict_of out.1 r = Some true) (seq 0 (length σ0))
  ∧ ContentFilterAgent.fd_filtered_out d
    = filter (λ r, verdict_of out.1 r = Some false) (seq 0 (length σ0))
  ∧ ContentFilterAgent.fd_approved d ++ ContentFilterAgent.fd_filtered_out d
    ≡ₚ seq 0 (length σ0)
  ∧ ContentFilterAgent.filter_stats d
    = {| ContentFilterAgent.total_checked := length σ0;
         ContentFilterAgent.fs_approved :=
           length (ContentFilterAgent.fd_approved d);
         ContentFilterAgent.fs_filtered :=
           length (ContentFilterAgent.fd_filtered_out d) |}.
Proof.
  intros out d. subst d out. unfold filtered.
  rewrite filter_execute_unfold. cbv zeta.
  cbn [fst snd data success ContentFilterAgent.fd_approved
       ContentFilterAgent.fd_filtered_out ContentFilterAgent.filter_stats].
  destruct (partition_loop_lists filters rnd 0 (seq 0 (length σ0))
              (enriched rnd σ0)) as (Ha & Ho & Hp).
  - apply NoDup_seq.
  - intros r Hr. apply elem_of_seq in Hr. apply lookup_lt_is_Some.
    rewrite <- (Forall2_length _ _ _ (enriched_base rnd σ0)). lia.
  - by rewrite length_seq.
Qed.

(** The verdict on a candidate only depends on the candidate and on the
    draw of its position. *)
Lemma filtered_verdict (rnd : Random) (filters : Filters) (σ0 : Store)
    (r : Ref) (s0 : Show) :
  σ0 !! r = Some s0 →
  verdict_of (filtered rnd filters σ0).1 r
  = Some (approved (filter_status
            (ContentFilterAgent.check filters (filter_draw rnd r) s0))).
Proof.
  intros E. unfold filtered. rewrite filter_execute_unfold. cbn [fst].
  unfold verdict_of.
  rewrite (partition_loop_lookup filters rnd 0 (seq 0 (length σ0)) _ r r).
  - destruct (Forall2_lookup_l _ _ _ r s0 (enriched_base rnd σ0) E)
      as (s2 & E2 & Hb).
    rewrite E2. cbn [fmap option_fmap option_map mbind option_bind].
    by rewrite (check_base filters _ s0 s2 Hb).
  - apply NoDup_seq.
  - apply lookup_seq_lt. by apply lookup_lt_Some in E.
Qed.

Lemma verdict_of_seed (rnd : Random) (filters : Filters) (σ0 : Store)
    (r : Ref) :
  verdict_of (filtered rnd filters σ0).1 r = Some true →
  ∃ s0, σ0 !! r = Some s0
    ∧ (genre s0 ∉ default [] (exclude_genres filters))
    ∧ Qle_bool (default 7.0%Q (min_quality_score filters)) (rating s0) = true.
Proof.
  intros V. destruct (σ0 !! r) as [s0|] eqn:E.
  - rewrite (filtered_verdict rnd filters σ0 r s0 E) in V.
    injection V as V. cbn in V.
    apply andb_prop in V as [_ V]. apply andb_prop in V as [Hg V].
    apply andb_prop in V as [Hq _].
    exists s0. split; [done|]. split; [|done].
    apply negb_true_iff in Hg. by apply bool_decide_eq_false in Hg.
  - unfold verdict_of in V.
    pose proof (Forall2_length _ _ _ (filtered_base rnd filters σ0)) as L.
    apply lookup_ge_None in E.
    rewrite (lookup_ge_None_2 (filtered rnd filters σ0).1 r) in V by lia.
    done.
Qed.

(** ** Grouping by platform *)

Section Regroup.
Context (plat : Ref → option string).

Let group (l : list Ref) (p : string) : list Ref :=
  filter (λ r, plat r = Some p) l.

Lemma group_other (r : Ref) (l : list Ref) (ps : list string) :
  (∀ p, p ∈ ps → plat r ≠ Some p) →
  group (r :: l) <$> ps = group l <$> ps.
Proof.
  induction ps as [|p ps IH]; intros H; [done|].
  rewrite !fmap_cons, IH by (intros; apply H; by right).
  unfold group at 1. rewrite filter_cons_False; [done|]. apply H. left.
Qed.

Lemma group_step (r : Ref) (l : list Ref) (p0 : string) (ps : list string) :
  NoDup ps → plat r = Some p0 → p0 ∈ ps →
  concat (group (r :: l) <$> ps) ≡ₚ r :: concat (group l <$> ps).
Proof.
  intros Hnd Hr. induction Hnd as [|p ps Hp Hnd IH]; intros Hin.
  - inversion Hin.
  - rewrite !fmap_cons. cbn [concat].
    destruct (decide (p = p0)) as [->|Hne].
    + rewrite group_other.
      * unfold group at 1. by rewrite filter_cons_True.
      * intros p Hin' E. rewrite Hr in E. injection E as ->. done.
    + apply elem_of_cons in Hin as [->|Hin]; [done|].
      rewrite (IH Hin). unfold group at 1.
      rewrite filter_cons_False by (rewrite Hr; congruence).
      by rewrite <- Permutation_middle.
Qed.

Lemma regroup_perm (ps : list string) (l : list Ref) :
  NoDup ps → (∀ r, r ∈ l → ∃ p, plat r = Some p ∧ p ∈ ps) →
  concat (group l <$> ps) ≡ₚ l.
Proof.
  intros Hnd. induction l as [|r l IH]; intros H.
  - clear. induction ps as [|p ps IH]; [done|]. by rewrite fmap_cons.
  - destruct (H r) as (p0 & Hr & Hin); [left|].
    rewrite (group_step r l p0 ps Hnd Hr Hin).
    constructor. apply IH. intros; apply H; by right.
Qed.

End Regroup.

Lemma by_platform_perm (rnd : Random) (σ : Store) (approved : list Ref) :
  set_order_ok rnd → (∀ r, r ∈ approved → is_Some (σ !! r)) →
  concat (snd <$> CoordinatorAgent.by_platform rnd σ approved) ≡ₚ approved.
Proof.
  intros Hord Hval. unfold CoordinatorAgent.by_platform.
  rewrite <- list_fmap_compose.
  destruct (Hord (platform <$> deref σ approved)) as [Hnd Hin].
  apply (regroup_perm (λ r, platform <$> σ !! r)); [done|].
  intros r Hr. destruct (Hval r Hr) as [s Es]. exists (platform s).
  rewrite Es. split; [done|]. apply Hin, list_elem_of_fmap.
  exists s. split; [done|]. apply list_elem_of_omap. by exists r.
Qed.

Lemma by_platform_nil (rnd : Random) (σ : Store) :
  concat (snd <$> CoordinatorAgent.by_platform rnd σ []) = [].
Proof.
  unfold CoordinatorAgent.by_platform. rewrite <- list_fmap_compose.
  induction (set_order rnd _) as [|p ps IH]; [done|].
  by rewrite fmap_cons.
Qed.

(** ** Merging the review and trend data *)

Lemma update_self (s : Show) : update s s = s.
Proof.
  destruct s as [t g r p rv tr fl ps fs].
  by destruct rv, tr, fl, ps, fs.
Qed.

Lemma first_titled_Some (σ : Store) (t : string) (refs : list Ref) (m : Ref) :
  RecommendationAgent.first_titled σ t refs = Some m →
  ∃ s, σ !! m = Some s ∧ title s = t.
Proof.
  induction refs as [|r refs IH]; [done|]. simpl.
  destruct (σ !! r) as [s|] eqn:E; [|done].
  destruct (String.eqb (title s) t) eqn:Et; [|done].
  intros [= <-]. apply String.eqb_eq in Et. eauto.
Qed.

(** When titles are unique, the match of a show is the show itself and the
    merge changes nothing. *)
Lemma merge_unique_titles (others ranked : list Ref) (σ : Store) :
  NoDup (title <$> σ) → RecommendationAgent.merge others ranked σ = σ.
Proof.
  intros Hnd. induction ranked as [|item rest IH]; [done|].
  cbn [RecommendationAgent.merge].
  destruct (σ !! item) as [s|] eqn:E; [|done].
  destruct (RecommendationAgent.first_titled σ (title s) others) as [m|] eqn:F;
    [|done].
  destruct (first_titled_Some _ _ _ _ F) as (sm & Em & Ht).
  assert (m = item) as ->.
  { eapply (NoDup_lookup (title <$> σ)); [done|..];
      rewrite list_lookup_fmap; [rewrite Em|rewrite E]; simpl; by f_equal. }
  rewrite E. cbn [from_option].
  replace (alter (update s) item σ) with σ; [done|].
  apply list_eq. intros j. rewrite list_lookup_alter.
  case_decide; [|done]. subst. rewrite E. simpl. by rewrite update_self.
Qed.

Lemma merge_if_unique_titles (others : option (list Ref)) (ranked : list Ref)
    (σ : Store) :
  NoDup (title <$> σ) → RecommendationAgent.merge_if others ranked σ = σ.
Proof.
  intros. destruct others as [[|r l]|]; try done.
  by apply merge_unique_titles.
Qed.

(** ** Runs *)

Section Run.
Context (research : string → AgentResult (list (string * list Seed)))
        (rnd : Random) (user_query : string) (user_profile : UserProfile)
        (context : Context) (filters : Filters).

Let σ0 := candidates research user_query.
Let σ3 := (filtered rnd filters σ0).1.
Let approved_refs :=
  ContentFilterAgent.fd_approved (data (filtered rnd filters σ0).2).
Let filtered_out :=
  ContentFilterAgent.fd_filtered_out (data (filtered rnd filters σ0).2).
Let σ4 := (analysed rnd user_profile context filters σ0).1.
Let shows := analysis_shows
               (Some (CoordinatorAgent.by_platform rnd σ3 approved_refs)).

Lemma approved_verdict (r : Ref) :
  r ∈ approved_refs ↔ verdict_of σ3 r = Some true ∧ r < length σ0.
Proof.
  unfold approved_refs.
  destruct (filtered_lists rnd filters σ0) as (-> & _).
  rewrite list_elem_of_filter, elem_of_seq. fold σ3. intuition lia.
Qed.

Lemma filtered_out_verdict (r : Ref) :
  r ∈ filtered_out ↔ verdict_of σ3 r = Some false ∧ r < length σ0.
Proof.
  unfold filtered_out.
  destruct (filtered_lists rnd filters σ0) as (_ & -> & _).
  rewrite list_elem_of_filter, elem_of_seq. fold σ3. intuition lia.
Qed.

Lemma approved_valid (r : Ref) : r ∈ approved_refs → is_Some (σ3 !! r).
Proof.
  intros [_ H]%approved_verdict. apply lookup_lt_is_Some.
  unfold σ3. by rewrite <- (Forall2_length _ _ _ (filtered_base rnd filters σ0)).
Qed.

Lemma shows_perm : set_order_ok rnd → shows ≡ₚ approved_refs.
Proof.
  intros Hord. unfold shows, analysis_shows. cbn [from_option]. unfold id.
  apply by_platform_perm; [done|]. apply approved_valid.
Qed.

Lemma analysed_base : Forall2 same_seed σ0 σ4.
Proof.
  unfold σ4, analysed. apply analysis_store_base, same_base_seed.
  apply filtered_base.
Qed.

(** A run on which the filter approves nothing ends in the division by
    zero of the mean rating. *)
Lemma run_nothing_approved :
  approved_refs = [] →
  CoordinatorAgent.run research rnd user_query user_profile context filters
  = CoordinatorAgent.Error "division by zero".
Proof.
  intros H. rewrite run_unfold. cbv zeta. unfold analysed.
  fold σ0 σ3 approved_refs. rewrite H, analysis_execute_unfold. cbv zeta.
  cbn [snd]. unfold analysis_shows. cbn [from_option]. unfold id.
  by rewrite by_platform_nil.
Qed.

Lemma nothing_approved_of_quality :
  (∀ s, s ∈ σ0 →
     Qle_bool (default 7.0%Q (min_quality_score filters)) (rating s) = false) →
  approved_refs = [].
Proof.
  intros H. destruct approved_refs as [|r l] eqn:E; [done|].
  assert (Hr : r ∈ approved_refs) by (rewrite E; left).
  apply approved_verdict in Hr as [V _].
  apply verdict_of_seed in V as (s0 & E0 & _ & Hq).
  rewrite H in Hq; [done|]. by eapply list_elem_of_lookup_2.
Qed.

(** What a successful run returns. *)
Lemma run_success (query : string)
    (results : RecommendationAgent.RecommendationData)
    (stats : CoordinatorAgent.WorkflowStats) :
  CoordinatorAgent.run research rnd user_query user_profile context filters
  = CoordinatorAgent.Success query results stats →
  let ranked :=
    Py.sorted_rev (AnalysisAgent.key_of AnalysisAgent.FinalScore σ4) shows in
  RecommendationAgent.total_options (RecommendationAgent.insights results)
  = length shows
  ∧ CoordinatorAgent.total_processed stats = length σ0
  ∧ CoordinatorAgent.ws_approved stats = length approved_refs
  ∧ CoordinatorAgent.ws_filtered stats = length filtered_out
  ∧ (NoDup (title <$> σ0) →
     RecommendationAgent.recommendations results
     = imap (λ i s, RecommendationAgent.recommend (S i) s)
            (deref σ4 (take 5 ranked))).
Proof.
  intros H. cbv zeta. rewrite run_unfold in H. cbv zeta in H.
  fold σ0 in H. fold σ4 in H.
  destruct (filtered_lists rnd filters σ0) as (_ & _ & _ & Hst).
  cbv zeta in Hst. fold σ0 in Hst. rewrite Hst in H. clear Hst.
  cbn [ContentFilterAgent.total_checked ContentFilterAgent.fs_approved
       ContentFilterAgent.fs_filtered] in H.
  fold approved_refs filtered_out in H.
  unfold analysed in H. fold σ0 σ3 approved_refs in H.
  rewrite analysis_execute_unfold in H. cbv zeta in H. cbn [snd] in H.
  fold shows in H. unfold analysed in σ4. fold σ0 σ3 approved_refs in σ4.
  change (analysis_store _ _ _ σ3) with σ4 in H.
  destruct shows as [|r0 l] eqn:Es; [done|]. rewrite <- Es in *.
  injection H as _ <- <-.
  cbn [CoordinatorAgent.total_processed CoordinatorAgent.ws_approved
       CoordinatorAgent.ws_filtered].
  split; [done|]. split; [done|]. split; [done|]. split; [done|].
  intros Hnd. unfold RecommendationAgent.execute. cbv zeta.
  cbn [snd data success RecommendationAgent.recommendations
       AnalysisAgent.ranked_content].
  assert (Hnd4 : NoDup (title <$> σ4)).
  { destruct (same_seed_fmap _ _ analysed_base) as (-> & _). done. }
  destruct (seq 0 (length σ0)) as [|r1 l1]; [done|].
  rewrite (merge_unique_titles _ _ σ4 Hnd4).
  by rewrite (merge_unique_titles _ _ σ4 Hnd4).
Qed.

End Run.

Lemma remove_dups_order (rnd : Random) :
  set_order rnd = remove_dups → set_order_ok rnd.
Proof.
  intros E l. rewrite E. split; [apply NoDup_remove_dups|].
  intros x. apply elem_of_remove_dups.
Qed.

Lemma check_excluded (filters : Filters) (d : FilterDraw) (s : Show) :
  genre s ∈ default [] (exclude_genres filters) →
  approved (filter_status (ContentFilterAgent.check filters d s)) = false.
Proof.
  intros H. cbn. unfold Py.contains at 1.
  rewrite bool_decide_eq_true_2 by done. cbn. apply andb_false_r.
Qed.

Lemma recommend_elem (l : list Show) (rec : RecommendationAgent.Recommendation) :
  rec ∈ imap (λ i s, RecommendationAgent.recommend (S i) s) l →
  ∃ s, s ∈ l ∧ RecommendationAgent.r_title rec = title s
       ∧ RecommendationAgent.r_genre rec = genre s
       ∧ RecommendationAgent.r_rating rec = rating s.
Proof.
  intros (i & H)%list_elem_of_lookup_1. rewrite list_lookup_imap in H.
  apply fmap_Some in H as (s & Hs & ->). exists s.
  split; [by eapply list_elem_of_lookup_2 | done].
Qed.

(** Where a recommendation comes from: an approved candidate. *)
Lemma recommendation_origin
    (research : string → AgentResult (list (string * list Seed)))
    (rnd : Random) (user_query : string) (user_profile : UserProfile)
    (context : Context) (filters : Filters) (query : string)
    (results : RecommendationAgent.RecommendationData)
    (stats : CoordinatorAgent.WorkflowStats)
    (rec : RecommendationAgent.Recommendation) :
  set_order_ok rnd →
  NoDup (title <$> candidates research user_query) →
  CoordinatorAgent.run research rnd user_query user_profile context filters
  = CoordinatorAgent.Success query results stats →
  rec ∈ RecommendationAgent.recommendations results →
  ∃ r s0, candidates research user_query !! r = Some s0
    ∧ r ∈ ContentFilterAgent.fd_approved
            (data (filtered rnd filters (candidates research user_query)).2)
    ∧ (genre s0 ∉ default [] (exclude_genres filters))
    ∧ RecommendationAgent.r_title rec = title s0
    ∧ RecommendationAgent.r_genre rec = genre s0.
Proof.
  intros Hord Hnd Hrun Hrec.
  destruct (run_success _ _ _ _ _ _ _ _ _ Hrun) as (_ & _ & _ & _ & Hrecs).
  rewrite (Hrecs Hnd) in Hrec.
  apply recommend_elem in Hrec as (s4 & Hs4 & Ht & Hg & _).
  apply list_elem_of_omap in Hs4 as (r & Hr & E4).
  apply elem_of_take in Hr as (i & Hr & _).
  apply list_elem_of_lookup_2 in Hr.
  rewrite sorted_rev_perm in Hr.
  rewrite (shows_perm research rnd user_query filters Hord) in Hr.
  pose proof Hr as [V _]%approved_verdict.
  apply verdict_of_seed in V as (s0 & E0 & Hex & _).
  destruct (Forall2_lookup_lr _ _ _ r s0 s4
              (analysed_base research rnd user_query user_profile context
                 filters) E0 E4) as (Ht' & Hg' & _).
  exists r, s0. split_and!; try done; congruence.
Qed.

(** C1: a run on which no candidate is approved does not return an empty
    recommendation list with zero-valued statistics: the mean rating is
    [sum(...) / len(all_shows)] with nothing to guard it, the division
    raises, and the workflow returns its error result.  This happens for the
    built-in catalogue as soon as the quality bar is above every rating,
    and for a provider that finds nothing. *)
Theorem C1_empty_run_divides_by_zero :
  (∀ rnd user_query user_profile context,
     CoordinatorAgent.execute rnd user_query user_profile context
                              Scenario.strict_filters
     = CoordinatorAgent.Error "division by zero")
  ∧ (∀ rnd user_query user_profile context filters,
       CoordinatorAgent.run (λ _, success ResearchAgent.name [])
                            rnd user_query user_profile context filters
       = CoordinatorAgent.Error "division by zero")
  ∧ (∀ preferences mood σ,
       (AnalysisAgent.execute (Some []) preferences mood σ).2
       = inl Py.ZeroDivisionError).
Proof.
  split; [|split].
  - intros. apply run_nothing_approved, nothing_approved_of_quality.
    intros s Hs. unfold candidates in Hs. cbn in Hs.
    repeat (apply elem_of_cons in Hs as [->|Hs]; [done|]).
    inversion Hs.
  - intros. apply run_nothing_approved, nothing_approved_of_quality.
    intros s Hs. inversion Hs.
  - intros. by rewrite analysis_execute_unfold.
Qed.

(** C2: every show handed to the ranking carries the verdict [approved];
    the review and trend stages keep every candidate, the filter splits
    them, and the ranking is a rearrangement of the approved ones; so a
    candidate of an excluded genre is in [filtered_out], is not handed to
    the ranking, and no recommendation bears its title or an excluded
    genre, whatever its rating.  Titles are unique within a run. *)
Theorem C2_excluded_genre_never_recommended
    (research : string → AgentResult (list (string * list Seed)))
    (rnd : Random) (user_query : string) (user_profile : UserProfile)
    (context : Context) (filters : Filters) :
  set_order_ok rnd →
  NoDup (title <$> candidates research user_query) →
  let σ0 := candidates research user_query in
  let out := filtered rnd filters σ0 in
  let approved_refs := ContentFilterAgent.fd_approved (data out.2) in
  let filtered_out := ContentFilterAgent.fd_filtered_out (data out.2) in
  let excluded := default [] (exclude_genres filters) in
  let ranking_input :=
    analysis_shows (Some (CoordinatorAgent.by_platform rnd out.1 approved_refs)) in
  length (enriched rnd σ0) = length σ0
  ∧ approved_refs ++ filtered_out ≡ₚ seq 0 (length σ0)
  ∧ ranking_input ≡ₚ approved_refs
  ∧ (∀ r, r ∈ ranking_input → verdict_of out.1 r = Some true)
  ∧ (∀ a, (analysed rnd user_profile context filters σ0).2 = inr a →
       AnalysisAgent.ranked_content (data a) ≡ₚ approved_refs)
  ∧ (∀ r s, σ0 !! r = Some s → genre s ∈ excluded →
       r ∈ filtered_out ∧ r ∉ approved_refs ∧ r ∉ ranking_input
       ∧ ∀ query results stats,
           CoordinatorAgent.run research rnd user_query user_profile context
                                filters
           = CoordinatorAgent.Success query results stats →
           title s ∉ RecommendationAgent.r_title
                       <$> RecommendationAgent.recommendations results)
  ∧ (∀ query results stats rec,
       CoordinatorAgent.run research rnd user_query user_profile context
                            filters
       = CoordinatorAgent.Success query results stats →
       rec ∈ RecommendationAgent.recommendations results →
       RecommendationAgent.r_genre rec ∉ excluded).
Proof.
  intros Hord Hnd σ0 out approved_refs filtered_out excluded ranking_input.
  pose proof (shows_perm research rnd user_query filters Hord) as Hperm.
  fold σ0 out approved_refs ranking_input in Hperm.
  destruct (filtered_lists rnd filters σ0) as (_ & _ & Hsplit & _).
  cbv zeta in Hsplit. fold out approved_refs filtered_out in Hsplit.
  split; [|split; [|split; [|split; [|split; [|split]]]]].
  - symmetry. apply (Forall2_length _ _ _ (enriched_base rnd σ0)).
  - done.
  - done.
  - intros r Hr. rewrite Hperm in Hr.
    by apply (approved_verdict research rnd user_query filters) in Hr as [V _].
  - intros a Ha. unfold analysed in Ha. fold out approved_refs in Ha.
    rewrite analysis_execute_unfold in Ha. cbv zeta in Ha. cbn [snd] in Ha.
    fold ranking_input in Ha.
    destruct ranking_input as [|r0 l] eqn:E; [done|].
    rewrite <- E in Ha, Hperm.
    injection Ha as <-. cbn [data success AnalysisAgent.ranked_content].
    etrans; [apply sorted_rev_perm | exact Hperm].
  - intros r s Es Hg.
    assert (V : verdict_of out.1 r = Some false).
    { unfold out. rewrite (filtered_verdict rnd filters σ0 r s Es).
      by rewrite check_excluded. }
    assert (Hr : r ∉ approved_refs).
    { intros [V' _]%(approved_verdict research rnd user_query filters).
      fold σ0 out in V'. congruence. }
    split; [|split; [done|split]].
    + apply (filtered_out_verdict research rnd user_query filters).
      split; [done|]. by apply lookup_lt_Some in Es.
    + by rewrite Hperm.
    + intros query results stats Hrun
        (rec & Ht & Hrec)%list_elem_of_fmap.
      destruct (recommendation_origin _ _ _ _ _ _ _ _ _ rec Hord Hnd Hrun Hrec)
        as (r' & s' & Es' & _ & Hex & Ht' & _).
      fold σ0 in Es'.
      assert (r = r').
      { eapply (NoDup_lookup (title <$> σ0)); [done|..];
          rewrite list_lookup_fmap; [rewrite Es|rewrite Es']; simpl;
          f_equal; congruence. }
      subst r'. rewrite Es in Es'. injection Es' as <-. by apply Hex.
  - intros query results stats rec Hrun Hrec.
    destruct (recommendation_origin _ _ _ _ _ _ _ _ _ rec Hord Hnd Hrun Hrec)
      as (r' & s' & _ & _ & Hex & _ & Hg).
    by rewrite Hg.
Qed.

(** C9, as the code has it: the insights count the shows that were
    analysed, which are the approved ones: [total_options] equals the
    statistics' [approved] count, and the [total_processed] count (the
    filter's [total_checked], the number of candidates fetched) exceeds it
    by the [filtered] count. *)
Theorem C9_total_options_counts_approved
    (research : string → AgentResult (list (string * list Seed)))
    (rnd : Random) (user_query : string) (user_profile : UserProfile)
    (context : Context) (filters : Filters) (query : string)
    (results : RecommendationAgent.RecommendationData)
    (stats : CoordinatorAgent.WorkflowStats) :
  set_order_ok rnd →
  CoordinatorAgent.run research rnd user_query user_profile context filters
  = CoordinatorAgent.Success query results stats →
  let total_options :=
    RecommendationAgent.total_options (RecommendationAgent.insights results) in
  total_options = CoordinatorAgent.ws_approved stats
  ∧ CoordinatorAgent.total_processed stats
    = length (candidates research user_query)
  ∧ CoordinatorAgent.total_processed stats
    = total_options + CoordinatorAgent.ws_filtered stats
  ∧ (total_options = CoordinatorAgent.total_processed stats
     ↔ CoordinatorAgent.ws_filtered stats = 0).
Proof.
  intros Hord Hrun total_options. subst total_options.
  destruct (run_success _ _ _ _ _ _ _ _ _ Hrun) as (Ho & Hp & Ha & Hf & _).
  pose proof (shows_perm research rnd user_query filters Hord) as Hperm.
  apply Permutation_length in Hperm.
  destruct (filtered_lists rnd filters (candidates research user_query))
    as (_ & _ & Hsplit & _).
  apply Permutation_length in Hsplit.
  rewrite length_app, length_seq in Hsplit. cbv zeta in Hsplit.
  rewrite Ho, Hp, Ha, Hf, Hperm. lia.
Qed.

(** ** Two edges of the code *)

(** An item whose warning list is empty does not carry the label "none":
    when warnings are not acceptable it fails the warnings check. *)
Lemma empty_warnings_fail (item : Show) (c : ContentRating) :
  passes_warnings
    (filter_status
       (ContentFilterAgent.check
          (mkFilters None None None (Some false)) (mkFilterDraw c []) item))
  = false.
Proof. done. Qed.

(** Unique titles matter for the merge: when an approved show shares its
    title with a rejected one listed before it, [item.update] copies the
    rejected show's fields over it, and the recommendation shows them. *)
Lemma duplicate_titles_merge :
  (RecommendationAgent.r_genre
     <$> match CoordinatorAgent.run Scenario.twin_provider Main.sample_random
                 "tonight" Main.user_profile Main.context Main.filters with
         | CoordinatorAgent.Success _ results _ =>
             RecommendationAgent.recommendations results
         | CoordinatorAgent.Error _ => []
         end)
  = ["horror"].
Proof. by vm_compute. Qed.

(** ** The statements at work *)

Lemma sample_random_ok : set_order_ok Main.sample_random.
Proof. by apply remove_dups_order. Defined.

(** C9 as the claim has it fails: with two titles below the quality bar
    the insights count 12 options while 14 candidates were checked. *)
Lemma C9_counterexample :
  ¬ (∀ rnd user_query user_profile context filters query results stats,
       CoordinatorAgent.execute rnd user_query user_profile context filters
       = CoordinatorAgent.Success query results stats →
       RecommendationAgent.total_options (RecommendationAgent.insights results)
       = CoordinatorAgent.total_processed stats).
Proof.
  intros H.
  pose (observe := λ o,
    match o with
    | CoordinatorAgent.Success _ r s =>
        Some (RecommendationAgent.total_options (RecommendationAgent.insights r),
              CoordinatorAgent.total_processed s)
    | CoordinatorAgent.Error _ => None
    end).
  assert (O : observe (CoordinatorAgent.execute Main.sample_random "tonight"
                         Main.user_profile Main.context
                         Scenario.selective_filters) = Some (12, 14))
    by (vm_compute; reflexivity).
  destruct (CoordinatorAgent.execute Main.sample_random "tonight"
              Main.user_profile Main.context Scenario.selective_filters)
    as [q r s|e] eqn:E; [|discriminate O].
  specialize (H _ _ _ _ _ _ _ _ E). simpl in O. rewrite H in O.
  injection O as O1 O2. lia.
Qed.

Lemma C9_witness :
  ∃ query results stats,
    CoordinatorAgent.run ResearchAgent.execute Main.sample_random "tonight"
      Main.user_profile Main.context Scenario.selective_filters
    = CoordinatorAgent.Success query results stats
    ∧ RecommendationAgent.total_options (RecommendationAgent.insights results)
      = CoordinatorAgent.ws_approved stats.
Proof.
  destruct (CoordinatorAgent.run ResearchAgent.execute Main.sample_random
              "tonight" Main.user_profile Main.context
              Scenario.selective_filters) as [q r s|e] eqn:E.
  - exists q, r, s. split; [reflexivity|].
    exact (proj1 (C9_total_options_counts_approved _ _ _ _ _ _ _ _ _
                    sample_random_ok E)).
  - vm_compute in E. discriminate E.
Defined.

Lemma C2_witness :
  set_order_ok Main.sample_random
  ∧ NoDup (title <$> candidates Scenario.horror_provider "tonight")
  ∧ (∃ s, candidates Scenario.horror_provider "tonight" !! 0 = Some s
          ∧ genre s = "horror" ∧ rating s = 9.5%Q
          ∧ 0 ∈ ContentFilterAgent.fd_filtered_out
                  (data (filtered Main.sample_random Main.filters
                           (candidates Scenario.horror_provider "tonight")).2)
          ∧ ∃ query results stats,
              CoordinatorAgent.run Scenario.horror_provider Main.sample_random
                "tonight" Main.user_profile Main.context Main.filters
              = CoordinatorAgent.Success query results stats
              ∧ title s ∉ RecommendationAgent.r_title
                            <$> RecommendationAgent.recommendations results).
Proof.
  assert (Hnd : NoDup (title <$> candidates Scenario.horror_provider "tonight")).
  { apply (bool_decide_unpack _). vm_compute. exact I. }
  split; [exact sample_random_ok|]. split; [exact Hnd|].
  destruct (C2_excluded_genre_never_recommended Scenario.horror_provider
              Main.sample_random "tonight" Main.user_profile Main.context
              Main.filters sample_random_ok Hnd)
    as (_ & _ & _ & _ & _ & H & _).
  eexists. split; [reflexivity|]. split; [reflexivity|]. split; [reflexivity|].
  destruct (H 0 _ eq_refl) as (Hout & _ & _ & Hrec).
  - apply (bool_decide_unpack _). vm_compute. exact I.
  - split; [exact Hout|].
    destruct (CoordinatorAgent.run Scenario.horror_provider Main.sample_random
                "tonight" Main.user_profile Main.context Main.filters)
      as [q r st|e] eqn:E.
    + exists q, r, st. split; [reflexivity|]. exact (Hrec q r st eq_refl).
    + vm_compute in E. discriminate E.
Defined.



Lemma C4_witness :
  let d := review_draw Main.sample_random 0 in
  let item := mkShow "A" "drama" 8.0 "netflix" None None None None None in
  (rating item * 10 + rt_jitter d == rating item * 10)%Q
  ∧ (rating item * 10 + mc_jitter d == rating item * 10)%Q
  ∧ (ReviewAggregationAgent.trust (ReviewAggregationAgent.scores d item)
     == 10)%Q.
Proof.
  intros d item.
  assert (H1 : (rating item * 10 + rt_jitter d == rating item * 10)%Q)
    by reflexivity.
  assert (H2 : (rating item * 10 + mc_jitter d == rating item * 10)%Q)
    by reflexivity.
  split; [exact H1|]. split; [exact H2|].
  destruct (C4_trust_score_formula_and_range d item)
    as (_ & _ & _ & _ & _ & _ & H).
  exact (proj1 (proj2 (H H1 H2))).
Defined.

Lemma C5_witness :
  let prefs := data (PersonalizationAgent.execute Main.user_profile) in
  let mood := data (MoodDetectionAgent.execute Main.context) in
  0 ∈ concat (snd <$> Scenario.small_data)
  ∧ ∃ s s',
      Scenario.small_store !! 0 = Some s
      ∧ (AnalysisAgent.execute (Some Scenario.small_data) (Some prefs)
           (Some mood) Scenario.small_store).1 !! 0 = Some s'
      ∧ personalized_score s'
        = Some (rating s * default 1.0 (genre_weights prefs !! genre s))%Q.
Proof.
  intros prefs mood.
  assert (Hin : 0 ∈ concat (snd <$> Scenario.small_data)) by (simpl; left).
  split; [exact Hin|].
  destruct (C5_personalized_and_final_score Scenario.small_data prefs mood
              Scenario.small_store 0 _ Hin eq_refl)
    as ((s' & E & _ & _ & Hp & _) & _).
  eexists _, s'. split; [reflexivity|]. split; [exact E | exact Hp].
Defined.

Lemma C6_witness :
  ∃ σ' a,
    AnalysisAgent.execute (Some Scenario.small_data) None None
                          Scenario.small_store = (σ', inr a)
    ∧ AnalysisAgent.ranked_content (data a) ≡ₚ [0; 1; 2]
    ∧ (before 0 2 [0; 1; 2] → before 0 2 (AnalysisAgent.ranked_content (data a))).
Proof.
  destruct (AnalysisAgent.execute (Some Scenario.small_data) None None
              Scenario.small_store) as [σ' [e|a]] eqn:E.
  - vm_compute in E. discriminate E.
  - exists σ', a. split; [reflexivity|].
    destruct (C6_ranking_sorted_and_stable _ _ _ _ _ _ E)
      as (_ & Hp & _ & _ & Hs).
    split; [exact Hp|]. apply Hs.
    assert (Eσ : σ' = Scenario.small_store).
    { apply (f_equal fst) in E. vm_compute in E. symmetry. exact E. }
    rewrite Eσ. reflexivity.
Defined.

Lemma C7_witness :
  let favorites :=
    default ["sci-fi"; "drama"] (favorite_genres Scenario.conflicted_profile) in
  let disliked :=
    default ["horror"] (disliked_genres Scenario.conflicted_profile) in
  "horror" ∈ favorites ∧ "horror" ∈ disliked
  ∧ genre_weights (data (PersonalizationAgent.execute
                           Scenario.conflicted_profile)) !! "horror"
    = Some 0.3%Q.
Proof.
  intros favorites disliked.
  assert (H1 : "horror" ∈ favorites) by (right; left).
  assert (H2 : "horror" ∈ disliked) by left.
  split; [exact H1|]. split; [exact H2|].
  exact (proj1 (proj2 (proj2
    (C7_dislike_applied_after_favorite Scenario.conflicted_profile "horror")))
    H1 H2).
Defined.

Lemma C8_witness :
  max_content_rating Scenario.unknown_ceiling_filters = Some "NC-17"
  ∧ "NC-17" ∉ ["G"; "PG"; "PG-13"; "TV-14"; "R"; "TV-MA"]
  ∧ passes_rating
      (filter_status
         (ContentFilterAgent.check Scenario.unknown_ceiling_filters
            (mkFilterDraw TVMA ["violence"])
            (mkShow "A" "drama" 8.0 "netflix" None None None None None)))
    = true.
Proof.
  assert (Hu : "NC-17" ∉ ["G"; "PG"; "PG-13"; "TV-14"; "R"; "TV-MA"]).
  { apply (bool_decide_unpack _). vm_compute. exact I. }
  split; [reflexivity|]. split; [exact Hu|].
  exact (proj1 (proj2
    (C8_unknown_ceiling_accepts_all Scenario.unknown_ceiling_filters "NC-17"
       Main.sample_random [] [] (mkFilterDraw TVMA ["violence"])
       (mkShow "A" "drama" 8.0 "netflix" None None None None None)
       eq_refl Hu))).
Defined.

Lemma C10_witness :
  let mood := data (MoodDetectionAgent.execute Scenario.fun_context) in
  let prefs := data (PersonalizationAgent.execute Main.user_profile) in
  detected_mood mood = "fun"
  ∧ ∀ genre, AnalysisAgent.mood_genre_boost (detected_mood mood) genre = 1.0%Q.
Proof.
  intros mood prefs. split; [reflexivity|].
  exact (proj1 (proj2 (C10_unlisted_mood_changes_nothing
                  (Some Scenario.small_data) prefs mood Scenario.small_store
                  ltac:(discriminate) ltac:(discriminate) ltac:(discriminate)))).
Defined.

(** * More properties of the code *)

(** ** The journal *)

Lemma first_value_None {V} (key : string) (items : list (Agent.Entry V)) :
  Agent.first_value key items = None
  ↔ ∀ e, e ∈ items → Agent.e_key e ≠ key.
Proof.
  induction items as [|e items IH]; simpl.
  - split; [intros _ e H; inversion H | done].
  - destruct (String.eqb (Agent.e_key e) key) eqn:E.
    + apply String.eqb_eq in E. split; [done|]. intros H.
      exfalso. apply (H e); [left | done].
    + apply String.eqb_neq in E. rewrite IH. split.
      * intros H e' [->|H']%elem_of_cons; auto.
      * intros H e' H'. apply H. by right.
Qed.

(** X1: [get_memory] returns the value remembered last under the key;
    remembering under another key does not change the answer; a key never
    remembered gives [None]; [remember] only appends. *)
Theorem X1_get_memory_returns_latest {V} (name : string) (now : Z)
    (key key' : string) (value : V) (memory : list (Agent.Entry V)) :
  Agent.get_memory key (Agent.remember name now key value memory) = Some value
  ∧ (key' ≠ key →
     Agent.get_memory key' (Agent.remember name now key value memory)
     = Agent.get_memory key' memory)
  ∧ (Agent.get_memory key' memory = None
     ↔ ∀ e, e ∈ memory → Agent.e_key e ≠ key')
  ∧ take (length memory) (Agent.remember name now key value memory) = memory
  ∧ length (Agent.remember name now key value memory) = S (length memory).
Proof.
  unfold Agent.get_memory, Agent.remember. rewrite reverse_snoc. simpl.
  rewrite String.eqb_refl. split; [done|]. split; [|split; [|split]].
  - intros Hne. apply not_eq_sym, String.eqb_neq in Hne. by rewrite Hne.
  - rewrite first_value_None. by setoid_rewrite elem_of_reverse.
  - by rewrite take_app_length.
  - rewrite length_app. simpl. lia.
Qed.

(** ** The recently watched titles *)

(** X2: [watched_recently] holds the titles of the last five entries of
    the viewing history, in order: all of them when the history has at
    most five entries, and never more than five. *)
Theorem X2_watched_recently_last_five (profile : UserProfile) :
  let history := default [] (viewing_history profile) in
  let watched := watched_recently (data (PersonalizationAgent.execute profile)) in
  length watched = length history `min` 5
  ∧ (∃ older, h_title <$> history = older ++ watched)
  ∧ (length history ≤ 5 → watched = h_title <$> history)
  ∧ (viewing_history profile = None → watched = []).
Proof.
  intros history watched. subst watched. simpl. fold history.
  unfold Py.last_n. split; [|split; [|split]].
  - rewrite length_fmap, length_drop. lia.
  - exists (h_title <$> take (length history - 5) history).
    by rewrite <- fmap_app, take_drop.
  - intros H. by replace (length history - 5) with 0 by lia.
  - intros H. subst history. by rewrite H.
Qed.

(** ** Mood detection *)

Lemma append_cons (c : Ascii.ascii) (a b : string) :
  (String c a +:+ b)%string = String c (a +:+ b)%string.
Proof. done. Qed.

Lemma append_nil (b : string) : (""+:+ b)%string = b.
Proof. done. Qed.

Lemma prefix_spec (kw s : string) :
  String.prefix kw s = true ↔ ∃ post, s = (kw +:+ post)%string.
Proof.
  revert s. induction kw as [|a kw IH]; intros s.
  - split; [by exists s | by destruct s].
  - destruct s as [|b s]; simpl.
    + split; [done | by intros [post H]].
    + destruct (Ascii.ascii_dec a b) as [->|Hne].
      * rewrite IH. split; intros [post H]; exists post;
          rewrite append_cons in *; congruence.
      * split; [done|]. intros [post H]. rewrite append_cons in H. congruence.
Qed.

Lemma substring_of_spec (kw s : string) :
  Py.substring_of kw s = true ↔ occurs kw s.
Proof.
  induction s as [|c s IH]; cbn [Py.substring_of].
  - destruct (String.prefix kw "") eqn:E.
    + split; [|done]. intros _. apply prefix_spec in E as [post E].
      by exists ""%string, post.
    + split; [done|]. intros ([|??] & post & H); [|done].
      rewrite append_nil in H. rewrite <- E. apply prefix_spec. by exists post.
  - destruct (String.prefix kw (String c s)) eqn:E.
    + split; [|done]. intros _. apply prefix_spec in E as [post E].
      by exists ""%string, post.
    + rewrite IH. split.
      * intros (pre & post & ->). by exists (String c pre), post.
      * intros ([|c' pre] & post & H).
        -- rewrite append_nil in H. exfalso.
           assert (String.prefix kw (String c s) = true)
             by (apply prefix_spec; by exists post).
           congruence.
        -- rewrite append_cons in H. injection H as -> ->. by exists pre, post.
Qed.

Lemma existsb_mentions (keywords : list string) (text : string) :
  existsb (λ kw, Py.substring_of kw (Py.lower text)) keywords = true
  ↔ mentions keywords text.
Proof.
  rewrite existsb_exists. unfold mentions.
  split; intros (kw & H1 & H2); exists kw.
  - by rewrite list_elem_of_In, <- substring_of_spec.
  - by rewrite <- list_elem_of_In, substring_of_spec.
Qed.

Lemma lower_ascii_idem (c : Ascii.ascii) :
  Py.lower_ascii (Py.lower_ascii c) = Py.lower_ascii c.
Proof. by destruct c as [[] [] [] [] [] [] [] []]. Qed.

Lemma lower_idem (s : string) : Py.lower (Py.lower s) = Py.lower s.
Proof.
  induction s as [|c s IH]; [done|]. simpl. by rewrite lower_ascii_idem, IH.
Qed.

Lemma detect_first_match (text : string) :
  let mood := MoodDetectionAgent.detect MoodDetectionAgent.mood_indicators text in
  let relaxed := mentions ["chill"; "relax"; "unwind"; "cozy"] text in
  let energetic := mentions ["exciting"; "action"; "intense"; "thrilling"] text in
  let thoughtful := mentions ["deep"; "meaningful"; "drama"; "complex"] text in
  let fun_ := mentions ["fun"; "comedy"; "light"; "entertaining"] text in
  (mood = "relaxed" ↔ relaxed)
  ∧ (mood = "energetic" ↔ ¬ relaxed ∧ energetic)
  ∧ (mood = "thoughtful" ↔ ¬ relaxed ∧ ¬ energetic ∧ thoughtful)
  ∧ (mood = "fun" ↔ ¬ relaxed ∧ ¬ energetic ∧ ¬ thoughtful ∧ fun_)
  ∧ (mood = "neutral" ↔ ¬ relaxed ∧ ¬ energetic ∧ ¬ thoughtful ∧ ¬ fun_).
Proof.
  intros mood relaxed energetic thoughtful fun_. subst mood.
  unfold MoodDetectionAgent.mood_indicators. cbn [MoodDetectionAgent.detect].
  pose proof (existsb_mentions ["chill"; "relax"; "unwind"; "cozy"] text) as H1.
  pose proof (existsb_mentions ["exciting"; "action"; "intense"; "thrilling"]
                text) as H2.
  pose proof (existsb_mentions ["deep"; "meaningful"; "drama"; "complex"]
                text) as H3.
  pose proof (existsb_mentions ["fun"; "comedy"; "light"; "entertaining"]
                text) as H4.
  fold relaxed in H1. fold energetic in H2. fold thoughtful in H3.
  fold fun_ in H4.
  destruct (existsb _ ["chill"; "relax"; "unwind"; "cozy"]);
    [|destruct (existsb _ ["exciting"; "action"; "intense"; "thrilling"]);
      [|destruct (existsb _ ["deep"; "meaningful"; "drama"; "complex"]);
        [|destruct (existsb _ ["fun"; "comedy"; "light"; "entertaining"])]]];
    repeat match goal with
           | H : true = true ↔ ?P |- _ =>
               assert P by (by apply H); clear H
           | H : false = true ↔ ?P |- _ =>
               assert (¬ P) by (by intros ?%H); clear H
           end;
    (split_and!; split; first [done | discriminate | tauto]).
Qed.

(** X3: the mood is the first of relaxed, energetic, thoughtful, fun one
    of whose keywords occurs somewhere in the lower-cased query, as a
    substring; a query with keywords of several moods gets the earliest of
    them, a query with none is "neutral"; the energy level is "high" for
    "energetic" only. *)
Theorem X3_mood_is_first_match (context : Context) :
  let text := default "" (query context) in
  let profile := data (MoodDetectionAgent.execute context) in
  let mood := detected_mood profile in
  let relaxed := mentions ["chill"; "relax"; "unwind"; "cozy"] text in
  let energetic := mentions ["exciting"; "action"; "intense"; "thrilling"] text in
  let thoughtful := mentions ["deep"; "meaningful"; "drama"; "complex"] text in
  let fun_ := mentions ["fun"; "comedy"; "light"; "entertaining"] text in
  (mood = "relaxed" ↔ relaxed)
  ∧ (mood = "energetic" ↔ ¬ relaxed ∧ energetic)
  ∧ (mood = "thoughtful" ↔ ¬ relaxed ∧ ¬ energetic ∧ thoughtful)
  ∧ (mood = "fun" ↔ ¬ relaxed ∧ ¬ energetic ∧ ¬ thoughtful ∧ fun_)
  ∧ (mood = "neutral" ↔ ¬ relaxed ∧ ¬ energetic ∧ ¬ thoughtful ∧ ¬ fun_)
  ∧ (energy_level profile = "high" ↔ mood = "energetic")
  ∧ MoodDetectionAgent.detect MoodDetectionAgent.mood_indicators
      (Py.lower text) = mood.
Proof.
  intros text profile mood relaxed energetic thoughtful fun_.
  assert (M : mood = MoodDetectionAgent.detect
                       MoodDetectionAgent.mood_indicators text) by done.
  destruct (detect_first_match text) as (D1 & D2 & D3 & D4 & D5).
  rewrite <- M in D1, D2, D3, D4, D5.
  split; [exact D1|]. split; [exact D2|]. split; [exact D3|].
  split; [exact D4|]. split; [exact D5|]. split.
  - subst mood profile. cbn [MoodDetectionAgent.execute data success
      detected_mood energy_level].
    destruct (String.eqb _ "energetic") eqn:E.
    + by apply String.eqb_eq in E.
    + by apply String.eqb_neq in E.
  - rewrite M. unfold MoodDetectionAgent.mood_indicators.
    cbn [MoodDetectionAgent.detect]. by rewrite lower_idem.
Qed.

(** ** Reviews *)

Section Reviews.
Local Open Scope Q_scope.

Lemma inject_Z_pred (a : Z) : inject_Z (a - 1) == inject_Z a - 1.
Proof.
  unfold Z.sub. rewrite inject_Z_plus.
  change (inject_Z (- (1))%Z) with (Qmake (-1) 1). lra.
Qed.

Lemma round_half_even_above (a : Z) (x : Q) :
  inject_Z a - (1 # 2) < x → (a <= Py.round_half_even x)%Z.
Proof.
  intros H. pose proof (inject_Z_pred a) as P.
  assert (F : (a - 1 <= Qfloor x)%Z).
  { rewrite <- (Qfloor_Z (a - 1)). apply Qfloor_resp_le. lra. }
  destruct (Z.eq_dec (Qfloor x) (a - 1)%Z) as [E|NE].
  - unfold Py.round_half_even. rewrite E.
    destruct (Qcompare _ _) eqn:C.
    + apply Qeq_alt in C. lra.
    + apply Qlt_alt in C. lra.
    + lia.
  - unfold Py.round_half_even.
    destruct (Qcompare _ _); [destruct (Z.even _)|..]; lia.
Qed.

Lemma clamp_bounds (lo hi x : Q) : lo <= hi → lo <= Qmax lo (Qmin hi x) <= hi.
Proof.
  intros H. split; [apply Q.le_max_l|].
  apply Q.max_lub; [done | apply Q.le_min_l].
Qed.

Lemma clamp_inside (lo hi x : Q) : lo <= x <= hi → Qmax lo (Qmin hi x) == x.
Proof.
  intros [L U]. rewrite (Q.min_r hi x U). by apply Q.max_r.
Qed.

Lemma div20 (v : Q) : v / 20 == v * (1 # 20).
Proof. field. Qed.

Lemma variance_nonneg (a j1 j2 : Q) :
  0 <= ReviewAggregationAgent.variance [a; a + j1; a + j2].
Proof.
  rewrite variance_jitter.
  assert (0 <= (j1 - j2 * (1 # 2)) ^ 2 + (3 # 4) * j2 ^ 2) by nra.
  simpl in *. lra.
Qed.

Lemma variance_in_range (a j1 j2 : Q) :
  -5 <= j1 <= 5 → -8 <= j2 <= 8 →
  ReviewAggregationAgent.variance [a; a + j1; a + j2] <= 86 # 3.
Proof.
  intros [] []. rewrite variance_jitter.
  assert (j1 * j1 <= 25) by nra. assert (j2 * j2 <= 64) by nra.
  assert (- (j1 * j2) <= 40) by nra. simpl. lra.
Qed.

End Reviews.

(** X4: the review stage adds the review fields and changes nothing else
    on the item; the two percentages it stores are clamped to [0, 100];
    the consensus is "strong" exactly when the variance is below 50, which
    is when the unrounded trust score is above 7.5; the trust score is
    [10 - v/20] up to a variance of 200 and 0 beyond. *)
Theorem X4_review_fields (d : ReviewDraw) (item : Show) :
  let item' := ReviewAggregationAgent.aggregate d item in
  let v := ReviewAggregationAgent.variance (ReviewAggregationAgent.scores d item) in
  let t := ReviewAggregationAgent.trust (ReviewAggregationAgent.scores d item) in
  (title item', genre item', rating item', platform item')
  = (title item, genre item, rating item, platform item)
  ∧ (trend item', filtering item', personalized_score item', final_score item')
    = (trend item, filtering item, personalized_score item, final_score item)
  ∧ (∃ rf, review item' = Some rf
       ∧ (0 <= rotten_tomatoes (review_data rf) <= 100)%Q
       ∧ (0 <= metacritic (review_data rf) <= 100)%Q
       ∧ (review_consensus rf = "strong" ↔ (v < 50)%Q)
       ∧ (review_consensus rf = "mixed" ↔ (50 <= v)%Q))
  ∧ (0 <= v)%Q
  ∧ ((v < 50)%Q ↔ (7.5 < t)%Q)
  ∧ ((v <= 200)%Q → (t == 10 - v / 20)%Q)
  ∧ ((200 <= v)%Q → (t == 0)%Q).
Proof.
  intros item' v t.
  assert (Hv : (0 <= v)%Q) by apply variance_nonneg.
  pose proof (div20 v) as D.
  assert (Ht1 : (v <= 200)%Q → (t == 10 - v / 20)%Q).
  { intros H. unfold t, ReviewAggregationAgent.trust. fold v.
    set (w := (v / 20)%Q) in *. apply clamp_inside. lra. }
  assert (Ht2 : (200 <= v)%Q → (t == 0)%Q).
  { intros H. unfold t, ReviewAggregationAgent.trust. fold v.
    set (w := (v / 20)%Q) in *.
    rewrite (Q.min_r 10 (10 - w)) by lra. apply Q.max_l. lra. }
  split; [done|]. split; [done|]. split; [|split; [done|split; [|done]]].
  - eexists. split; [done|]. cbn [review_data rotten_tomatoes metacritic
      review_consensus].
    split; [by apply clamp_bounds|]. split; [by apply clamp_bounds|].
    fold v. destruct (Qlt_le_dec v 50) as [L|L].
    + split; [done|]. split; [done|]. lra.
    + split; [split; [done | lra] | done].
  - destruct (Qlt_le_dec v 200) as [L|L].
    + rewrite (Ht1 ltac:(lra)). set (w := (v / 20)%Q) in *. split; lra.
    + rewrite (Ht2 L). split; lra.
Qed.

Lemma stored_trust_in_range (d : ReviewDraw) (item : Show) :
  (-5 <= rt_jitter d <= 5)%Q → (-8 <= mc_jitter d <= 8)%Q →
  ∃ rf, review (ReviewAggregationAgent.aggregate d item) = Some rf
    ∧ review_consensus rf = "strong"
    ∧ (8.6 <= trust_score rf <= 10)%Q.
Proof.
  intros H1 H2.
  set (v := ReviewAggregationAgent.variance
              (ReviewAggregationAgent.scores d item)).
  set (t := ReviewAggregationAgent.trust (ReviewAggregationAgent.scores d item)).
  assert (Hv : (v <= 86 # 3)%Q) by (by apply variance_in_range).
  assert (Hv0 : (0 <= v)%Q) by apply variance_nonneg.
  pose proof (div20 v) as D.
  assert (Ht : (t == 10 - v / 20)%Q).
  { unfold t, ReviewAggregationAgent.trust. fold v.
    set (w := (v / 20)%Q) in *. apply clamp_inside. lra. }
  set (w := (v / 20)%Q) in *.
  eexists. split; [done|]. cbn [review_consensus trust_score]. fold v t.
  split.
  - destruct (Qlt_le_dec v 50); [done | lra].
  - split; [|apply round1_bounds; lra].
    unfold Py.round. change (Py.pow10 1) with (inject_Z 10).
    assert (A : (86 <= Py.round_half_even (t * inject_Z 10))%Z).
    { apply round_half_even_above. change (inject_Z 86) with 86%Q.
      change (inject_Z 10) with 10%Q. lra. }
    rewrite Zle_Qle in A. change (inject_Z 86) with 86%Q in A.
    set (r := inject_Z (Py.round_half_even (t * inject_Z 10))) in *.
    change (inject_Z 10) with 10%Q. apply Qle_shift_div_l; lra.
Qed.

(** X5: with the jitters inside the ranges they are drawn from
    ([uniform(-5, 5)] and [uniform(-8, 8)]) the variance stays below 29:
    the consensus is always "strong", the trust score is at least 8.5 and
    the stored, rounded trust score at least 8.6. *)
Theorem X5_simulated_reviews_always_agree (d : ReviewDraw) (item : Show) :
  (-5 <= rt_jitter d <= 5)%Q → (-8 <= mc_jitter d <= 8)%Q →
  let v := ReviewAggregationAgent.variance (ReviewAggregationAgent.scores d item) in
  let t := ReviewAggregationAgent.trust (ReviewAggregationAgent.scores d item) in
  (v <= 86 # 3)%Q
  ∧ (8.5 <= t <= 10)%Q
  ∧ ∃ rf, review (ReviewAggregationAgent.aggregate d item) = Some rf
      ∧ review_consensus rf = "strong"
      ∧ (8.6 <= trust_score rf <= 10)%Q.
Proof.
  intros H1 H2 v t.
  assert (Hv : (v <= 86 # 3)%Q) by (by apply variance_in_range).
  assert (Hv0 : (0 <= v)%Q) by apply variance_nonneg.
  pose proof (div20 v) as D.
  assert (Ht : (t == 10 - v / 20)%Q).
  { unfold t, ReviewAggregationAgent.trust. fold v.
    set (w := (v / 20)%Q) in *. apply clamp_inside. lra. }
  set (w := (v / 20)%Q) in *.
  split; [done|]. split; [lra|].
  by apply stored_trust_in_range.
Qed.

Lemma X5_witness :
  let d := review_draw Main.sample_random 1 in
  let item := mkShow "A" "drama" 8.0 "netflix" None None None None None in
  (-5 <= rt_jitter d <= 5)%Q ∧ (-8 <= mc_jitter d <= 8)%Q
  ∧ (8.5 <= ReviewAggregationAgent.trust (ReviewAggregationAgent.scores d item)
     <= 10)%Q.
Proof.
  intros d item.
  assert (H1 : (-5 <= rt_jitter d <= 5)%Q) by (by split).
  assert (H2 : (-8 <= mc_jitter d <= 8)%Q) by (by split).
  split; [exact H1|]. split; [exact H2|].
  exact (proj1 (proj2 (X5_simulated_reviews_always_agree d item H1 H2))).
Defined.

(** ** The two enrichment stages *)

Lemma alter_comm (f g : Show → Show) (i j : nat) (σ : Store) :
  (∀ s, f (g s) = g (f s)) →
  alter f i (alter g j σ) = alter g j (alter f i σ).
Proof.
  intros H. apply list_eq. intros k.
  destruct (decide (i = k)) as [->|Hi], (decide (j = k)) as [->|Hj].
  - rewrite !list_lookup_alter_eq. destruct (σ !! k); simpl; by rewrite ?H.
  - rewrite list_lookup_alter_eq, !list_lookup_alter_ne by done.
    by rewrite list_lookup_alter_eq.
  - rewrite list_lookup_alter_ne, !list_lookup_alter_eq by done.
    by rewrite list_lookup_alter_ne.
  - by rewrite !list_lookup_alter_ne.
Qed.

Lemma alter_mutate_each_comm (f : Show → Show) (g : nat → Show → Show)
    (i k : nat) (refs : list Ref) (σ : Store) :
  (∀ k' s, f (g k' s) = g k' (f s)) →
  alter f i (mutate_each g k refs σ) = mutate_each g k refs (alter f i σ).
Proof.
  intros H. revert k σ. induction refs as [|r refs IH]; intros k σ; [done|].
  cbn [mutate_each]. rewrite IH. f_equal. by apply alter_comm.
Qed.

Lemma mutate_each_comm (f g : nat → Show → Show) (k k' : nat)
    (refs refs' : list Ref) (σ : Store) :
  (∀ i j s, f i (g j s) = g j (f i s)) →
  mutate_each f k refs (mutate_each g k' refs' σ)
  = mutate_each g k' refs' (mutate_each f k refs σ).
Proof.
  intros H. revert k σ. induction refs as [|r refs IH]; intros k σ; [done|].
  cbn [mutate_each]. rewrite <- IH. f_equal.
  by apply alter_mutate_each_comm.
Qed.

(** X6: the review and the trend stage write different keys of the show
    dicts, so the two tasks of Phase 3 can run in either order, over any
    two lists of shows sharing objects: the store they leave is the
    same. *)
Theorem X6_review_and_trend_commute (rnd : Random)
    (review_list trend_list : list Ref) (σ : Store) :
  (TrendAnalysisAgent.execute rnd trend_list
     (ReviewAggregationAgent.execute rnd review_list σ).1).1
  = (ReviewAggregationAgent.execute rnd review_list
       (TrendAnalysisAgent.execute rnd trend_list σ).1).1
  ∧ ∀ d d' s,
      TrendAnalysisAgent.analyze d' (ReviewAggregationAgent.aggregate d s)
      = ReviewAggregationAgent.aggregate d (TrendAnalysisAgent.analyze d' s).
Proof.
  split; [|done].
  cbn [TrendAnalysisAgent.execute ReviewAggregationAgent.execute fst].
  by apply mutate_each_comm.
Qed.

(** ** Trends *)

(** X7: a show is flagged as trending exactly when its base popularity
    plus the recency boost exceeds 85, and it gets a trending rank exactly
    when it is flagged; the boost is never negative, so a rating above 8.5
    is enough whatever the release date; a release 300 days ago or more
    gives no boost, and then the flag is a test of the rating alone. *)
Theorem X7_trending_flag (d : TrendDraw) (item : Show) :
  let boost := Qmax 0 (30 - inject_Z (days_since_release d) / 10) in
  let score := (rating item * 10 + boost)%Q in
  ∃ tf, trend (TrendAnalysisAgent.analyze d item) = Some tf
    ∧ (is_trending (trend_data tf) = true ↔ (85 < score)%Q)
    ∧ (is_Some (trending_rank (trend_data tf))
       ↔ is_trending (trend_data tf) = true)
    ∧ trending_score (trend_data tf) = Py.round score 1
    ∧ (0 <= boost)%Q
    ∧ ((8.5 < rating item)%Q → is_trending (trend_data tf) = true)
    ∧ ((300 <= days_since_release d)%Z →
       (boost == 0)%Q
       ∧ (is_trending (trend_data tf) = true ↔ (8.5 < rating item)%Q)).
Proof.
  intros boost score.
  assert (Hb : (0 <= boost)%Q) by apply Q.le_max_l.
  eexists. split; [done|].
  cbn [trend_data is_trending trending_rank trending_score].
  fold boost. fold score.
  assert (T : (if Qlt_le_dec 85 score then true else false) = true
              ↔ (85 < score)%Q).
  { destruct (Qlt_le_dec 85 score); [done|]. split; [done|]. lra. }
  split; [exact T|]. split.
  { destruct (Qlt_le_dec 85 score); [by split; [|eexists]|].
    split; [by intros [? ?] | done]. }
  split; [done|]. split; [done|]. split.
  - intros H. apply T. unfold score. lra.
  - intros H.
    assert (B : (boost == 0)%Q).
    { unfold boost. apply Q.max_l.
      rewrite Zle_Qle in H. change (inject_Z 300) with 300%Q in H.
      set (x := inject_Z (days_since_release d)) in *.
      assert (x / 10 == x * (1 # 10))%Q by field.
      set (y := (x / 10)%Q) in *. lra. }
    split; [exact B|]. rewrite T. unfold score. rewrite B. split; lra.
Qed.

(** ** Phases 3 and 4 on the store *)

Lemma imap_imap {A B C} (f : nat → B → C) (g : nat → A → B) (l : list A) :
  imap f (imap g l) = imap (λ i x, f i (g i x)) l.
Proof.
  apply list_eq. intros i. rewrite !list_lookup_imap.
  by destruct (l !! i).
Qed.

Lemma reviewed_store (rnd : Random) (σ0 : Store) :
  (ReviewAggregationAgent.execute rnd (seq 0 (length σ0)) σ0).1
  = imap (λ i, ReviewAggregationAgent.aggregate (review_draw rnd i)) σ0.
Proof. cbn [ReviewAggregationAgent.execute fst]. apply mutate_each_seq. Qed.

Lemma enriched_store (rnd : Random) (σ0 : Store) :
  enriched rnd σ0
  = imap (λ i s, TrendAnalysisAgent.analyze (trend_draw rnd i)
                   (ReviewAggregationAgent.aggregate (review_draw rnd i) s))
         σ0.
Proof.
  unfold enriched. cbv zeta. rewrite reviewed_store.
  cbn [TrendAnalysisAgent.execute fst].
  set (σ1 := imap _ σ0).
  replace (length σ0) with (length σ1) by apply length_imap.
  rewrite mutate_each_seq. apply imap_imap.
Qed.

Lemma filtered_store (rnd : Random) (filters : Filters) (σ0 : Store) :
  (filtered rnd filters σ0).1
  = imap (λ i s,
            set_filtering
              (ContentFilterAgent.check filters (filter_draw rnd i) s)
              (TrendAnalysisAgent.analyze (trend_draw rnd i)
                 (ReviewAggregationAgent.aggregate (review_draw rnd i) s)))
         σ0.
Proof.
  unfold filtered. rewrite filter_execute_unfold. cbn [fst].
  apply list_eq. intros i. rewrite list_lookup_imap.
  destruct (decide (i < length σ0)) as [Hlt|Hge].
  - rewrite (partition_loop_lookup filters rnd 0 _ (enriched rnd σ0) i i);
      [|apply NoDup_seq | by apply lookup_seq_lt].
    rewrite enriched_store, list_lookup_imap.
    destruct (σ0 !! i) as [s|]; [|done]. done.
  - rewrite partition_loop_frame by (rewrite elem_of_seq; lia).
    rewrite enriched_store, list_lookup_imap.
    by rewrite (lookup_ge_None_2 σ0 i) by lia.
Qed.

(** X8: Phases 3 and 4 enrich every candidate exactly once, each with the
    draws of its own position, and keep the candidates and their order:
    the store after the filter is the store of candidates with the review
    fields, the trend fields and the verdict added to every show. *)
Theorem X8_each_candidate_enriched_once (rnd : Random) (filters : Filters)
    (σ0 : Store) :
  let all_shows := seq 0 (length σ0) in
  let σ1 := (ReviewAggregationAgent.execute rnd all_shows σ0).1 in
  let σ2 := (TrendAnalysisAgent.execute rnd all_shows σ1).1 in
  let σ3 := (ContentFilterAgent.execute rnd all_shows filters σ2).1 in
  σ1 = imap (λ i, ReviewAggregationAgent.aggregate (review_draw rnd i)) σ0
  ∧ σ2 = imap (λ i s, TrendAnalysisAgent.analyze (trend_draw rnd i)
                        (ReviewAggregationAgent.aggregate (review_draw rnd i) s))
              σ0
  ∧ σ3 = imap (λ i s,
                 set_filtering
                   (ContentFilterAgent.check filters (filter_draw rnd i) s)
                   (TrendAnalysisAgent.analyze (trend_draw rnd i)
                      (ReviewAggregationAgent.aggregate (review_draw rnd i) s)))
              σ0
  ∧ length σ3 = length σ0
  ∧ title <$> σ3 = title <$> σ0.
Proof.
  intros all_shows σ1 σ2 σ3.
  assert (E3 : σ3 = (filtered rnd filters σ0).1) by done.
  rewrite filtered_store in E3.
  split; [apply reviewed_store|]. split; [apply (enriched_store rnd σ0)|].
  split; [exact E3|].
  split; [by rewrite E3, length_imap|].
  rewrite E3. apply list_eq. intros i.
  rewrite !list_lookup_fmap, list_lookup_imap. by destruct (σ0 !! i).
Qed.

(** ** The checks of the filter *)

Lemma max_rating_level_label (c : ContentRating) :
  ContentFilterAgent.max_rating_level (label c)
  = ContentFilterAgent.rating_level c.
Proof. by destruct c. Qed.

(** X9: with one of the six labels as ceiling an item passes the rating
    check exactly when its own label is not further up the hierarchy
    G, PG, PG-13, TV-14, R, TV-MA; an item above the ceiling is rejected
    whatever its other checks say. *)
Theorem X9_known_ceiling (filters : Filters) (ceiling : ContentRating)
    (d : FilterDraw) (item : Show) :
  max_content_rating filters = Some (label ceiling) →
  let st := filter_status (ContentFilterAgent.check filters d item) in
  (passes_rating st = true
   ↔ ContentFilterAgent.rating_level (d_content_rating d)
     ≤ ContentFilterAgent.rating_level ceiling)
  ∧ (ContentFilterAgent.rating_level ceiling
     < ContentFilterAgent.rating_level (d_content_rating d) →
     approved st = false)
  ∧ Py.index (label ceiling) rating_hierarchy
    = Some (ContentFilterAgent.rating_level ceiling)
  ∧ (ceiling = TVMA → passes_rating st = true)
  ∧ (ceiling = G → (passes_rating st = true ↔ d_content_rating d = G)).
Proof.
  intros Hc st.
  assert (P : passes_rating st
              = (ContentFilterAgent.rating_level (d_content_rating d)
                 <=? ContentFilterAgent.rating_level ceiling)).
  { subst st. cbn. rewrite Hc. cbn [from_option]. unfold id.
    by rewrite max_rating_level_label. }
  split; [by rewrite P, Nat.leb_le|]. split; [|split; [|split]].
  - intros H. unfold st. rewrite check_approved. cbv zeta.
    fold st. rewrite P. apply Nat.leb_gt in H. by rewrite H.
  - apply rating_level_index.
  - intros ->. rewrite P. apply Nat.leb_le.
    pose proof (rating_level_lt (d_content_rating d)). simpl in *. lia.
  - intros ->. rewrite P, Nat.leb_le.
    destruct (d_content_rating d); simpl; split; (done || lia).
Qed.

Lemma X9_witness :
  max_content_rating (mkFilters (Some "PG-13") None None None)
  = Some (label PG13)
  ∧ approved
      (filter_status
         (ContentFilterAgent.check (mkFilters (Some "PG-13") None None None)
            (mkFilterDraw R ["none"])
            (mkShow "A" "drama" 9.0 "netflix" None None None None None)))
    = false.
Proof.
  split; [reflexivity|].
  refine (proj1 (proj2 (X9_known_ceiling
            (mkFilters (Some "PG-13") None None None) PG13
            (mkFilterDraw R ["none"])
            (mkShow "A" "drama" 9.0 "netflix" None None None None None)
            eq_refl)) _).
  simpl. lia.
Defined.

(** X10: a key missing from the filters switches its check off, except
    for the quality: without [max_content_rating] every rating passes,
    without [exclude_genres] every genre, without [content_warnings_ok]
    every warning list, and without [min_quality_score] the bar is 7.0;
    so with no filters at all an item is approved exactly when its rating
    is at least 7.0. *)
Theorem X10_missing_filter_keys (filters : Filters) (d : FilterDraw)
    (item : Show) :
  let st := filter_status (ContentFilterAgent.check filters d item) in
  (max_content_rating filters = None → passes_rating st = true)
  ∧ (exclude_genres filters = None → passes_genre st = true)
  ∧ (content_warnings_ok filters = None → passes_warnings st = true)
  ∧ (min_quality_score filters = None →
     (passes_quality st = true ↔ (7.0 <= rating item)%Q))
  ∧ (filters = mkFilters None None None None →
     (approved st = true ↔ (7.0 <= rating item)%Q)).
Proof.
  intros st.
  assert (R : max_content_rating filters = None → passes_rating st = true).
  { intros H. subst st. cbn. rewrite H. cbn [from_option].
    apply Nat.leb_le. pose proof (rating_level_lt (d_content_rating d)).
    change (ContentFilterAgent.max_rating_level "TV-MA") with 5.
    simpl in *. lia. }
  assert (Gn : exclude_genres filters = None → passes_genre st = true).
  { intros H. subst st. cbn. rewrite H. cbn [from_option].
    unfold Py.contains. rewrite bool_decide_eq_false_2; [done|].
    intros X. inversion X. }
  assert (W : content_warnings_ok filters = None → passes_warnings st = true).
  { intros H. subst st. cbn. by rewrite H. }
  assert (Ql : min_quality_score filters = None →
               (passes_quality st = true ↔ (7.0 <= rating item)%Q)).
  { intros H. subst st. cbn. rewrite H. cbn [from_option].
    apply Qle_bool_iff. }
  split; [exact R|]. split; [exact Gn|]. split; [exact W|].
  split; [exact Ql|].
  intros ->. unfold st. rewrite check_approved. cbv zeta. fold st.
  rewrite (R eq_refl), (Gn eq_refl), (W eq_refl). cbn [andb].
  rewrite andb_true_r. by apply Ql.
Qed.

(** ** Distributions *)

Lemma count_by_foldl (f : Show → string) (shows : list Show)
    (d : gmap string nat) (g : string) :
  foldl (λ d s, <[f s := default 0 (d !! f s) + 1]> d) d shows !! g
  = let n := length (filter (λ s, f s = g) shows) in
    if decide (n = 0) then d !! g else Some (default 0 (d !! g) + n).
Proof.
  revert d. induction shows as [|s shows IH]; intros d; [done|].
  cbn [foldl]. rewrite IH. cbv zeta. rewrite filter_cons.
  destruct (decide (f s = g)) as [<-|Hne].
  - rewrite lookup_insert_eq. cbn [length from_option]. unfold id.
    repeat case_decide; try lia; f_equal; lia.
  - rewrite lookup_insert_ne by done. done.
Qed.

Lemma count_by_lookup (f : Show → string) (shows : list Show) (g : string) :
  AnalysisAgent.count_by f shows !! g
  = let n := length (filter (λ s, f s = g) shows) in
    if decide (n = 0) then None else Some n.
Proof.
  unfold AnalysisAgent.count_by. rewrite count_by_foldl. cbv zeta.
  by rewrite lookup_empty.
Qed.

(** X11: the genre distribution maps every genre to the number of
    analysed shows of that genre, the platform distribution likewise; a
    genre or platform without a show has no entry, so no count is 0; and
    [total_analyzed] is the length of the ranking. *)
Theorem X11_distributions_count_shows
    (research_data : option (list (string * list Ref)))
    (prefs : option Preferences) (mood : option MoodProfile)
    (σ σ' : Store) (a : AgentResult AnalysisAgent.Analysis) :
  AnalysisAgent.execute research_data prefs mood σ = (σ', inr a) →
  let shows := deref σ' (concat (snd <$> default [] research_data)) in
  (∀ g, AnalysisAgent.genre_distribution (data a) !! g
        = let n := length (filter (λ s, genre s = g) shows) in
          if decide (n = 0) then None else Some n)
  ∧ (∀ p, AnalysisAgent.platform_distribution (data a) !! p
          = let n := length (filter (λ s, platform s = p) shows) in
            if decide (n = 0) then None else Some n)
  ∧ (∀ g, AnalysisAgent.genre_distribution (data a) !! g ≠ Some 0)
  ∧ AnalysisAgent.total_analyzed (data a)
    = length (AnalysisAgent.ranked_content (data a))
  ∧ 0 < AnalysisAgent.total_analyzed (data a).
Proof.
  intros H shows. rewrite analysis_execute_unfold in H. cbv zeta in H.
  assert (Hσ : σ' = analysis_store research_data prefs mood σ)
    by (by injection H).
  unfold analysis_shows in H. rewrite <- Hσ in H. fold shows in H.
  destruct (concat (snd <$> default [] research_data)) as [|r0 l] eqn:E;
    [done|].
  injection H as <-.
  cbn [data success AnalysisAgent.genre_distribution
       AnalysisAgent.platform_distribution AnalysisAgent.total_analyzed
       AnalysisAgent.ranked_content].
  split; [intros; apply count_by_lookup|].
  split; [intros; apply count_by_lookup|]. split; [|split].
  - intros g. rewrite count_by_lookup. cbv zeta. case_decide; congruence.
  - change (S (length l)) with (length (r0 :: l)).
    symmetry. apply Permutation_length.
    apply (sorted_rev_perm _ (r0 :: l)).
  - simpl. lia.
Qed.

Lemma X11_witness :
  ∃ σ' a,
    AnalysisAgent.execute (Some Scenario.small_data) None None
                          Scenario.small_store = (σ', inr a)
    ∧ AnalysisAgent.total_analyzed (data a)
      = length (AnalysisAgent.ranked_content (data a))
    ∧ AnalysisAgent.genre_distribution (data a) !! "horror" ≠ Some 0.
Proof.
  destruct (AnalysisAgent.execute (Some Scenario.small_data) None None
              Scenario.small_store) as [σ' [e|a]] eqn:E.
  - vm_compute in E. discriminate E.
  - exists σ', a. split; [reflexivity|].
    destruct (X11_distributions_count_shows _ _ _ _ _ _ E)
      as (_ & _ & Hz & Hn & _).
    split; [exact Hn | exact (Hz "horror")].
Defined.

(** ** Weights, boosts and the order of the ranking *)

Lemma boost_table_lookup (g1 g2 genre : string) (b1 b2 : Q) :
  g1 ≠ g2 →
  default 1.0%Q ((<[g1 := b1]> (<[g2 := b2]> ∅) : gmap string Q) !! genre)
  = if decide (genre = g1) then b1 else if decide (genre = g2) then b2
    else 1.0%Q.
Proof.
  intros Hne. repeat case_decide; subst.
  - by rewrite lookup_insert_eq.
  - rewrite lookup_insert_ne by done. by rewrite lookup_insert_eq.
  - by rewrite !lookup_insert_ne, lookup_empty.
Qed.

Lemma mood_genre_boost_range (mood genre : string) :
  (1 <= AnalysisAgent.mood_genre_boost mood genre <= 1.2)%Q.
Proof.
  destruct (decide (mood = "energetic")) as [->|H1];
    [|destruct (decide (mood = "relaxed")) as [->|H2];
      [|destruct (decide (mood = "thoughtful")) as [->|H3]]].
  - rewrite mood_genre_boost_energetic. by repeat case_decide.
  - unfold AnalysisAgent.mood_genre_boost, AnalysisAgent.mood_boosts. simpl.
    rewrite lookup_insert_ne, lookup_insert_eq by done. simpl.
    rewrite boost_table_lookup by done. by repeat case_decide.
  - unfold AnalysisAgent.mood_genre_boost, AnalysisAgent.mood_boosts. simpl.
    rewrite !lookup_insert_ne, lookup_insert_eq by done. simpl.
    rewrite boost_table_lookup by done. by repeat case_decide.
  - by rewrite mood_genre_boost_other.
Qed.

Lemma sorted_before {A} (key : A → Q) (l : list A) (a b : A) :
  StronglySorted (λ x y, (key y <= key x)%Q) l →
  a ∈ l → b ∈ l → (key b < key a)%Q → before a b l.
Proof.
  intros Hs Ha Hb Hlt.
  apply list_elem_of_split in Hb as (l1 & l2 & ->).
  apply elem_of_app in Ha as [Ha|Ha].
  - apply list_elem_of_split in Ha as (m1 & m2 & ->).
    exists m1, m2, l2. by rewrite <- app_assoc.
  - exfalso.
    assert (key a <= key b)%Q; [|lra].
    apply elem_of_cons in Ha as [->|Ha]; [lra|].
    induction l1 as [|x l1 IH]; simpl in Hs.
    + inversion Hs as [|?? _ HF]; subst.
      rewrite Forall_forall in HF. by apply HF.
    + inversion Hs; subst. by apply IH.
Qed.

(** X12: every mood boost lies between 1.0 and 1.2; so of two shows of
    the same positive rating the one whose genre weight is more than 1.2
    times the other's is ranked first whatever the mood: a favourite genre
    (1.5) before a genre without weight (1.0), and that one before a
    disliked genre (0.3). *)
Theorem X12_weight_decides_between_equal_ratings
    (research_data : list (string * list Ref)) (prefs : Preferences)
    (mood : MoodProfile) (σ σ' : Store)
    (a : AgentResult AnalysisAgent.Analysis) (ra rb : Ref) (sa sb : Show) :
  AnalysisAgent.execute (Some research_data) (Some prefs) (Some mood) σ
  = (σ', inr a) →
  ra ∈ concat (snd <$> research_data) → rb ∈ concat (snd <$> research_data) →
  σ !! ra = Some sa → σ !! rb = Some sb →
  (rating sa == rating sb)%Q → (0 < rating sa)%Q →
  let wa := default 1.0%Q (genre_weights prefs !! genre sa) in
  let wb := default 1.0%Q (genre_weights prefs !! genre sb) in
  (0 <= wb)%Q → (1.2 * wb < wa)%Q →
  before ra rb (AnalysisAgent.ranked_content (data a))
  ∧ (∀ m g, (1 <= AnalysisAgent.mood_genre_boost m g <= 1.2)%Q)
  ∧ (1.2 * 1.0 < 1.5)%Q ∧ (1.2 * 0.3 < 1.0)%Q.
Proof.
  intros H Ha Hb Ea Eb Hr Hpos wa wb Hwb Hw.
  split; [|split; [apply mood_genre_boost_range | done]].
  destruct (analysis_scores research_data prefs mood σ ra sa Ha Ea)
    as (sa' & Ea' & _ & _ & _ & _ & _ & Fa).
  destruct (analysis_scores research_data prefs mood σ rb sb Hb Eb)
    as (sb' & Eb' & _ & _ & _ & _ & _ & Fb).
  rewrite analysis_execute_unfold in H. cbv zeta in H.
  assert (Hσ : σ' = analysis_store (Some research_data) (Some prefs)
                      (Some mood) σ) by (by injection H).
  rewrite <- Hσ in H, Ea', Eb'.
  unfold analysis_shows in H. cbn [from_option] in H. unfold id in H.
  destruct (concat (snd <$> research_data)) as [|r0 l] eqn:E;
    [inversion Ha|].
  rewrite <- E in *. injection H as <-.
  cbn [data success AnalysisAgent.ranked_content AnalysisAgent.score_key].
  apply (sorted_before (AnalysisAgent.key_of AnalysisAgent.FinalScore σ')).
  - apply sorted_rev_sorted.
  - by rewrite sorted_rev_perm.
  - by rewrite sorted_rev_perm.
  - unfold AnalysisAgent.key_of. rewrite Ea', Eb'.
    cbn [from_option AnalysisAgent.ranking_key]. rewrite Fa, Fb.
    cbn [from_option]. unfold id. fold wa wb.
    pose proof (mood_genre_boost_range (detected_mood mood) (genre sa))
      as [A1 A2].
    pose proof (mood_genre_boost_range (detected_mood mood) (genre sb))
      as [B1 B2].
    set (ba := AnalysisAgent.mood_genre_boost _ (genre sa)) in *.
    set (bb := AnalysisAgent.mood_genre_boost _ (genre sb)) in *.
    set (x := rating sa) in *. set (y := rating sb) in *.
    assert (0 < y)%Q by lra.
    assert (0 <= y * wb)%Q by nra.
    assert (0 < x * wa)%Q by nra.
    assert (y * wb * bb <= y * wb * 1.2)%Q by nra.
    assert (x * (1.2 * wb) < x * wa)%Q by nra.
    assert (x * wa * 1 <= x * wa * ba)%Q by nra.
    assert (y * wb * 1.2 == x * (1.2 * wb))%Q by (rewrite Hr; ring).
    change (y * wb * bb < x * wa * ba)%Q. lra.
Qed.

Lemma X12_witness :
  let prefs := data (PersonalizationAgent.execute Main.user_profile) in
  let mood := data (MoodDetectionAgent.execute Main.context) in
  ∃ σ' a,
    AnalysisAgent.execute (Some Scenario.small_data) (Some prefs) (Some mood)
                          Scenario.small_store = (σ', inr a)
    ∧ before 0 2 (AnalysisAgent.ranked_content (data a)).
Proof.
  intros prefs mood.
  destruct (AnalysisAgent.execute (Some Scenario.small_data) (Some prefs)
              (Some mood) Scenario.small_store) as [σ' [e|a]] eqn:E.
  - vm_compute in E. discriminate E.
  - exists σ', a. split; [reflexivity|].
    refine (proj1 (X12_weight_decides_between_equal_ratings
              Scenario.small_data prefs mood Scenario.small_store σ' a 0 2
              _ _ E _ _ eq_refl eq_refl _ _ _ _)).
    + simpl. left.
    + simpl. right. right. left.
    + reflexivity.
    + reflexivity.
    + vm_compute. discriminate.
    + reflexivity.
Defined.

(** ** Recommendations *)

Lemma alter_titles (f : Show → Show) (i : nat) (σ : Store) :
  (∀ s, σ !! i = Some s → title (f s) = title s) →
  title <$> alter f i σ = title <$> σ.
Proof.
  intros H. apply list_eq. intros j. rewrite !list_lookup_fmap.
  destruct (decide (j = i)) as [->|N].
  - rewrite list_lookup_alter_eq. destruct (σ !! i) as [s|] eqn:E; [|done].
    simpl. f_equal. by apply H.
  - by rewrite list_lookup_alter_ne.
Qed.

Lemma merge_step (others : list Ref) (item : Ref) (σ : Store) :
  let σ' :=
    match σ !! item with
    | None => σ
    | Some s =>
        match RecommendationAgent.first_titled σ (title s) others with
        | None => σ
        | Some m => from_option (λ o, alter (update o) item σ) σ (σ !! m)
        end
    end in
  length σ' = length σ ∧ title <$> σ' = title <$> σ
  ∧ ∀ r, r ≠ item → σ' !! r = σ !! r.
Proof.
  cbv zeta. destruct (σ !! item) as [s|] eqn:Es; [|done].
  destruct (RecommendationAgent.first_titled σ (title s) others) as [m|] eqn:Em;
    [|done].
  apply first_titled_Some in Em as (o & Eo & Ht).
  rewrite Eo. cbn [from_option]. split; [by rewrite length_alter|]. split.
  - apply alter_titles. intros s' Es'. rewrite Es in Es'.
    injection Es' as <-. exact Ht.
  - intros r N. by rewrite list_lookup_alter_ne.
Qed.

Lemma merge_frame (others ranked : list Ref) (σ : Store) :
  length (RecommendationAgent.merge others ranked σ) = length σ
  ∧ title <$> RecommendationAgent.merge others ranked σ = title <$> σ
  ∧ ∀ r, r ∉ ranked → RecommendationAgent.merge others ranked σ !! r = σ !! r.
Proof.
  revert σ. induction ranked as [|item rest IH]; intros σ; [done|].
  cbn [RecommendationAgent.merge]. cbv zeta.
  destruct (merge_step others item σ) as (L & T & F). cbv zeta in L, T, F.
  match goal with
  | |- context [RecommendationAgent.merge others rest ?x] =>
      destruct (IH x) as (L' & T' & F')
  end.
  split; [congruence|]. split; [congruence|].
  intros r N. apply not_elem_of_cons in N as [N1 N2].
  rewrite F' by done. by apply F.
Qed.

Lemma merge_if_frame (others : option (list Ref)) (ranked : list Ref)
    (σ : Store) :
  length (RecommendationAgent.merge_if others ranked σ) = length σ
  ∧ title <$> RecommendationAgent.merge_if others ranked σ = title <$> σ
  ∧ ∀ r, r ∉ ranked →
      RecommendationAgent.merge_if others ranked σ !! r = σ !! r.
Proof.
  destruct others as [[|r l]|]; [done| |done]. apply merge_frame.
Qed.

Lemma deref_length (σ : Store) (refs : list Ref) :
  length (deref σ refs) <= length refs
  ∧ ((∀ r, r ∈ refs → r < length σ) → length (deref σ refs) = length refs).
Proof.
  induction refs as [|r refs [IH1 IH2]]; [done|].
  unfold deref in *. cbn [omap list_omap length]. split.
  - destruct (σ !! r); cbn [length]; lia.
  - intros H. destruct (lookup_lt_is_Some_2 σ r) as [s ->];
      [apply H; left|].
    cbn [length]. f_equal. apply IH2. intros r' Hr'. apply H. by right.
Qed.

Lemma deref_titles (σ σ' : Store) (refs : list Ref) :
  title <$> σ' = title <$> σ →
  title <$> deref σ' refs = title <$> deref σ refs.
Proof.
  intros H. induction refs as [|r refs IH]; [done|].
  unfold deref in *. cbn [omap list_omap].
  assert (E : title <$> (σ' !! r) = title <$> (σ !! r))
    by (by rewrite <- !list_lookup_fmap, H).
  destruct (σ' !! r), (σ !! r); try done.
  cbn [fmap list_fmap option_fmap option_map] in *. injection E as E.
  by f_equal.
Qed.

Lemma recommend_ranks (k : nat) (l : list Show) :
  RecommendationAgent.rank
    <$> imap (λ i show, RecommendationAgent.recommend (k + i) show) l
  = seq k (length l).
Proof.
  revert k. induction l as [|s l IH]; intros k; [done|].
  cbn [imap fmap list_fmap length seq]. rewrite Nat.add_0_r. f_equal.
  rewrite <- IH. f_equal. apply imap_ext. intros i x _. simpl.
  f_equal. lia.
Qed.

Lemma recommend_titles (k : nat) (l : list Show) :
  RecommendationAgent.r_title
    <$> imap (λ i show, RecommendationAgent.recommend (k + i) show) l
  = title <$> l.
Proof.
  revert k. induction l as [|s l IH]; intros k; [done|].
  cbn [imap fmap list_fmap]. f_equal.
  rewrite <- (IH (S k)). f_equal. apply imap_ext. intros i x _. simpl.
  f_equal. lia.
Qed.

(** X13: the recommendation stage returns the first five ranked shows, in
    the order of the ranking and numbered from 1: at most five entries,
    exactly min(5, number ranked) of them, with the titles of the ranked
    shows; the merge with the review and trend lists changes neither the
    number of show objects nor any title. *)
Theorem X13_top_five_in_rank_order
    (analysis : AgentResult AnalysisAgent.Analysis)
    (review_data trend_data : option (list Ref)) (σ : Store) :
  let ranked := AnalysisAgent.ranked_content (data analysis) in
  let out := RecommendationAgent.execute analysis review_data trend_data σ in
  let recs := RecommendationAgent.recommendations (data out.2) in
  length recs <= 5
  ∧ length recs <= length ranked
  ∧ ((∀ r, r ∈ ranked → r < length σ) → length recs = 5 `min` length ranked)
  ∧ RecommendationAgent.rank <$> recs = seq 1 (length recs)
  ∧ RecommendationAgent.r_title <$> recs = title <$> deref σ (take 5 ranked)
  ∧ length out.1 = length σ
  ∧ title <$> out.1 = title <$> σ.
Proof.
  intros ranked out recs.
  set (σ1 := RecommendationAgent.merge_if review_data ranked σ).
  set (σ2 := RecommendationAgent.merge_if trend_data ranked σ1).
  destruct (merge_if_frame review_data ranked σ) as (L1 & T1 & _).
  destruct (merge_if_frame trend_data ranked σ1) as (L2 & T2 & _).
  fold σ1 in L1, T1. fold σ2 in L2, T2.
  assert (Er : recs = imap (λ i show, RecommendationAgent.recommend (1 + i) show)
                           (deref σ2 (take 5 ranked))) by done.
  assert (Eo : out.1 = σ2) by done.
  destruct (deref_length σ2 (take 5 ranked)) as [D1 D2].
  rewrite length_take in D1, D2.
  assert (Lr : length recs = length (deref σ2 (take 5 ranked)))
    by (by rewrite Er, length_imap).
  split; [lia|]. split; [lia|]. split; [|split; [|split; [|split]]].
  - intros H. rewrite Lr. apply D2. intros r Hr.
    rewrite L2, L1. apply H.
    apply (subseteq_take 5 ranked). exact Hr.
  - rewrite Lr, Er. apply recommend_ranks.
  - rewrite Er, recommend_titles. apply deref_titles. congruence.
  - rewrite Eo. congruence.
  - rewrite Eo. congruence.
Qed.

Lemma gtb_spec (a b : Q) :
  (RecommendationAgent.gtb a b = true ↔ (b < a)%Q)
  ∧ (RecommendationAgent.gtb a b = false ↔ (a <= b)%Q).
Proof.
  unfold RecommendationAgent.gtb.
  destruct (Qle_bool a b) eqn:E; cbn [negb].
  - apply Qle_bool_iff in E. split; split; try done; intros; lra.
  - assert (¬ (a <= b)%Q) by (rewrite <- Qle_bool_iff; congruence).
    split; split; try done; intros; lra.
Qed.

(** X14: the confidence label is decided by the score (the final score,
    or the rating when there is none) and the trust score (7.0 when the
    show was not reviewed): Low exactly for scores up to 8.0, Very High
    exactly above 9.0 with trust above 8.0, and a show without review data
    is never rated above Medium. *)
Theorem X14_confidence_bands (show : Show) :
  let score := default (rating show) (final_score show) in
  let trust := default 7.0%Q (trust_score <$> review show) in
  let c := RecommendationAgent.calculate_confidence show in
  (c = RecommendationAgent.VeryHigh ↔ (9.0 < score)%Q ∧ (8.0 < trust)%Q)
  ∧ (c = RecommendationAgent.High ↔
       (8.5 < score)%Q ∧ (7.0 < trust)%Q
       ∧ ¬ ((9.0 < score)%Q ∧ (8.0 < trust)%Q))
  ∧ (c = RecommendationAgent.Medium ↔
       (8.0 < score)%Q ∧ ((score <= 8.5)%Q ∨ (trust <= 7.0)%Q))
  ∧ (c = RecommendationAgent.Low ↔ (score <= 8.0)%Q)
  ∧ (review show = None →
       c = RecommendationAgent.Medium ∨ c = RecommendationAgent.Low).
Proof.
  intros score trust c.
  assert (Hn : review show = None → (trust == 7.0)%Q).
  { intros E. unfold trust. by rewrite E. }
  unfold c, RecommendationAgent.calculate_confidence. fold score trust.
  destruct (gtb_spec score 9.0) as [A1 A2].
  destruct (gtb_spec trust 8.0) as [B1 B2].
  destruct (gtb_spec score 8.5) as [C1 C2].
  destruct (gtb_spec trust 7.0) as [D1 D2].
  destruct (gtb_spec score 8.0) as [E1 E2].
  destruct (RecommendationAgent.gtb score 9.0);
    destruct (RecommendationAgent.gtb trust 8.0);
    destruct (RecommendationAgent.gtb score 8.5);
    destruct (RecommendationAgent.gtb trust 7.0);
    destruct (RecommendationAgent.gtb score 8.0);
    cbn [andb];
    repeat match goal with
    | H : true = true ↔ _ |- _ => apply proj1 in H; specialize (H eq_refl)
    | H : false = false ↔ _ |- _ => apply proj1 in H; specialize (H eq_refl)
    | H : true = false ↔ _ |- _ => clear H
    | H : false = true ↔ _ |- _ => clear H
    end;
    (split_and!;
     [ split; [try discriminate; try (intros _; split; lra)
              | try done; intros; exfalso; lra ]
     | split; [try discriminate;
               try (intros _; split_and!; [lra | lra | intros []; lra])
              | try done; intros (? & ? & N); exfalso;
                first [lra | apply N; split; lra] ]
     | split; [try discriminate;
               try (intros _; split; [lra | first [left; lra | right; lra]])
              | try done; intros (? & [?|?]); exfalso; lra ]
     | split; [try discriminate; try (intros _; lra)
              | try done; intros; exfalso; lra ]
     | intros E; specialize (Hn E);
       first [by left | by right | exfalso; lra] ]).
Qed.

(** X15: the reasons start with the rating and end with the platform,
    between two and five of them; the consensus, trending and friends
    reasons appear exactly when the show carries review data, is flagged
    as trending, or has more than five friends watching.  The tags start
    with the genre; the trending, critics' choice and highly rated tags
    appear exactly for a trending show, a trust score above 8.5 and a
    rating above 8.8. *)
Theorem X15_reasons_and_tags (show : Show) :
  let rs := RecommendationAgent.generate_reasons show in
  let ts := RecommendationAgent.generate_tags show in
  head rs = Some (RecommendationAgent.HighlyRatedAt (rating show))
  ∧ last rs = Some (RecommendationAgent.AvailableOn (platform show))
  ∧ 2 <= length rs <= 5
  ∧ (∀ c, RecommendationAgent.CriticalConsensus c ∈ rs
          ↔ review_consensus <$> review show = Some c)
  ∧ (RecommendationAgent.CurrentlyTrending ∈ rs
     ↔ is_trending <$> (trend_data <$> trend show) = Some true)
  ∧ (∀ n, RecommendationAgent.FriendsWatching n ∈ rs
          ↔ friends_watching <$> (social_proof <$> trend show) = Some n
            ∧ (5 < n)%Z)
  ∧ head ts = Some (RecommendationAgent.GenreTag (genre show))
  ∧ 1 <= length ts <= 4
  ∧ (RecommendationAgent.TrendingTag ∈ ts
     ↔ is_trending <$> (trend_data <$> trend show) = Some true)
  ∧ (RecommendationAgent.CriticsChoice ∈ ts
     ↔ ∃ rf, review show = Some rf ∧ (8.5 < trust_score rf)%Q)
  ∧ (RecommendationAgent.HighlyRated ∈ ts ↔ (8.8 < rating show)%Q).
Proof.
  intros rs ts. subst rs ts.
  unfold RecommendationAgent.generate_reasons,
    RecommendationAgent.generate_tags, RecommendationAgent.trending.
  destruct (review show) as [rf|], (trend show) as [tf|];
    cbn [from_option fmap option_fmap option_map default id].
  all: try change (RecommendationAgent.gtb 0 8.5) with false.
  all: repeat match goal with
    | |- context [RecommendationAgent.gtb ?a ?b] =>
        let G := fresh "G" in
        pose proof (gtb_spec a b) as G;
        destruct (RecommendationAgent.gtb a b);
        [apply proj1, proj1 in G; specialize (G eq_refl)
        |apply proj2, proj1 in G; specialize (G eq_refl)]
    end.
  all: try (destruct (is_trending (trend_data tf)));
    try (destruct (Z.ltb_spec 5 (friends_watching (social_proof tf)))).
  all: cbn [app head last length].
  all: split_and!; try done; try lia.
  all: intros; rewrite ?elem_of_cons, ?elem_of_nil.
  all: try (naive_solver (first [lia | lra | eauto])).
Qed.

(** ** The outcome of a run *)

Lemma recommendations_length
    (analysis : AgentResult AnalysisAgent.Analysis)
    (review_data trend_data : option (list Ref)) (σ : Store) :
  (∀ r, r ∈ AnalysisAgent.ranked_content (data analysis) → r < length σ) →
  length (RecommendationAgent.recommendations
            (data (RecommendationAgent.execute analysis review_data
                     trend_data σ).2))
  = 5 `min` length (AnalysisAgent.ranked_content (data analysis)).
Proof.
  intros H. unfold RecommendationAgent.execute. cbv zeta.
  cbn [snd data success RecommendationAgent.recommendations].
  set (ranked := AnalysisAgent.ranked_content (data analysis)) in *.
  set (σ1 := RecommendationAgent.merge_if review_data ranked σ).
  set (σ2 := RecommendationAgent.merge_if trend_data ranked σ1).
  destruct (merge_if_frame review_data ranked σ) as (L1 & _).
  destruct (merge_if_frame trend_data ranked σ1) as (L2 & _).
  fold σ1 in L1. fold σ2 in L2.
  rewrite length_imap, <- (length_take ranked 5).
  apply deref_length. intros r Hr. rewrite L2, L1. apply H.
  apply (subseteq_take 5 ranked). exact Hr.
Qed.

Lemma analysed_cases
    (research : string → AgentResult (list (string * list Seed)))
    (rnd : Random) (user_query : string) (user_profile : UserProfile)
    (context : Context) (filters : Filters) :
  let σ0 := candidates research user_query in
  let an := analysed rnd user_profile context filters σ0 in
  let shows :=
    analysis_shows
      (Some (CoordinatorAgent.by_platform rnd (filtered rnd filters σ0).1
               (ContentFilterAgent.fd_approved
                  (data (filtered rnd filters σ0).2)))) in
  (shows = [] ∧ an.2 = inl Py.ZeroDivisionError)
  ∨ (shows ≠ []
     ∧ ∃ a, an.2 = inr a
         ∧ AnalysisAgent.ranked_content (data a)
           = Py.sorted_rev (AnalysisAgent.key_of AnalysisAgent.FinalScore an.1)
                           shows).
Proof.
  intros σ0 an shows.
  assert (E : an.2 = (AnalysisAgent.execute
                        (Some (CoordinatorAgent.by_platform rnd
                                 (filtered rnd filters σ0).1
                                 (ContentFilterAgent.fd_approved
                                    (data (filtered rnd filters σ0).2))))
                        (Some (data (PersonalizationAgent.execute user_profile)))
                        (Some (data (MoodDetectionAgent.execute context)))
                        (filtered rnd filters σ0).1).2) by done.
  assert (E1 : an.1 = analysis_store
                        (Some (CoordinatorAgent.by_platform rnd
                                 (filtered rnd filters σ0).1
                                 (ContentFilterAgent.fd_approved
                                    (data (filtered rnd filters σ0).2))))
                        (Some (data (PersonalizationAgent.execute user_profile)))
                        (Some (data (MoodDetectionAgent.execute context)))
                        (filtered rnd filters σ0).1) by done.
  rewrite analysis_execute_unfold in E. cbv zeta in E. cbn [snd] in E.
  fold shows in E. rewrite <- E1 in E.
  destruct shows as [|r0 l] eqn:Es; [by left|]. right. split; [done|].
  eexists. split; [exact E|]. done.
Qed.

(** X17: a run fails only when the filter approves no candidate, and then
    with the division by zero; as soon as one candidate is approved the
    run succeeds, echoes the query and returns min(5, approved)
    recommendations, at least one, ranked 1, 2, ... *)
Theorem X17_run_fails_only_when_nothing_approved
    (research : string → AgentResult (list (string * list Seed)))
    (rnd : Random) (user_query : string) (user_profile : UserProfile)
    (context : Context) (filters : Filters) :
  set_order_ok rnd →
  let σ0 := candidates research user_query in
  let approved_refs :=
    ContentFilterAgent.fd_approved (data (filtered rnd filters σ0).2) in
  let out :=
    CoordinatorAgent.run research rnd user_query user_profile context
                         filters in
  (∀ e, out = CoordinatorAgent.Error e →
        approved_refs = [] ∧ e = "division by zero")
  ∧ (approved_refs ≠ [] →
     ∃ results stats,
       out = CoordinatorAgent.Success user_query results stats
       ∧ let recs := RecommendationAgent.recommendations results in
         length recs = 5 `min` length approved_refs
         ∧ 1 <= length recs
         ∧ RecommendationAgent.rank <$> recs = seq 1 (length recs)
         ∧ CoordinatorAgent.ws_approved stats = length approved_refs).
Proof.
  intros Hord σ0 approved_refs out.
  pose proof (shows_perm research rnd user_query filters Hord) as Hp.
  fold σ0 approved_refs in Hp.
  pose proof (run_unfold research rnd user_query user_profile context filters)
    as Hrun.
  cbv zeta in Hrun. fold σ0 out in Hrun.
  destruct (filtered_lists rnd filters σ0) as (_ & _ & _ & Hst).
  cbv zeta in Hst. rewrite Hst in Hrun. clear Hst.
  cbn [ContentFilterAgent.total_checked ContentFilterAgent.fs_approved
       ContentFilterAgent.fs_filtered] in Hrun.
  fold approved_refs in Hrun.
  set (σ3 := (filtered rnd filters σ0).1) in *.
  set (an := analysed rnd user_profile context filters σ0) in *.
  set (shows := analysis_shows
                  (Some (CoordinatorAgent.by_platform rnd σ3 approved_refs)))
    in *.
  destruct (analysed_cases research rnd user_query user_profile context filters)
    as [[Hs Ha]|[Hs (a & Ha & Hr)]];
    cbv zeta in Hs, Ha; fold σ0 σ3 approved_refs shows an in Hs, Ha.
  - rewrite Hs in Hp. apply Permutation_nil_l in Hp. rewrite Ha in Hrun.
    split.
    + intros e He. rewrite Hrun in He. by injection He as <-.
    + intros N. by rewrite <- Hp in N.
  - cbv zeta in Hr. fold σ0 σ3 approved_refs shows an in Hr.
    rewrite Ha in Hrun. split; [intros e He; by rewrite Hrun in He|].
    intros _. eexists _, _. split; [exact Hrun|]. cbv zeta.
    assert (Hl : length (AnalysisAgent.ranked_content (data a))
                 = length approved_refs).
    { rewrite Hr. apply Permutation_length. by rewrite sorted_rev_perm. }
    assert (Hlen : length (RecommendationAgent.recommendations
                     (data (RecommendationAgent.execute a
                              (Some (seq 0 (length σ0)))
                              (Some (seq 0 (length σ0))) an.1).2))
                   = 5 `min` length approved_refs).
    { rewrite <- Hl. apply recommendations_length. intros r Hin.
      rewrite Hr, sorted_rev_perm, Hp in Hin.
      apply approved_verdict in Hin as [_ Hin].
      pose proof (Forall2_length _ _ _
                    (analysed_base research rnd user_query user_profile
                       context filters)) as L4.
      fold σ0 an in L4. by rewrite <- L4. }
    split; [exact Hlen|]. split.
    + rewrite Hlen. assert (length approved_refs ≠ 0); [|lia].
      intros Z. apply nil_length_inv in Z. rewrite Z in Hp.
      by apply Permutation_nil_r in Hp.
    + split; [|done]. clear Hlen.
      unfold RecommendationAgent.execute. cbv zeta.
      cbn [snd data success RecommendationAgent.recommendations].
      rewrite length_imap. apply (recommend_ranks 1).
Qed.

Lemma X17_witness :
  set_order_ok Main.sample_random
  ∧ ∃ results stats,
      CoordinatorAgent.run Scenario.horror_provider Main.sample_random
        "tonight" Main.user_profile Main.context Main.filters
      = CoordinatorAgent.Success "tonight" results stats
      ∧ 1 <= length (RecommendationAgent.recommendations results).
Proof.
  split; [exact sample_random_ok|].
  destruct (X17_run_fails_only_when_nothing_approved
              Scenario.horror_provider Main.sample_random "tonight"
              Main.user_profile Main.context Main.filters sample_random_ok)
    as [_ H].
  destruct H as (results & stats & E & _ & L & _).
  - vm_compute. discriminate.
  - exists results, stats. split; [exact E | exact L].
Defined.

(** ** The recommendations of a run *)

Lemma deref_lookup (σ : Store) (refs : list Ref) (i : nat) :
  (∀ r, r ∈ refs → is_Some (σ !! r)) →
  deref σ refs !! i = refs !! i ≫= (σ !!.).
Proof.
  revert i. induction refs as [|r refs IH]; intros i H; [done|].
  unfold deref in *. cbn [omap list_omap].
  destruct (H r) as [s Es]; [left|]. rewrite Es.
  destruct i as [|i]; cbn [lookup list_lookup mbind option_bind]; [done|].
  apply IH. intros r' Hr'. apply H. by right.
Qed.

Lemma sorted_lookup {A} (R : A → A → Prop) (l : list A) (i j : nat) (a b : A) :
  StronglySorted R l → i < j → l !! i = Some a → l !! j = Some b → R a b.
Proof.
  intros Hs. revert i j. induction Hs as [|x l Hs IH Hx]; intros i j Hij Ha Hb;
    [done|].
  destruct j as [|j]; [lia|]. destruct i as [|i].
  - injection Ha as <-. rewrite Forall_forall in Hx. apply Hx.
    by eapply list_elem_of_lookup_2.
  - apply (IH i j); [lia|done|done].
Qed.

Lemma deref_titles_NoDup (σ : Store) (refs : list Ref) :
  NoDup (title <$> σ) → NoDup refs → NoDup (title <$> deref σ refs).
Proof.
  intros Hσ. induction 1 as [|r refs Hr Hnd IH]; [constructor|].
  unfold deref in *. cbn [omap list_omap].
  destruct (σ !! r) as [s|] eqn:Es; [|done].
  cbn [fmap list_fmap]. constructor; [|done].
  intros (s' & Ht & Hs')%list_elem_of_fmap.
  apply list_elem_of_omap in Hs' as (r' & Hr' & Es').
  assert (r = r'); [|congruence].
  apply (NoDup_lookup (title <$> σ) r r' (title s)); [done| |].
  - by rewrite list_lookup_fmap, Es.
  - by rewrite list_lookup_fmap, Es', Ht.
Qed.

(** What the analysis leaves on an approved show: the provider's fields,
    a rating that passed the quality bar, and the final score. *)
Lemma ranked_show
    (research : string → AgentResult (list (string * list Seed)))
    (rnd : Random) (user_query : string) (user_profile : UserProfile)
    (context : Context) (filters : Filters) (r : Ref) :
  set_order_ok rnd →
  let σ0 := candidates research user_query in
  let prefs := data (PersonalizationAgent.execute user_profile) in
  let mood := data (MoodDetectionAgent.execute context) in
  r ∈ ContentFilterAgent.fd_approved (data (filtered rnd filters σ0).2) →
  ∃ s, (analysed rnd user_profile context filters σ0).1 !! r = Some s
    ∧ Qle_bool (default 7.0%Q (min_quality_score filters)) (rating s) = true
    ∧ final_score s
      = Some (rating s * default 1.0 (genre_weights prefs !! genre s)
              * AnalysisAgent.mood_genre_boost (detected_mood mood) (genre s))%Q.
Proof.
  intros Hord σ0 prefs mood Hr.
  pose proof (shows_perm research rnd user_query filters Hord) as Hp.
  fold σ0 in Hp.
  pose proof Hr as [V _]%approved_verdict.
  apply verdict_of_seed in V as (s0 & E0 & _ & Hq).
  destruct (approved_valid _ _ _ _ _ Hr) as [s3 E3]. fold σ0 in E3.
  rewrite <- Hp in Hr.
  destruct (analysis_scores _ prefs mood _ r s3 Hr E3)
    as (s4 & E4 & (Ht & Hg & Hrt) & _ & _ & _ & _ & Hf).
  exists s4. split; [exact E4|].
  destruct (Forall2_lookup_lr _ _ _ r s0 s4
              (analysed_base research rnd user_query user_profile context
                 filters) E0 E4) as (_ & _ & Hr0).
  split; [by rewrite Hr0|]. by rewrite Hf, Hg, Hrt.
Qed.

(** X18: in a successful run over candidates with unique titles the
    recommendations come in non-increasing order of final score; each one
    has a rating that reaches the quality bar (7.0 by default) and a final
    score equal to rating × genre weight × mood boost; no title is
    recommended twice. *)
Theorem X18_recommendations_in_score_order
    (research : string → AgentResult (list (string * list Seed)))
    (rnd : Random) (user_query : string) (user_profile : UserProfile)
    (context : Context) (filters : Filters) (query : string)
    (results : RecommendationAgent.RecommendationData)
    (stats : CoordinatorAgent.WorkflowStats) :
  set_order_ok rnd →
  NoDup (title <$> candidates research user_query) →
  CoordinatorAgent.run research rnd user_query user_profile context filters
  = CoordinatorAgent.Success query results stats →
  let recs := RecommendationAgent.recommendations results in
  let prefs := data (PersonalizationAgent.execute user_profile) in
  let mood := data (MoodDetectionAgent.execute context) in
  (∀ i j a b, i < j → recs !! i = Some a → recs !! j = Some b →
     (RecommendationAgent.r_final_score b
      <= RecommendationAgent.r_final_score a)%Q)
  ∧ (∀ rec, rec ∈ recs →
       (default 7.0 (min_quality_score filters)
        <= RecommendationAgent.r_rating rec)%Q
       ∧ RecommendationAgent.r_final_score rec
         = (RecommendationAgent.r_rating rec
            * default 1.0 (genre_weights prefs
                             !! RecommendationAgent.r_genre rec)
            * AnalysisAgent.mood_genre_boost
                (detected_mood mood) (RecommendationAgent.r_genre rec))%Q)
  ∧ NoDup (RecommendationAgent.r_title <$> recs).
Proof.
  intros Hord Hnd Hrun recs prefs mood.
  destruct (run_success _ _ _ _ _ _ _ _ _ Hrun) as (_ & _ & _ & _ & Hrecs).
  specialize (Hrecs Hnd). fold recs in Hrecs.
  pose proof (shows_perm research rnd user_query filters Hord) as Hp.
  set (σ0 := candidates research user_query) in *.
  set (σ4 := (analysed rnd user_profile context filters σ0).1) in *.
  set (approved_refs :=
         ContentFilterAgent.fd_approved (data (filtered rnd filters σ0).2))
    in *.
  set (shows := analysis_shows _) in *.
  set (key := AnalysisAgent.key_of AnalysisAgent.FinalScore σ4) in *.
  set (ranked := Py.sorted_rev key shows) in *.
  assert (Hin : ∀ r, r ∈ ranked → r ∈ approved_refs).
  { intros r. unfold ranked. by rewrite sorted_rev_perm, Hp. }
  assert (Hshow : ∀ r, r ∈ ranked →
            ∃ s, σ4 !! r = Some s
              ∧ Qle_bool (default 7.0%Q (min_quality_score filters)) (rating s)
                = true
              ∧ final_score s
                = Some (rating s * default 1.0 (genre_weights prefs !! genre s)
                        * AnalysisAgent.mood_genre_boost (detected_mood mood)
                            (genre s))%Q).
  { intros r Hr. apply Hin in Hr.
    by apply (ranked_show research rnd user_query user_profile context
                filters). }
  assert (Hvalid : ∀ r, r ∈ take 5 ranked → is_Some (σ4 !! r)).
  { intros r Hr. apply (subseteq_take 5 ranked) in Hr.
    destruct (Hshow r Hr) as (s & -> & _). by eexists. }
  assert (Hat : ∀ i a, recs !! i = Some a →
            ∃ r s, ranked !! i = Some r ∧ σ4 !! r = Some s
                   ∧ a = RecommendationAgent.recommend (S i) s).
  { intros i a Ha. rewrite Hrecs, list_lookup_imap in Ha.
    apply fmap_Some in Ha as (s & Hs & ->).
    rewrite deref_lookup in Hs by done.
    apply bind_Some in Hs as (r & Hr & Hs).
    apply lookup_take_Some in Hr as [Hr _]. by exists r, s. }
  assert (Hkey : ∀ r s i, r ∈ ranked → σ4 !! r = Some s →
            RecommendationAgent.r_final_score
              (RecommendationAgent.recommend i s) = key r).
  { intros r s i Hr Es. destruct (Hshow r Hr) as (s' & Es' & _ & Hf).
    rewrite Es in Es'. injection Es' as <-.
    unfold key, AnalysisAgent.key_of. rewrite Es.
    cbn [from_option AnalysisAgent.ranking_key
         RecommendationAgent.r_final_score RecommendationAgent.recommend].
    by rewrite Hf. }
  split; [|split].
  - intros i j a b Hij Ha Hb.
    apply Hat in Ha as (ri & si & Ri & Si & ->).
    apply Hat in Hb as (rj & sj & Rj & Sj & ->).
    rewrite (Hkey ri si (S i) (list_elem_of_lookup_2 _ _ _ Ri) Si).
    rewrite (Hkey rj sj (S j) (list_elem_of_lookup_2 _ _ _ Rj) Sj).
    apply (sorted_lookup _ ranked i j ri rj (sorted_rev_sorted key shows));
      done.
  - intros rec (i & Hi)%list_elem_of_lookup_1.
    apply Hat in Hi as (r & s & Hr & Es & ->).
    apply list_elem_of_lookup_2 in Hr.
    destruct (Hshow r Hr) as (s' & Es' & Hq & Hf).
    rewrite Es in Es'. injection Es' as <-.
    cbn [RecommendationAgent.r_final_score RecommendationAgent.recommend
         RecommendationAgent.r_rating RecommendationAgent.r_genre].
    split; [by apply Qle_bool_iff|]. by rewrite Hf.
  - rewrite Hrecs. rewrite (recommend_titles 1).
    apply deref_titles_NoDup.
    + destruct (same_seed_fmap _ _
                  (analysed_base research rnd user_query user_profile context
                     filters)) as (Ht & _).
      fold σ0 σ4 in Ht. by rewrite Ht.
    + apply (sublist_NoDup _ ranked); [|apply sublist_take]. unfold ranked. rewrite sorted_rev_perm, Hp.
      unfold approved_refs.
      destruct (filtered_lists rnd filters σ0) as (-> & _).
      apply NoDup_filter, NoDup_seq.
Qed.

Lemma X18_witness :
  set_order_ok Main.sample_random
  ∧ NoDup (title <$> candidates Scenario.horror_provider "tonight")
  ∧ ∃ query results stats,
      CoordinatorAgent.run Scenario.horror_provider Main.sample_random
        "tonight" Main.user_profile Main.context Main.filters
      = CoordinatorAgent.Success query results stats
      ∧ NoDup (RecommendationAgent.r_title
                 <$> RecommendationAgent.recommendations results).
Proof.
  assert (Hnd : NoDup (title <$> candidates Scenario.horror_provider "tonight")).
  { apply (bool_decide_unpack _). vm_compute. exact I. }
  split; [exact sample_random_ok|]. split; [exact Hnd|].
  destruct (CoordinatorAgent.run Scenario.horror_provider Main.sample_random
              "tonight" Main.user_profile Main.context Main.filters)
    as [q r st|e] eqn:E.
  - exists q, r, st. split; [reflexivity|].
    destruct (X18_recommendations_in_score_order Scenario.horror_provider
                Main.sample_random "tonight" Main.user_profile Main.context
                Main.filters q r st sample_random_ok Hnd E) as (_ & _ & H).
    exact H.
  - vm_compute in E. discriminate E.
Defined.

Lemma confidence_trusted (show : Show) (rf : ReviewFields) :
  review show = Some rf → (8.0 < trust_score rf)%Q →
  let score := default (rating show) (final_score show) in
  let c := RecommendationAgent.calculate_confidence show in
  (c = RecommendationAgent.VeryHigh ↔ (9.0 < score)%Q)
  ∧ (c = RecommendationAgent.High ↔ (8.5 < score <= 9.0)%Q)
  ∧ (c = RecommendationAgent.Medium ↔ (8.0 < score <= 8.5)%Q)
  ∧ (c = RecommendationAgent.Low ↔ (score <= 8.0)%Q).
Proof.
  intros E Ht score c. unfold c, RecommendationAgent.calculate_confidence.
  rewrite E. cbn [fmap option_fmap option_map default id]. fold score.
  destruct (gtb_spec score 9.0) as [A1 A2].
  destruct (gtb_spec (trust_score rf) 8.0) as [B1 B2].
  destruct (gtb_spec score 8.5) as [C1 C2].
  destruct (gtb_spec (trust_score rf) 7.0) as [D1 D2].
  destruct (gtb_spec score 8.0) as [E1 E2].
  destruct (RecommendationAgent.gtb score 9.0);
    destruct (RecommendationAgent.gtb (trust_score rf) 8.0);
    destruct (RecommendationAgent.gtb score 8.5);
    destruct (RecommendationAgent.gtb (trust_score rf) 7.0);
    destruct (RecommendationAgent.gtb score 8.0);
    cbn [andb];
    repeat match goal with
    | H : true = true ↔ _ |- _ => apply proj1 in H; specialize (H eq_refl)
    | H : false = false ↔ _ |- _ => apply proj1 in H; specialize (H eq_refl)
    | H : true = false ↔ _ |- _ => clear H
    | H : false = true ↔ _ |- _ => clear H
    end;
    try (exfalso; lra);
    split_and!;
    (split; [try discriminate; intros _
            | try done; intros H';
              try match type of H' with _ ∧ _ => destruct H' end ]);
    first [lra | split; lra | exfalso; lra].
Qed.

(** The review fields of an approved show are still those the review
    stage stored for its position when the recommendations are built. *)
Lemma ranked_review
    (research : string → AgentResult (list (string * list Seed)))
    (rnd : Random) (user_query : string) (user_profile : UserProfile)
    (context : Context) (filters : Filters) (r : Ref) (s : Show) :
  set_order_ok rnd →
  let σ0 := candidates research user_query in
  r ∈ ContentFilterAgent.fd_approved (data (filtered rnd filters σ0).2) →
  (analysed rnd user_profile context filters σ0).1 !! r = Some s →
  ∃ s0, σ0 !! r = Some s0
    ∧ review s
      = review (ReviewAggregationAgent.aggregate (review_draw rnd r) s0).
Proof.
  intros Hord σ0 Hr E4.
  pose proof (shows_perm research rnd user_query filters Hord) as Hp.
  fold σ0 in Hp.
  destruct (approved_valid _ _ _ _ _ Hr) as [s3 E3]. fold σ0 in E3.
  rewrite <- Hp in Hr.
  destruct (analysis_scores _ (data (PersonalizationAgent.execute user_profile))
              (data (MoodDetectionAgent.execute context)) _ r s3 Hr E3)
    as (s4 & E4' & _ & _ & Hrev & _).
  assert (Some s4 = Some s) as [= ->] by (rewrite <- E4'; exact E4).
  rewrite filtered_store, list_lookup_imap in E3.
  apply fmap_Some in E3 as (s0 & E0 & ->).
  exists s0. split; [exact E0|]. by rewrite Hrev.
Qed.

(** X16: when every review draw stays inside the ranges it is drawn from,
    every recommendation of a run over uniquely titled candidates carries
    the critics' choice tag, the "strong" consensus among its reasons and
    a review summary, and its confidence label is decided by the final
    score alone. *)
Theorem X16_every_recommendation_is_critics_choice
    (research : string → AgentResult (list (string * list Seed)))
    (rnd : Random) (user_query : string) (user_profile : UserProfile)
    (context : Context) (filters : Filters) (query : string)
    (results : RecommendationAgent.RecommendationData)
    (stats : CoordinatorAgent.WorkflowStats) :
  set_order_ok rnd →
  NoDup (title <$> candidates research user_query) →
  (∀ k, (-5 <= rt_jitter (review_draw rnd k) <= 5)%Q
        ∧ (-8 <= mc_jitter (review_draw rnd k) <= 8)%Q) →
  CoordinatorAgent.run research rnd user_query user_profile context filters
  = CoordinatorAgent.Success query results stats →
  ∀ rec, rec ∈ RecommendationAgent.recommendations results →
    RecommendationAgent.CriticsChoice ∈ RecommendationAgent.tags rec
    ∧ RecommendationAgent.CriticalConsensus "strong"
      ∈ RecommendationAgent.reasons rec
    ∧ is_Some (RecommendationAgent.review_summary rec)
    ∧ let score := RecommendationAgent.r_final_score rec in
      let c := RecommendationAgent.confidence rec in
      (c = RecommendationAgent.VeryHigh ↔ (9.0 < score)%Q)
      ∧ (c = RecommendationAgent.High ↔ (8.5 < score <= 9.0)%Q)
      ∧ (c = RecommendationAgent.Medium ↔ (8.0 < score <= 8.5)%Q)
      ∧ (c = RecommendationAgent.Low ↔ (score <= 8.0)%Q).
Proof.
  intros Hord Hnd Hj Hrun rec Hrec.
  destruct (run_success _ _ _ _ _ _ _ _ _ Hrun) as (_ & _ & _ & _ & Hrecs).
  rewrite (Hrecs Hnd) in Hrec. clear Hrecs.
  apply list_elem_of_lookup_1 in Hrec as (i & Hi).
  rewrite list_lookup_imap in Hi. apply fmap_Some in Hi as (s & Hs & ->).
  apply list_elem_of_lookup_2, list_elem_of_omap in Hs as (r & Hr & Es).
  apply (subseteq_take 5) in Hr.
  rewrite sorted_rev_perm in Hr.
  rewrite (shows_perm research rnd user_query filters Hord) in Hr.
  destruct (ranked_review research rnd user_query user_profile context filters
              r s Hord Hr Es) as (s0 & _ & Hrev).
  destruct (ranked_show research rnd user_query user_profile context filters
              r Hord Hr) as (s' & Es' & _ & Hf).
  rewrite Es in Es'. injection Es' as <-.
  destruct (Hj r) as [J1 J2].
  destruct (stored_trust_in_range (review_draw rnd r) s0 J1 J2)
    as (rf & Erf & Hc & Ht1 & Ht2).
  rewrite <- Hrev in Erf.
  cbn [RecommendationAgent.recommend RecommendationAgent.tags
       RecommendationAgent.reasons RecommendationAgent.review_summary
       RecommendationAgent.r_final_score RecommendationAgent.confidence].
  assert (Hs : default (default (rating s) (personalized_score s))
                       (final_score s)
               = default (rating s) (final_score s)) by (by rewrite Hf).
  rewrite Hs. clear Hs Hf.
  split; [|split; [|split]].
  - unfold RecommendationAgent.generate_tags. rewrite Erf.
    cbn [fmap option_fmap option_map default id].
    destruct (gtb_spec (trust_score rf) 8.5) as [[_ G] _].
    rewrite G by lra. rewrite !elem_of_app.
    right. right. left. apply list_elem_of_singleton. done.
  - unfold RecommendationAgent.generate_reasons. rewrite Erf.
    cbn [from_option]. rewrite Hc, !elem_of_app.
    right. left. by apply list_elem_of_singleton.
  - rewrite Erf. by eexists.
  - apply (confidence_trusted s rf Erf). lra.
Qed.

Lemma sample_random_in_range (k : nat) :
  (-5 <= rt_jitter (review_draw Main.sample_random k) <= 5)%Q
  ∧ (-8 <= mc_jitter (review_draw Main.sample_random k) <= 8)%Q.
Proof.
  cbn [Main.sample_random review_draw rt_jitter mc_jitter].
  destruct (Nat.even k); repeat split; discriminate.
Qed.

Lemma X16_witness :
  set_order_ok Main.sample_random
  ∧ NoDup (title <$> candidates Scenario.horror_provider "tonight")
  ∧ ∃ query results stats,
      CoordinatorAgent.run Scenario.horror_provider Main.sample_random
        "tonight" Main.user_profile Main.context Main.filters
      = CoordinatorAgent.Success query results stats
      ∧ ∀ rec, rec ∈ RecommendationAgent.recommendations results →
          RecommendationAgent.CriticsChoice ∈ RecommendationAgent.tags rec.
Proof.
  assert (Hnd : NoDup (title <$> candidates Scenario.horror_provider "tonight")).
  { apply (bool_decide_unpack _). vm_compute. exact I. }
  split; [exact sample_random_ok|]. split; [exact Hnd|].
  destruct (CoordinatorAgent.run Scenario.horror_provider Main.sample_random
              "tonight" Main.user_profile Main.context Main.filters)
    as [q r st|e] eqn:E.
  - exists q, r, st. split; [reflexivity|]. intros rec Hrec.
    exact (proj1 (X16_every_recommendation_is_critics_choice
                    Scenario.horror_provider Main.sample_random "tonight"
                    Main.user_profile Main.context Main.filters q r st
                    sample_random_ok Hnd sample_random_in_range E rec Hrec)).
  - vm_compute in E. discriminate E.
Defined.

(** ** The merge of the recommendation stage *)

(** X19: the merge with the review and trend lists only ever touches
    ranked shows, and does nothing at all when the titles in the store
    are unique (each show then matches itself) or when both lists are
    missing or empty. *)
Theorem X19_merge_leaves_unique_titles_alone
    (analysis : AgentResult AnalysisAgent.Analysis)
    (review_data trend_data : option (list Ref)) (σ : Store) :
  let ranked := AnalysisAgent.ranked_content (data analysis) in
  let σ' := (RecommendationAgent.execute analysis review_data trend_data σ).1 in
  (∀ r, r ∉ ranked → σ' !! r = σ !! r)
  ∧ (NoDup (title <$> σ) → σ' = σ)
  ∧ (default [] review_data = [] → default [] trend_data = [] → σ' = σ).
Proof.
  intros ranked σ'.
  assert (E : σ' = RecommendationAgent.merge_if trend_data ranked
                     (RecommendationAgent.merge_if review_data ranked σ))
    by done.
  rewrite E. split; [|split].
  - intros r Hr.
    destruct (merge_if_frame review_data ranked σ) as (_ & _ & F1).
    destruct (merge_if_frame trend_data ranked
                (RecommendationAgent.merge_if review_data ranked σ))
      as (_ & _ & F2).
    by rewrite F2, F1.
  - intros Hnd. rewrite (merge_if_unique_titles review_data ranked σ Hnd).
    by apply merge_if_unique_titles.
  - intros H1 H2.
    destruct review_data as [[|]|], trend_data as [[|]|]; done.
Qed.

(** ** The mean rating *)

Lemma round_half_even_below (a : Z) (x : Q) :
  (x < inject_Z a + (1 # 2))%Q → (Py.round_half_even x <= a)%Z.
Proof.
  intros H. pose proof (Qfloor_le x) as L.
  assert (F : (Qfloor x <= a)%Z).
  { destruct (Z_le_gt_dec (Qfloor x) a) as [|G]; [done|]. exfalso.
    assert (G' : (a + 1 <= Qfloor x)%Z) by lia.
    rewrite Zle_Qle, inject_Z_plus in G'.
    change (inject_Z 1) with 1%Q in G'. lra. }
  unfold Py.round_half_even.
  destruct (Z.eq_dec (Qfloor x) a) as [E|NE].
  - rewrite E in *. destruct (Qcompare _ _) eqn:C.
    + apply Qeq_alt in C. lra.
    + lia.
    + apply Qgt_alt in C. lra.
  - destruct (Qcompare _ _); [destruct (Z.even _)| |]; lia.
Qed.

Lemma sum_bounds (lo hi : Q) (xs : list Q) (acc : Q) :
  (∀ x, x ∈ xs → (lo <= x <= hi)%Q) →
  (acc + lo * Py.len xs <= foldl Qplus acc xs <= acc + hi * Py.len xs)%Q.
Proof.
  revert acc. induction xs as [|x xs IH]; intros acc H.
  - unfold Py.len. cbn [length foldl]. change (inject_Z (Z.of_nat 0)) with 0%Q.
    lra.
  - cbn [foldl]. destruct (IH (acc + x)%Q) as [I1 I2].
    { intros y Hy. apply H. by right. }
    destruct (H x) as [X1 X2]; [left|].
    assert (E : (Py.len (x :: xs) == Py.len xs + 1)%Q).
    { unfold Py.len. cbn [length]. rewrite Nat2Z.inj_succ.
      unfold Z.succ. by rewrite inject_Z_plus. }
    set (n := Py.len xs) in *. set (m := Py.len (x :: xs)) in *.
    set (t := foldl Qplus (acc + x)%Q xs) in *.
    split; nra.
Qed.

Lemma div100 (v : Q) : (v / 100 == v * (1 # 100))%Q.
Proof. field. Qed.

(** X20: the mean rating the analysis reports lies between any two
    bounds, given in hundredths, that hold for the rating of every
    analysed show: rounding to two places never moves it past them. *)
Theorem X20_mean_rating_within_bounds
    (research_data : option (list (string * list Ref)))
    (prefs : option Preferences) (mood : option MoodProfile)
    (σ σ' : Store) (a : AgentResult AnalysisAgent.Analysis) (lo hi : Z) :
  AnalysisAgent.execute research_data prefs mood σ = (σ', inr a) →
  (∀ r, r ∈ analysis_shows research_data →
        ∃ s, σ !! r = Some s
             ∧ (inject_Z lo / 100 <= rating s <= inject_Z hi / 100)%Q) →
  (inject_Z lo / 100 <= AnalysisAgent.average_rating (data a)
   <= inject_Z hi / 100)%Q.
Proof.
  intros H Hb. rewrite analysis_execute_unfold in H. cbv zeta in H.
  set (shows := analysis_shows research_data) in *.
  set (σ3 := analysis_store research_data prefs mood σ) in *.
  assert (Hbase : Forall2 same_seed σ σ3).
  { apply analysis_store_base, Forall2_refl_on. by intros []. }
  destruct shows as [|r0 l] eqn:Es; [done|]. rewrite <- Es in *.
  injection H as _ <-.
  cbn [data success AnalysisAgent.average_rating].
  set (xs := rating <$> deref σ3 shows).
  assert (Hx : ∀ x, x ∈ xs →
            (inject_Z lo / 100 <= x <= inject_Z hi / 100)%Q).
  { intros x (s3 & -> & Hs3)%list_elem_of_fmap.
    apply list_elem_of_omap in Hs3 as (r & Hr & E3).
    destruct (Hb r Hr) as (s & E & B).
    destruct (Forall2_lookup_lr _ _ _ r s s3 Hbase E E3) as (_ & _ & ->).
    exact B. }
  assert (Hlen : Py.len xs = Py.len shows).
  { unfold Py.len, xs. rewrite length_fmap. do 2 f_equal.
    apply deref_length. intros r Hr. destruct (Hb r Hr) as (s & E & _).
    rewrite <- (Forall2_length _ _ _ Hbase). by eapply lookup_lt_Some. }
  assert (Hpos : (0 < Py.len shows)%Q).
  { rewrite Es. unfold Py.len. cbn [length]. rewrite Nat2Z.inj_succ.
    change 0%Q with (inject_Z 0). rewrite <- Zlt_Qlt. lia. }
  destruct (sum_bounds _ _ xs 0 Hx) as [S1 S2]. fold (Py.sum xs) in S1, S2.
  rewrite Hlen in S1, S2.
  set (n := Py.len shows) in *. set (t := Py.sum xs) in *.
  pose proof (div100 (inject_Z lo)) as Dlo.
  pose proof (div100 (inject_Z hi)) as Dhi.
  set (qlo := (inject_Z lo / 100)%Q) in *.
  set (qhi := (inject_Z hi / 100)%Q) in *.
  assert (M1 : (qlo <= t / n)%Q) by (apply Qle_shift_div_l; lra).
  assert (M2 : (t / n <= qhi)%Q) by (apply Qle_shift_div_r; lra).
  set (m := (t / n)%Q) in *.
  unfold Py.round. change (Py.pow10 2) with 100%Q.
  assert (A : (lo <= Py.round_half_even (m * 100))%Z)
    by (apply round_half_even_above; lra).
  assert (B : (Py.round_half_even (m * 100) <= hi)%Z)
    by (apply round_half_even_below; lra).
  rewrite Zle_Qle in A, B.
  set (k := inject_Z (Py.round_half_even (m * 100))) in *.
  pose proof (div100 k) as Dk. set (qk := (k / 100)%Q) in *.
  lra.
Qed.

Lemma X20_witness :
  ∃ σ' a,
    AnalysisAgent.execute (Some Scenario.small_data) None None
                          Scenario.small_store = (σ', inr a)
    ∧ (inject_Z 800 / 100 <= AnalysisAgent.average_rating (data a)
       <= inject_Z 900 / 100)%Q.
Proof.
  destruct (AnalysisAgent.execute (Some Scenario.small_data) None None
              Scenario.small_store) as [σ' [e|a]] eqn:E.
  - vm_compute in E. discriminate E.
  - exists σ', a. split; [reflexivity|].
    apply (X20_mean_rating_within_bounds _ _ _ _ _ _ 800 900 E).
    intros r Hr. change (r ∈ [0; 1; 2]) in Hr.
    repeat match goal with
    | H : _ ∈ _ :: _ |- _ => apply elem_of_cons in H as [->|H]
    | H : _ ∈ [] |- _ => by apply elem_of_nil in H
    end; (eexists; split; [reflexivity|]; split; discriminate).
Defined.

(** ** The regrouping before the analysis *)

(** X21: Phase 5 regroups the approved shows by platform: every platform
    appears once, its group is not empty and holds exactly the approved
    shows on that platform in their order, every approved show is in the
    group of its platform, and together the groups hold the approved
    shows, each once. *)
Theorem X21_regrouping_by_platform (rnd : Random) (σ : Store)
    (approved : list Ref) :
  set_order_ok rnd →
  (∀ r, r ∈ approved → is_Some (σ !! r)) →
  let groups := CoordinatorAgent.by_platform rnd σ approved in
  NoDup (fst <$> groups)
  ∧ (∀ p g, (p, g) ∈ groups →
       g ≠ [] ∧ g = filter (λ r, platform <$> σ !! r = Some p) approved)
  ∧ (∀ r s, r ∈ approved → σ !! r = Some s →
       ∃ g, (platform s, g) ∈ groups ∧ r ∈ g)
  ∧ concat (snd <$> groups) ≡ₚ approved.
Proof.
  intros Hord Hv groups.
  set (ps := platform <$> deref σ approved).
  destruct (Hord ps) as [Hnd Hin].
  assert (Hps : ∀ p, p ∈ ps ↔ ∃ r s, r ∈ approved ∧ σ !! r = Some s
                                    ∧ platform s = p).
  { intros p. unfold ps. rewrite list_elem_of_fmap. split.
    - intros (s & -> & (r & Hr & Es)%list_elem_of_omap). by exists r, s.
    - intros (r & s & Hr & Es & <-). exists s. split; [done|].
      apply list_elem_of_omap. by exists r. }
  split; [|split; [|split]].
  - unfold groups, CoordinatorAgent.by_platform. fold ps.
    rewrite <- list_fmap_compose.
    replace (fst ∘ _) with (@id string); [by rewrite list_fmap_id|done].
  - intros p g (p' & [= -> ->] & Hp)%list_elem_of_fmap. split; [|done].
    fold ps in Hp. apply Hin, Hps in Hp as (r & s & Hr & Es & Ep).
    intros N. assert (X : r ∈ filter (λ r, platform <$> σ !! r = Some p')
                                     approved).
    { apply list_elem_of_filter. split; [|done]. by rewrite Es, <- Ep. }
    rewrite N in X. by apply elem_of_nil in X.
  - intros r s Hr Es. eexists. split.
    + apply list_elem_of_fmap. exists (platform s). split; [done|].
      fold ps. apply Hin, Hps. by exists r, s.
    + apply list_elem_of_filter. split; [|done]. by rewrite Es.
  - by apply by_platform_perm.
Qed.

Lemma X21_witness :
  set_order_ok Main.sample_random
  ∧ NoDup (fst <$> CoordinatorAgent.by_platform Main.sample_random
                     Scenario.small_store [0; 1; 2]).
Proof.
  split; [exact sample_random_ok|].
  refine (proj1 (X21_regrouping_by_platform Main.sample_random
                   Scenario.small_store [0; 1; 2] sample_random_ok _)).
  intros r Hr.
  repeat match goal with
  | H : _ ∈ _ :: _ |- _ => apply elem_of_cons in H as [->|H]
  | H : _ ∈ [] |- _ => by apply elem_of_nil in H
  end; by eexists.
Defined.
